(** * make_distribution.py: the distribution pipeline of MODFLOW 6

    A shallow embedding of [make_distribution.py] and the properties of its
    configuration resolver, command runner, scaffolder, documentation check,
    run-script generation and archiver.

    Python values are modelled as follows: [str] and [bytes] are Rocq
    strings (sequences of bytes, text being UTF-8), [None]-able values are
    options, [int] is [Z], exceptions are the constructors of [exn], and a
    function of the script is a computation in the monad [M] that threads
    the process and its surroundings ([world]): [sys.argv], [os.environ],
    [sys.platform], the file system, the working directory, what was
    printed, the files opened for writing, the archives written, and the
    behaviour of the programs it launches. *)

From Stdlib Require Import ZArith Ascii String List Sorted Permutation.
From stdpp Require Import base option list gmap strings pretty sorting.

Open Scope string_scope.
Open Scope list_scope.
Set Warnings "-register-all".

(** ** Exceptions and results *)

Inductive exn : Type :=
| IndexError
| AttributeError
| UnicodeDecodeError
| TimeoutExpired
| AssertionError (msg : string)
| Exception (msg : string)
| FileNotFoundError (path : string)
| FileExistsError (path : string)
| NotADirectoryError (path : string)
| IsADirectoryError (path : string)
| ShutilError (path : string)
| ValueError (msg : string).

Inductive result (A : Type) : Type :=
| Ok (a : A)
| Raise (e : exn).
Arguments Ok {A} a.
Arguments Raise {A} e.

(** ** The file system: a tree of directories and files

    The entries of a directory are kept in the order in which the operating
    system lists them ([os.scandir], [os.listdir], [os.walk]); that order is
    arbitrary, so nothing below relies on it.  There are no symbolic links
    and no permissions other than the executable bit of a file. *)

Inductive node : Type :=
| File (data : string) (executable : bool)
| Dir (entries : list (string * node)).

(** ** Launched programs

    [subprocess.Popen(argv, stdout=PIPE, stderr=STDOUT, cwd=pth)] either
    fails to launch (no such executable, no such directory) or gives a
    process.  What the process does is not the script's business; the model
    takes it from the world: [first_communicate timeout] is the outcome of
    [process.communicate(timeout=timeout)], either an exception or the bytes
    of the standard output with the return code; [later_output] is the
    standard output handed out by a further [process.communicate()]; and
    [fs_after] is the file system the process leaves behind. *)

Record process : Type := Process {
  first_communicate : option Z -> exn + (string * Z);
  later_output : string;
  fs_after : node
}.

Record world : Type := World {
  sys_argv : list string;
  environ : gmap string string;
  sys_platform : string;
  fs : node;
  curdir : list string;
  stdout : list string;
  opened : list string;
  archives : gmap string (list (string * string));
  popen : list string -> string -> node -> list string -> exn + process
}.

(** ** The monad of the script: state and exceptions *)

Definition M (A : Type) : Type := world -> result A * world.

Definition ret {A} (a : A) : M A := fun w => (Ok a, w).

Definition bind {A B} (m : M A) (f : A -> M B) : M B :=
  fun w => match m w with
           | (Ok a, w') => f a w'
           | (Raise e, w') => (Raise e, w')
           end.

Definition raise {A} (e : exn) : M A := fun w => (Raise e, w).

Definition gets {A} (f : world -> A) : M A := fun w => (Ok (f w), w).

Definition modify (f : world -> world) : M unit := fun w => (Ok tt, f w).

Declare Scope py_scope.
Delimit Scope py_scope with py.
Notation "x <- c1 ;; c2" := (bind c1 (fun x => c2))
  (at level 100, c1 at next level, right associativity) : py_scope.
Notation "c1 ;; c2" := (bind c1 (fun _ => c2))
  (at level 100, right associativity) : py_scope.
Open Scope py_scope.

(** [try: body finally: cleanup] *)
Definition try_finally {A} (body : M A) (cleanup : M unit) : M A :=
  fun w => match body w with
           | (r, w') => match cleanup w' with
                        | (Ok _, w'') => (r, w'')
                        | (Raise e, w'') => (Raise e, w'')
                        end
           end.

(** [for x in xs: body] *)
Fixpoint for_each {A} (xs : list A) (body : A -> M unit) : M unit :=
  match xs with
  | [] => ret tt
  | x :: xs' => body x ;; for_each xs' body
  end.

(** [for idx, x in enumerate(xs): body], the loop updating local variables
    of type [St]. *)
Fixpoint for_enumerate_from {A St} (idx : nat) (xs : list A) (s : St)
    (body : nat -> A -> St -> M St) : M St :=
  match xs with
  | [] => ret s
  | x :: xs' => s' <- body idx x s ;; for_enumerate_from (S idx) xs' s' body
  end.

Definition for_enumerate {A St} (xs : list A) (s : St)
    (body : nat -> A -> St -> M St) : M St :=
  for_enumerate_from 0 xs s body.

(** [xs[i]] for a non-negative [i] *)
Definition index {A} (xs : list A) (i : nat) : M A :=
  match xs !! i with
  | Some x => ret x
  | None => raise IndexError
  end.

Definition print (line : string) : M unit :=
  modify (fun w => World (sys_argv w) (environ w) (sys_platform w) (fs w)
                         (curdir w) (stdout w ++ [line]) (opened w)
                         (archives w) (popen w)).

Definition os_environ_get (name : string) : M (option string) :=
  gets (fun w => environ w !! name).

Definition os_environ_set (name value : string) : M unit :=
  modify (fun w => World (sys_argv w) (<[name := value]> (environ w))
                         (sys_platform w) (fs w) (curdir w) (stdout w)
                         (opened w) (archives w) (popen w)).

(** ** Configuration resolver *)

Definition DISTRIBUTION_PATH : string := "./distribution/mf6dev".
Definition MODFLOW6_PATH : string := "../modflow6".
Definition MODFLOW6_EXAMPLES_PATH : string := "../modflow6-examples".
Definition FORTRAN_COMPILER : string := "gfortran".
Definition KEEP : bool := false.

Definition get_distribution_path (distribution_path : option string)
    : M string :=
  let distribution_path :=
    match distribution_path with
    | None => DISTRIBUTION_PATH
    | Some p => p
    end in
  argv <- gets sys_argv ;;
  distribution_path <-
    for_enumerate argv distribution_path (fun idx arg distribution_path =>
      if decide (arg = "-dp") then index argv (idx + 1)
      else ret distribution_path) ;;
  env_var <- os_environ_get "MODFLOW6_DISTRIBUTION_PATH" ;;
  match env_var with
  | Some v => ret v
  | None => ret distribution_path
  end.

Definition get_modflow6_path (modflow6_path : option string) : M string :=
  let modflow6_path :=
    match modflow6_path with
    | None => MODFLOW6_PATH
    | Some p => p
    end in
  argv <- gets sys_argv ;;
  modflow6_path <-
    for_enumerate argv modflow6_path (fun idx arg modflow6_path =>
      if decide (arg = "-mf6p") then index argv (idx + 1)
      else ret modflow6_path) ;;
  env_var <- os_environ_get "MODFLOW6_PATH" ;;
  match env_var with
  | Some v => ret v
  | None => ret modflow6_path
  end.

Definition get_modflow6_examples_path (modflow6_examples_path : option string)
    : M string :=
  let modflow6_examples_path :=
    match modflow6_examples_path with
    | None => MODFLOW6_EXAMPLES_PATH
    | Some p => p
    end in
  argv <- gets sys_argv ;;
  modflow6_examples_path <-
    for_enumerate argv modflow6_examples_path
      (fun idx arg modflow6_examples_path =>
        if decide (arg = "-mf6ep") then index argv (idx + 1)
        else ret modflow6_examples_path) ;;
  env_var <- os_environ_get "MODFLOW6_EXAMPLES_PATH" ;;
  match env_var with
  | Some v => ret v
  | None => ret modflow6_examples_path
  end.

Definition get_compiler (fortran_compiler : option string) : M string :=
  let set_environmental_var := true in
  argv <- gets sys_argv ;;
  st <-
    for_enumerate argv (fortran_compiler, set_environmental_var)
      (fun idx arg st =>
        if decide (arg = "-fc") then
          v <- index argv (idx + 1) ;; ret (Some v, true)
        else ret st) ;;
  let '(fortran_compiler, set_environmental_var) := st in
  st <-
    match fortran_compiler with
    | None =>
        fortran_compiler <- os_environ_get "FC" ;;
        match fortran_compiler with
        | Some _ => ret (fortran_compiler, false)
        | None => ret (fortran_compiler, set_environmental_var)
        end
    | Some _ => ret (fortran_compiler, set_environmental_var)
    end ;;
  let '(fortran_compiler, set_environmental_var) := st in
  let fortran_compiler :=
    match fortran_compiler with
    | None => FORTRAN_COMPILER
    | Some c => c
    end in
  (if set_environmental_var : bool then
     print ("setting environmental variable FC=" +:+ fortran_compiler) ;;
     os_environ_set "FC" fortran_compiler
   else ret tt) ;;
  ret fortran_compiler.

(** The default is stored in the local [ckeep], which is never read. *)
Definition get_keep (keep : option bool) : M (option bool) :=
  let ckeep := match keep with None => Some KEEP | Some _ => None end in
  argv <- gets sys_argv ;;
  keep <-
    for_enumerate argv keep (fun idx arg keep =>
      if bool_decide (arg = "-k") || bool_decide (arg = "--keep")
      then ret (Some true)
      else ret keep) ;;
  ret keep.

(** *** The precedence rules in the words of the specification *)

(** The value a flag is given on the command line: the argument that
    follows its last occurrence. *)
Fixpoint cli_value (flag : string) (argv : list string) : option string :=
  match argv with
  | [] => None
  | arg :: rest =>
      match cli_value flag rest with
      | Some v => Some v
      | None => if decide (arg = flag) then head rest else None
      end
  end.

(** [a ?? b]: [a] when it is set, [b] otherwise. *)
Definition or_else {A} (a : option A) (b : A) : A :=
  match a with
  | Some x => x
  | None => b
  end.

(** environment, then command line, then caller, then built-in default *)
Definition env_cli_caller_default (env cli caller : option string)
    (builtin : string) : string :=
  or_else env (or_else cli (or_else caller builtin)).

(** command line, then caller, then environment, then built-in default *)
Definition cli_caller_env_default (env cli caller : option string)
    (builtin : string) : string :=
  or_else cli (or_else caller (or_else env builtin)).

(** Where the compiler comes from. *)
Inductive source : Type :=
| FromCommandLine
| FromCaller
| FromEnvironment
| FromDefault.

Definition compiler_source (env cli caller : option string) : source :=
  match cli, caller, env with
  | Some _, _, _ => FromCommandLine
  | None, Some _, _ => FromCaller
  | None, None, Some _ => FromEnvironment
  | None, None, None => FromDefault
  end.

(** The flag is the last argument: nothing follows it. *)
Definition dangling (flag : string) (argv : list string) : Prop :=
  last argv = Some flag.

(** Does the command line ask to keep the intermediate outputs? *)
Definition keep_requested (argv : list string) : Prop :=
  "-k" ∈ argv \/ "--keep" ∈ argv.

(** *** Worlds to run the resolver in *)

Definition no_programs (argv : list string) (pth : string)
    (t : node) (cwd : list string) : exn + process :=
  inl (FileNotFoundError (hd "" argv)).

Definition bare_world (argv : list string) (env : gmap string string) : world :=
  World argv env "linux" (Dir []) [] [] [] ∅ no_programs.

(** The value-taking tunables, with the flag, the environment variable and
    the built-in default of each, and the function that resolves it. *)
Inductive tunable : Type :=
| DistributionPath
| Modflow6Path
| Modflow6ExamplesPath
| Compiler.

Definition flag_of (t : tunable) : string :=
  match t with
  | DistributionPath => "-dp"
  | Modflow6Path => "-mf6p"
  | Modflow6ExamplesPath => "-mf6ep"
  | Compiler => "-fc"
  end.

Definition env_of (t : tunable) : string :=
  match t with
  | DistributionPath => "MODFLOW6_DISTRIBUTION_PATH"
  | Modflow6Path => "MODFLOW6_PATH"
  | Modflow6ExamplesPath => "MODFLOW6_EXAMPLES_PATH"
  | Compiler => "FC"
  end.

Definition default_of (t : tunable) : string :=
  match t with
  | DistributionPath => DISTRIBUTION_PATH
  | Modflow6Path => MODFLOW6_PATH
  | Modflow6ExamplesPath => MODFLOW6_EXAMPLES_PATH
  | Compiler => FORTRAN_COMPILER
  end.

Definition resolve (t : tunable) (caller : option string) : M string :=
  match t with
  | DistributionPath => get_distribution_path caller
  | Modflow6Path => get_modflow6_path caller
  | Modflow6ExamplesPath => get_modflow6_examples_path caller
  | Compiler => get_compiler caller
  end.

(** The order of precedence each tunable follows. *)
Definition precedence_of (t : tunable)
    : option string -> option string -> option string -> string -> string :=
  match t with
  | Compiler => cli_caller_env_default
  | _ => env_cli_caller_default
  end.

(** [i] is the position of the last occurrence of [flag]. *)
Definition last_occurrence (flag : string) (argv : list string) (i : nat)
    : Prop :=
  argv !! i = Some flag /\ forall j, i < j -> argv !! j <> Some flag.

(** A command line that names the compiler while [FC] is set, one that
    gives a path twice, and the latter with the path's variable set. *)
Definition fc_conflict_world : world :=
  bare_world ["make_distribution.py"; "-fc"; "ifort"]
             {["FC" := "gfortran-9"]}.

Definition twice_world : world :=
  bare_world ["make_distribution.py"; "-dp"; "./first"; "-dp"; "./second"] ∅.

Definition twice_env_world : world :=
  bare_world ["make_distribution.py"; "-dp"; "./first"; "-dp"; "./second"]
             {["MODFLOW6_DISTRIBUTION_PATH" := "./from-env"]}.

Definition plain_world : world :=
  bare_world ["make_distribution.py"] ∅.

Definition env_fc_world : world :=
  bare_world ["make_distribution.py"] {["FC" := "ifort"]}.

(** ** Strings as Python has them *)

Definition nl : string := String "010" "".

(** [s.startswith(pre)] *)
Fixpoint startswith (pre s : string) : bool :=
  match pre, s with
  | "", _ => true
  | String _ _, "" => false
  | String a pre', String b s' => Ascii.eqb a b && startswith pre' s'
  end.

(** [needle in hay] *)
Fixpoint str_contains (needle hay : string) : bool :=
  match hay with
  | "" => startswith needle ""
  | String _ rest => startswith needle hay || str_contains needle rest
  end.

(** [sep.join(xs)] *)
Fixpoint str_join (sep : string) (xs : list string) : string :=
  match xs with
  | [] => ""
  | [x] => x
  | x :: rest => x +:+ sep +:+ str_join sep rest
  end.

Definition hex_digit (n : N) : ascii :=
  if (n <? 10)%N then ascii_of_N (48 + n) else ascii_of_N (87 + n).

(** [repr] of a string: single quotes unless the text has a single quote and
    no double quote; backslash, the quote, newline, carriage return and tab
    escaped, other control characters as [\xhh].  Bytes above 127 are
    copied, which is [repr] for text whose non-ASCII characters are
    printable. *)
Definition repr_char (quote c : ascii) : string :=
  let n := N_of_ascii c in
  if Ascii.eqb c quote || Ascii.eqb c "\" then String "\" (String c "")
  else if Ascii.eqb c "010" then "\n"
  else if Ascii.eqb c "013" then "\r"
  else if Ascii.eqb c "009" then "\t"
  else if (n <? 32)%N || (n =? 127)%N then
    String "\" (String "x"
      (String (hex_digit (n / 16)) (String (hex_digit (n mod 16)) "")))
  else String c "".

Fixpoint repr_body (quote : ascii) (s : string) : string :=
  match s with
  | "" => ""
  | String c rest => repr_char quote c +:+ repr_body quote rest
  end.

Definition repr_str (s : string) : string :=
  let quote : ascii :=
    if str_contains "'" s && negb (str_contains (String "034" "") s)
    then "034"%char else "'"%char in
  String quote (repr_body quote s) +:+ String quote "".

(** [repr] of a list of strings, as an f-string renders [{argv}]. *)
Definition repr_list (xs : list string) : string :=
  "[" +:+ str_join ", " (map repr_str xs) +:+ "]".

(** Well-formed UTF-8: what [bytes.decode("utf-8")] accepts. *)
Definition byte_in (lo hi : N) (c : ascii) : bool :=
  let n := N_of_ascii c in (lo <=? n)%N && (n <=? hi)%N.

Fixpoint utf8_valid (s : string) : bool :=
  match s with
  | "" => true
  | String c r0 =>
      if byte_in 0 127 c then utf8_valid r0
      else match r0 with
      | "" => false
      | String c1 r1 =>
          if byte_in 194 223 c then byte_in 128 191 c1 && utf8_valid r1
          else match r1 with
          | "" => false
          | String c2 r2 =>
              if byte_in 224 239 c then
                (if byte_in 224 224 c then byte_in 160 191 c1
                 else if byte_in 237 237 c then byte_in 128 159 c1
                 else byte_in 128 191 c1)
                && byte_in 128 191 c2 && utf8_valid r2
              else match r2 with
              | "" => false
              | String c3 r3 =>
                  byte_in 240 244 c
                  && (if byte_in 240 240 c then byte_in 144 191 c1
                      else if byte_in 244 244 c then byte_in 128 143 c1
                      else byte_in 128 191 c1)
                  && byte_in 128 191 c2 && byte_in 128 191 c3
                  && utf8_valid r3
              end
          end
      end
  end.

(** [b.decode("utf-8")]; on [None] the attribute does not exist. *)
Definition decode (b : option string) : M string :=
  match b with
  | None => raise AttributeError
  | Some bytes =>
      if utf8_valid bytes then ret bytes else raise UnicodeDecodeError
  end.

(** ** Command runner *)

(** [try: body except: handler] *)
Definition try_except {A} (body : M A) (handler : exn -> M A) : M A :=
  fun w => match body w with
           | (Ok a, w') => (Ok a, w')
           | (Raise e, w') => handler e w'
           end.

Definition with_fs (w : world) (t : node) : world :=
  World (sys_argv w) (environ w) (sys_platform w) t (curdir w) (stdout w)
        (opened w) (archives w) (popen w).

Definition set_fs (t : node) : M unit := modify (fun w => with_fs w t).

(** [subprocess.Popen(argv, stdout=PIPE, stderr=STDOUT, cwd=pth)] *)
Definition Popen (argv : list string) (pth : string) : M process :=
  fun w => match popen w argv pth (fs w) (curdir w) with
           | inl e => (Raise e, w)
           | inr p => (Ok p, w)
           end.

(** [with ... as process: body]: leaving the block waits for the process,
    whose effect on the file system is then in place. *)
Definition with_process {A} (p : process) (body : M A) : M A :=
  try_finally body (set_fs (fs_after p)).

(** [process.communicate(timeout=timeout)], the first call.  The standard
    error was redirected into the standard output ([stderr=STDOUT]), so the
    second component of the pair is [None], as [subprocess] documents. *)
Definition communicate (p : process) (timeout : option Z)
    : M (string * option string * Z) :=
  match first_communicate p timeout with
  | inl e => raise e
  | inr (output, returncode) => ret (output, None, returncode)
  end.

(** [process.communicate()] in a handler. *)
Definition communicate_again (p : process) : M (string * option string) :=
  ret (later_output p, None).

(** [process.kill()]: what the process leaves behind is in [fs_after]. *)
Definition kill (p : process) : M unit := ret tt.

Definition run_command (argv : list string) (pth : string)
    (timeout : option Z) (verbose terminate_on_failure : bool)
    : M (string * Z) :=
  (if verbose then
     print ("Running system command " +:+
            "(" +:+ str_join " " argv +:+ ") in directory: " +:+ pth)
   else ret tt) ;;
  process <- Popen argv pth ;;
  r <- with_process process
         (try_except
            (c <- communicate process timeout ;;
             let '(output, unused_err, returncode) := c in
             buff <- decode (Some output) ;;
             let ierr := returncode in
             ret (buff, ierr))
            (fun e =>
               match e with
               | TimeoutExpired =>
                   kill process ;;
                   c <- communicate_again process ;;
                   let '(output, unused_err) := c in
                   b1 <- decode (Some output) ;;
                   b2 <- decode unused_err ;;
                   let buff := b1 +:+ b2 in
                   let ierr := 100%Z in
                   ret (buff, ierr)
               | _ =>
                   c <- communicate_again process ;;
                   let '(output, unused_err) := c in
                   b1 <- decode (Some output) ;;
                   b2 <- decode unused_err ;;
                   let buff := b1 +:+ b2 in
                   let ierr := 101%Z in
                   ret (buff, ierr)
               end)) ;;
  let '(buff, ierr) := r in
  (if terminate_on_failure then
     if decide (ierr <> 0%Z) then
       (if verbose then
          print ("Failed to execute system command " +:+ repr_list argv) ;;
          print buff
        else ret tt) ;;
       raise (Exception
                (("Failed to execute system command " +:+ repr_list argv
                  +:+ nl)
                 +:+ ("return code " +:+ pretty ierr)))
     else ret tt
   else ret tt) ;;
  ret (buff, ierr).

(** *** Worlds to run commands in *)

(** A build tool that fails: it prints a diagnostic and exits with 2. *)
Definition failing_make : process :=
  Process (fun _ => inr ("make: *** No rule to make target 'all'.  Stop." +:+ nl,
                         2%Z))
          ("make: *** No rule to make target 'all'.  Stop." +:+ nl)
          (Dir []).

(** A program that is still running when the timeout expires and has
    printed [partial] by then. *)
Definition sleeper : process :=
  Process (fun timeout => match timeout with
                          | Some _ => inl TimeoutExpired
                          | None => inr ("partial" +:+ nl +:+ "done" +:+ nl, 0%Z)
                          end)
          ("partial" +:+ nl)
          (Dir []).

(** A program whose output is not UTF-8. *)
Definition garbler : process :=
  Process (fun _ => inr (String "255" "", 0%Z)) (String "255" "") (Dir []).

Definition programs (argv : list string) (pth : string)
    (t : node) (cwd : list string) : exn + process :=
  match argv with
  | "make" :: _ => inr failing_make
  | "sleep" :: _ => inr sleeper
  | "garble" :: _ => inr garbler
  | _ => inl (FileNotFoundError (hd "" argv))
  end.

Definition command_world : world :=
  World ["make_distribution.py"] ∅ "linux" (Dir []) [] [] [] ∅ programs.

(** ** Paths

    A path is a string, as in the script.  It is resolved to the list of
    the names from the root of the tree down to the entry it denotes:
    relative paths start at the working directory, empty components and [.]
    are skipped and [..] drops the last name (lexically, as
    [os.path.normpath] does; with no symbolic links this is what the
    operating system finds whenever the directories passed through exist).
    The empty path denotes nothing. *)

Definition isabs (s : string) : bool := startswith "/" s.

(** [s.split("/")] *)
Fixpoint split_slash (s : string) : list string :=
  match s with
  | "" => [""]
  | String c rest =>
      if Ascii.eqb c "/" then "" :: split_slash rest
      else match split_slash rest with
           | [] => [String c ""]
           | first :: others => String c first :: others
           end
  end.

Fixpoint endswith_slash (s : string) : bool :=
  match s with
  | "" => false
  | String c "" => Ascii.eqb c "/"
  | String _ rest => endswith_slash rest
  end.

(** [os.path.join(a, b)] of [posixpath] *)
Definition os_path_join (a b : string) : string :=
  if isabs b then b
  else if bool_decide (a = "") || endswith_slash a then a +:+ b
  else a +:+ "/" +:+ b.

Definition step_component (stack : list string) (c : string) : list string :=
  if bool_decide (c = "") || bool_decide (c = ".") then stack
  else if bool_decide (c = "..") then removelast stack
  else stack ++ [c].

(** The names of [os.path.abspath(s)], which is
    [normpath(join(os.getcwd(), s))]. *)
Definition abspath_names (cwd : list string) (s : string) : list string :=
  fold_left step_component (split_slash s) (if isabs s then [] else cwd).

Definition components (cwd : list string) (s : string)
    : option (list string) :=
  if bool_decide (s = "") then None else Some (abspath_names cwd s).

(** A name an entry of a directory can have. *)
Definition plain (name : string) : bool :=
  negb (bool_decide (name = "")) && negb (bool_decide (name = "."))
  && negb (bool_decide (name = "..")) && negb (str_contains "/" name).

(** ** Trees *)

Fixpoint entry (name : string) (es : list (string * node)) : option node :=
  match es with
  | [] => None
  | (n, c) :: rest => if decide (n = name) then Some c else entry name rest
  end.

(** Replace the entry called [name], or add it as the last one. *)
Fixpoint set_entry (name : string) (c : node) (es : list (string * node))
    : list (string * node) :=
  match es with
  | [] => [(name, c)]
  | (n, old) :: rest =>
      if decide (n = name) then (n, c) :: rest
      else (n, old) :: set_entry name c rest
  end.

Fixpoint del_entry (name : string) (es : list (string * node))
    : list (string * node) :=
  match es with
  | [] => []
  | (n, c) :: rest =>
      if decide (n = name) then rest else (n, c) :: del_entry name rest
  end.

Fixpoint lookup_node (t : node) (p : list string) : option node :=
  match p with
  | [] => Some t
  | c :: p' =>
      match t with
      | File _ _ => None
      | Dir es =>
          match entry c es with
          | Some child => lookup_node child p'
          | None => None
          end
      end
  end.

(** Put [n] at [p]; the directory that is to hold it must exist. *)
Fixpoint put (t : node) (p : list string) (n : node) : option node :=
  match p with
  | [] => Some n
  | c :: p' =>
      match t with
      | File _ _ => None
      | Dir es =>
          match p' with
          | [] => Some (Dir (set_entry c n es))
          | _ =>
              match entry c es with
              | Some child =>
                  match put child p' n with
                  | Some child' => Some (Dir (set_entry c child' es))
                  | None => None
                  end
              | None => None
              end
          end
      end
  end.

(** Remove the entry at [p]. *)
Fixpoint unlink (t : node) (p : list string) : option node :=
  match p with
  | [] => None
  | c :: p' =>
      match t with
      | File _ _ => None
      | Dir es =>
          match p' with
          | [] => Some (Dir (del_entry c es))
          | _ =>
              match entry c es with
              | Some child =>
                  match unlink child p' with
                  | Some child' => Some (Dir (set_entry c child' es))
                  | None => None
                  end
              | None => None
              end
          end
      end
  end.

(** The chain of fresh directories [c1/c2/.../cn]. *)
Fixpoint chain (p : list string) : node :=
  match p with
  | [] => Dir []
  | c :: p' => Dir [(c, chain p')]
  end.

(** Make the directory [p] and those above it that are missing; fails when
    a file is in the way. *)
Fixpoint mkdirs (t : node) (p : list string) : option node :=
  match t with
  | File _ _ => None
  | Dir es =>
      match p with
      | [] => Some t
      | c :: p' =>
          match entry c es with
          | Some child =>
              match mkdirs child p' with
              | Some child' => Some (Dir (set_entry c child' es))
              | None => None
              end
          | None => Some (Dir (es ++ [(c, chain p')]))
          end
      end
  end.

(** Copy the entries [ses] one by one into the entries [fst acc], with
    [copy] for each; [snd acc] tells whether all went well so far. *)
Fixpoint merge_into (copy : node -> option node -> node * bool)
    (ses : list (string * node)) (acc : list (string * node) * bool)
    : list (string * node) * bool :=
  match ses with
  | [] => acc
  | (name, c) :: rest =>
      let m := copy c (entry name (fst acc)) in
      merge_into copy rest (set_entry name (fst m) (fst acc), snd acc && snd m)
  end.

(** Copy the tree [s] onto what is at the destination ([d], if anything):
    directories are merged, files are overwritten; a file cannot replace a
    directory nor a directory a file, such entries are left and reported
    ([false]) while the rest is copied. *)
Fixpoint merge (s : node) (d : option node) : node * bool :=
  match s with
  | File data x =>
      match d with
      | Some (Dir es) => (Dir es, false)
      | _ => (File data x, true)
      end
  | Dir ses =>
      match d with
      | Some (File data x) => (File data x, false)
      | _ =>
          let des := match d with Some (Dir des) => des | _ => [] end in
          let r := merge_into merge ses (des, true) in
          (Dir (fst r), snd r)
      end
  end.

Definition is_dir (n : option node) : bool :=
  match n with
  | Some (Dir _) => true
  | _ => false
  end.

Definition is_file (n : option node) : bool :=
  match n with
  | Some (File _ _) => true
  | _ => false
  end.

(** [drop_prefix p q] is [Some r] when [q = p ++ r]. *)
Fixpoint drop_prefix (p q : list string) : option (list string) :=
  match p, q with
  | [], _ => Some q
  | a :: p', b :: q' => if decide (a = b) then drop_prefix p' q' else None
  | _ :: _, [] => None
  end.

(** Names are plain and no directory lists a name twice. *)
Fixpoint wf (t : node) : bool :=
  match t with
  | File _ _ => true
  | Dir es =>
      bool_decide (NoDup (map fst es)) &&
      forallb (fun e => plain (fst e) && wf (snd e)) es
  end.

(** ** The file system calls of the script *)

Definition set_opened (files : list string) : M unit :=
  modify (fun w => World (sys_argv w) (environ w) (sys_platform w) (fs w)
                         (curdir w) (stdout w) files (archives w) (popen w)).

Definition set_curdir (cwd : list string) : M unit :=
  modify (fun w => World (sys_argv w) (environ w) (sys_platform w) (fs w)
                         cwd (stdout w) (opened w) (archives w) (popen w)).

Definition set_archives (a : gmap string (list (string * string))) : M unit :=
  modify (fun w => World (sys_argv w) (environ w) (sys_platform w) (fs w)
                         (curdir w) (stdout w) (opened w) a (popen w)).

Definition resolve_path (s : string) : M (option (list string)) :=
  gets (fun w => components (curdir w) s).

(** What is at the path, if anything. *)
Definition node_at (w : world) (s : string) : option node :=
  match components (curdir w) s with
  | Some p => lookup_node (fs w) p
  | None => None
  end.

Definition stat (s : string) : M (option node) :=
  gets (fun w => node_at w s).

Definition os_path_isdir (s : string) : M bool :=
  n <- stat s ;; ret (is_dir n).

Definition os_path_isfile (s : string) : M bool :=
  n <- stat s ;; ret (is_file n).

Definition os_path_exists (s : string) : M bool :=
  n <- stat s ;; ret (bool_decide (is_Some n)).

Definition os_listdir (s : string) : M (list string) :=
  n <- stat s ;;
  match n with
  | Some (Dir es) => ret (map fst es)
  | Some (File _ _) => raise (NotADirectoryError s)
  | None => raise (FileNotFoundError s)
  end.

(** [os.makedirs(s)], with [exist_ok=False] *)
Definition os_makedirs (s : string) : M unit :=
  p <- resolve_path s ;;
  match p with
  | None => raise (FileNotFoundError s)
  | Some p =>
      t <- gets fs ;;
      match lookup_node t p with
      | Some _ => raise (FileExistsError s)
      | None =>
          match mkdirs t p with
          | Some t' => set_fs t'
          | None => raise (NotADirectoryError s)
          end
      end
  end.

(** [shutil.copytree(src, dst, dirs_exist_ok=True)].  The entries of the
    source are listed, the destination is made, and each entry is copied in
    turn.  A destination two or more levels inside the source, below an entry
    the source already has, makes [shutil] copy its own output without end
    until the system refuses; the model raises at once and leaves out what
    that run would have written.  The model is exact when the destination is
    outside the source, or is a new entry of it. *)
Definition shutil_copytree (src dst : string) : M unit :=
  ps <- resolve_path src ;;
  pd <- resolve_path dst ;;
  t <- gets fs ;;
  match ps, pd with
  | None, _ => raise (FileNotFoundError src)
  | _, None => raise (FileNotFoundError dst)
  | Some ps, Some pd =>
      match lookup_node t ps with
      | None => raise (FileNotFoundError src)
      | Some (File _ _) => raise (NotADirectoryError src)
      | Some (Dir ses) =>
          let runaway :=
            match drop_prefix ps pd with
            | Some (e1 :: _ :: _) => bool_decide (is_Some (entry e1 ses))
            | _ => false
            end in
          if runaway then raise (ShutilError dst)
          else if is_file (lookup_node t pd) then raise (FileExistsError dst)
          else
            match mkdirs t pd with
            | None => raise (NotADirectoryError dst)
            | Some t1 =>
                let m := merge (Dir ses) (lookup_node t1 pd) in
                match put t1 pd (fst m) with
                | None => raise (NotADirectoryError dst)
                | Some t2 =>
                    set_fs t2 ;;
                    if snd m then ret tt else raise (ShutilError dst)
                end
            end
      end
  end.

(** [os.remove(s)] *)
Definition os_remove (s : string) : M unit :=
  p <- resolve_path s ;;
  t <- gets fs ;;
  match p with
  | None => raise (FileNotFoundError s)
  | Some p =>
      match lookup_node t p with
      | None => raise (FileNotFoundError s)
      | Some (Dir _) => raise (IsADirectoryError s)
      | Some (File _ _) =>
          match unlink t p with
          | Some t' => set_fs t'
          | None => raise (FileNotFoundError s)
          end
      end
  end.

(** [open(s, "w")]: the file is created, or emptied if it exists. *)
Definition open_w (s : string) : M unit :=
  p <- resolve_path s ;;
  t <- gets fs ;;
  match p with
  | None => raise (FileNotFoundError s)
  | Some p =>
      match lookup_node t p with
      | Some (Dir _) => raise (IsADirectoryError s)
      | here =>
          let x := match here with Some (File _ x) => x | _ => false end in
          if is_dir (lookup_node t (removelast p)) then
            match put t p (File "" x) with
            | Some t' =>
                set_fs t' ;;
                files <- gets opened ;;
                set_opened (files ++ [s])
            | None => raise (FileNotFoundError s)
            end
          else if bool_decide (is_Some (lookup_node t (removelast p)))
          then raise (NotADirectoryError s)
          else raise (FileNotFoundError s)
      end
  end.

(** [f.write(text)] on the file opened at [s] *)
Definition f_write (s text : string) : M unit :=
  p <- resolve_path s ;;
  t <- gets fs ;;
  match p with
  | None => raise (FileNotFoundError s)
  | Some p =>
      match lookup_node t p with
      | Some (File data x) =>
          match put t p (File (data +:+ text) x) with
          | Some t' => set_fs t'
          | None => raise (FileNotFoundError s)
          end
      | _ => raise (FileNotFoundError s)
      end
  end.

(** [st = os.stat(s); os.chmod(s, st.st_mode | stat.S_IEXEC)] *)
Definition chmod_exec (s : string) : M unit :=
  p <- resolve_path s ;;
  t <- gets fs ;;
  match p with
  | None => raise (FileNotFoundError s)
  | Some p =>
      match lookup_node t p with
      | Some (File data _) =>
          match put t p (File data true) with
          | Some t' => set_fs t'
          | None => raise (FileNotFoundError s)
          end
      | Some (Dir _) => ret tt
      | None => raise (FileNotFoundError s)
      end
  end.

(** ** Distribution scaffolder *)

Definition initialize_new_distribution (modflow6_path distribution_path : string)
    : M unit :=
  print ("Creating new distribution path: " +:+ distribution_path) ;;
  already <- os_path_isdir distribution_path ;;
  (if already : bool then
     let errmsg :=
       "Distribution path cannot already exist. " +:+
       ("Remove " +:+ distribution_path +:+ ".") in
     raise (Exception errmsg)
   else os_makedirs distribution_path) ;;
  print "Copying src and srcbmi..." ;;
  shutil_copytree (modflow6_path +:+ "/src")
                  (os_path_join distribution_path "src") ;;
  shutil_copytree (modflow6_path +:+ "/srcbmi")
                  (os_path_join distribution_path "srcbmi") ;;
  let subdirs := ["bin"; "doc"; "examples"; "make"; "msvs"; "utils"] in
  for_each subdirs (fun sd =>
    let d := os_path_join distribution_path sd in
    print ("Creating directory " +:+ d) ;;
    os_makedirs d).

(** The subdirectories the scaffolder makes itself. *)
Definition scaffold_subdirs : list string :=
  ["bin"; "doc"; "examples"; "make"; "msvs"; "utils"].

(** A checkout of the upstream project next to an older distribution. *)
Definition upstream_tree : node :=
  Dir [("modflow6",
        Dir [("src", Dir [("mf6.f90", File "program mf6" false);
                          ("Utilities", Dir [("kind.f90", File "module kind" false)])]);
             ("srcbmi", Dir [("mf6bmi.f90", File "module mf6bmi" false)]);
             ("doc", Dir [])]);
       ("work", Dir [("distribution", Dir [("old", Dir [("bin", Dir [])])])])].

Definition scaffold_world : world :=
  World ["make_distribution.py"] ∅ "linux" upstream_tree ["work"] [] [] ∅
        no_programs.

(** ** Documentation rebuilder: the generated fragments *)

(** [os.chdir(s)] *)
Definition os_chdir (s : string) : M unit :=
  p <- resolve_path s ;;
  t <- gets fs ;;
  match p with
  | None => raise (FileNotFoundError s)
  | Some p =>
      match lookup_node t p with
      | Some (Dir _) => set_curdir p
      | Some (File _ _) => raise (NotADirectoryError s)
      | None => raise (FileNotFoundError s)
      end
  end.

(** [with cwd(path): body] *)
Definition with_cwd {A} (path : string) (body : M A) : M A :=
  oldpwd <- gets curdir ;;
  os_chdir path ;;
  try_finally body (set_curdir oldpwd).

(** [[x for x in xs if keep(x)]] *)
Fixpoint filter_m {A} (xs : list A) (keep : A -> M bool) : M (list A) :=
  match xs with
  | [] => ret []
  | x :: rest =>
      b <- keep x ;;
      kept <- filter_m rest keep ;;
      ret (if b : bool then x :: kept else kept)
  end.

(** [assert cond, msg] *)
Definition assert (cond : bool) (msg : string) : M unit :=
  if cond then ret tt else raise (AssertionError msg).

Fixpoint all_dots (s : string) : bool :=
  match s with
  | "" => true
  | String c rest => Ascii.eqb c "." && all_dots rest
  end.

(** Split at the last dot: [Some (a, e)] with [s = a +:+ e], [e] starting
    with the last dot of [s]. *)
Fixpoint split_last_dot (s : string) : option (string * string) :=
  match s with
  | "" => None
  | String c rest =>
      match split_last_dot rest with
      | Some (a, e) => Some (String c a, e)
      | None => if Ascii.eqb c "." then Some ("", s) else None
      end
  end.

(** [os.path.splitext(name)] for a name without separators, as
    [os.listdir] gives them: the extension starts at the last dot, unless
    only dots come before it. *)
Definition splitext (name : string) : string * string :=
  match split_last_dot name with
  | Some (a, e) => if all_dots a then (name, "") else (a, e)
  | None => (name, "")
  end.

Fixpoint spaces (n : nat) : string :=
  match n with
  | O => ""
  | S n' => String " " (spaces n')
  end.

(** ["{:3d}".format(n)] *)
Definition format_3d (n : nat) : string :=
  let digits := pretty n in
  spaces (3 - String.length digits) +:+ digits.

(** The loop over the definition files: the text listing the fragments
    that are missing, and their number. *)
Fixpoint missing_tex (dfnfiles texfiles : list string)
    (missing : string) (icnt : nat) : string * nat :=
  match dfnfiles with
  | [] => (missing, icnt)
  | f :: rest =>
      if str_contains "common" f then missing_tex rest texfiles missing icnt
      else
        let fpth := f +:+ "-desc" in
        if bool_decide (fpth ∈ texfiles) then
          missing_tex rest texfiles missing icnt
        else
          let icnt := S icnt in
          let missing :=
            missing +:+ ("  " +:+ format_3d icnt +:+ " " +:+ fpth +:+ ".tex"
                         +:+ nl) in
          missing_tex rest texfiles missing icnt
  end.

(** The files of [folder] whose extension contains [ext], without their
    extension. *)
Definition list_stems (folder ext : string) : M (list string) :=
  names <- os_listdir folder ;;
  kept <- filter_m names (fun f =>
            isfile <- os_path_isfile (os_path_join folder f) ;;
            ret (isfile && str_contains ext (snd (splitext f)))) ;;
  ret (map (fun f => fst (splitext f)) kept).

(** The first lines of [rebuild_tex_from_dfn]: the fragments generated
    earlier are removed. *)
Definition remove_tex_files : M unit :=
  names <- os_listdir "tex" ;;
  files <- filter_m names (fun f => os_path_isfile (os_path_join "tex" f)) ;;
  for_each files (fun f =>
    let fpth := os_path_join "tex" f in
    os_remove fpth).

(** Its last lines: every definition file must have its fragment. *)
Definition check_tex_files : M unit :=
  dfnfiles <- list_stems "dfn" "dfn" ;;
  texfiles <- list_stems "tex" "tex" ;;
  let '(missing, icnt) := missing_tex dfnfiles texfiles "" 0 in
  let msg :=
    (nl +:+ pretty icnt +:+ " TeX file(s) are missing. ")
    +:+ ("Missing files:" +:+ nl +:+ missing) in
  assert (bool_decide (icnt = 0)) msg.

Definition mf6ivar_path (modflow6_path : string) : string :=
  os_path_join
    (os_path_join (os_path_join modflow6_path "doc") "mf6io") "mf6ivar".

Definition rebuild_tex_from_dfn (modflow6_path : string) : M unit :=
  print "Rebuilding the tex files from dfn by running mf6ivar.py" ;;
  let npth := mf6ivar_path modflow6_path in
  let pth := "./" in
  with_cwd npth
    (remove_tex_files ;;
     let argv := ["python"; "mf6ivar.py"] in
     _ <- run_command argv pth None true true ;;
     check_tex_files).

(** *** The completeness check in the words of the specification *)


(** A definition file that should have a fragment and has none. *)
Definition lacks_fragment (texfiles : list string) (f : string) : Prop :=
  str_contains "common" f = false /\ (f +:+ "-desc") ∉ texfiles.

Global Instance lacks_fragment_dec texfiles f :
  Decision (lacks_fragment texfiles f).
Proof. unfold lacks_fragment. apply _. Defined.



(** *** A documentation folder and a generator that forgets one fragment *)

Definition mf6ivar_before : node :=
  Dir [("dfn", Dir [("gwf-chd.dfn", File "chd" false);
                    ("gwf-wel.dfn", File "wel" false);
                    ("common.dfn", File "common" false);
                    ("readme.txt", File "notes" false)]);
       ("tex", Dir [("gwf-chd-desc.tex", File "stale" false)]);
       ("mf6ivar.py", File "generator" false)].

Definition mf6ivar_after : node :=
  Dir [("dfn", Dir [("gwf-chd.dfn", File "chd" false);
                    ("gwf-wel.dfn", File "wel" false);
                    ("common.dfn", File "common" false);
                    ("readme.txt", File "notes" false)]);
       ("tex", Dir [("gwf-chd-desc.tex", File "chd description" false);
                    ("gwf-chd-options.tex", File "chd options" false)]);
       ("mf6ivar.py", File "generator" false)].

Definition in_doc (t : node) : node :=
  Dir [("modflow6", Dir [("doc", Dir [("mf6io", Dir [("mf6ivar", t)])])])].

Definition forgetful_generator (argv : list string) (pth : string)
    (t : node) (cwd : list string) : exn + process :=
  inr (Process (fun _ => inr ("wrote 2 files" +:+ nl, 0%Z)) ""
               (in_doc mf6ivar_after)).

Definition doc_world : world :=
  World ["make_distribution.py"] ∅ "linux" (in_doc mf6ivar_before) [] [] []
        ∅ forgetful_generator.


(** ** Walking a tree *)

Definition dir_names (es : list (string * node)) : list string :=
  map fst (List.filter (fun e => is_dir (Some (snd e))) es).

Definition file_names (es : list (string * node)) : list string :=
  map fst (List.filter (fun e => negb (is_dir (Some (snd e)))) es).

(** [os.walk(top)], top down: the directory itself with the names of its
    subdirectories and of its other entries, then each subdirectory in
    turn. *)
Fixpoint walk (top : string) (t : node)
    : list (string * list string * list string) :=
  match t with
  | File _ _ => []
  | Dir es =>
      (top, dir_names es, file_names es)
      :: flat_map (fun e => walk (os_path_join top (fst e)) (snd e)) es
  end.

(** What cannot be listed is skipped, as [os.walk] does by default. *)
Definition os_walk (top : string)
    : M (list (string * list string * list string)) :=
  n <- stat top ;;
  match n with
  | Some t => ret (walk top t)
  | None => ret []
  end.

(** ** Archiver *)

(** [os.path.normpath] of [posixpath] *)
Definition normpath (path : string) : string :=
  if bool_decide (path = "") then "."
  else
    let initial_slashes :=
      if startswith "/" path then
        if startswith "//" path && negb (startswith "///" path) then 2 else 1
      else 0 in
    let comps := split_slash path in
    let new_comps :=
      fold_left (fun new_comps comp =>
        if bool_decide (comp = "") || bool_decide (comp = ".") then new_comps
        else if negb (bool_decide (comp = ".."))
                || (bool_decide (initial_slashes = 0)
                    && bool_decide (new_comps = []))
                || bool_decide (last new_comps = Some "..")
             then new_comps ++ [comp]
             else removelast new_comps) comps [] in
    let path := str_join "/" new_comps in
    let path :=
      match initial_slashes with
      | 0 => path
      | 1 => "/" +:+ path
      | _ => "//" +:+ path
      end in
    if bool_decide (path = "") then "." else path.

Fixpoint lstrip_slashes (s : string) : string :=
  match s with
  | String c rest => if Ascii.eqb c "/" then lstrip_slashes rest else s
  | "" => ""
  end.

(** The name [zipfile] stores for [arcname]: normalised, without leading
    separators. *)
Definition zip_arcname (arcname : string) : string :=
  lstrip_slashes (normpath arcname).

(** [zipfile.ZipFile(zipname, "w", zipfile.ZIP_DEFLATED)]: a new, empty
    archive.  The archive is kept apart from the tree. *)
Definition ZipFile_w (zipname : string) : M unit :=
  a <- gets archives ;;
  set_archives (<[zipname := []]> a).

(** [zipf.write(filename, arcname=arcname)] for a file *)
Definition zipf_write (zipname filename arcname : string) : M unit :=
  n <- stat filename ;;
  match n with
  | Some (File data _) =>
      a <- gets archives ;;
      match a !! zipname with
      | Some members =>
          set_archives (<[zipname := members ++ [(zip_arcname arcname, data)]]> a)
      | None => raise (ValueError "Attempt to write to ZIP archive that was already closed")
      end
  | Some (Dir _) => raise (IsADirectoryError filename)
  | None => raise (FileNotFoundError filename)
  end.

Definition zipdir (dirname zipname : string) : M unit :=
  print ("Zipping directory: " +:+ dirname) ;;
  ZipFile_w zipname ;;
  triples <- os_walk dirname ;;
  for_each triples (fun triple =>
    let '(root, dirs, files) := triple in
    for_each files (fun file =>
      if negb (str_contains ".DS_Store" file) then
        let fname := os_path_join root file in
        print ("  Adding to zip: ==>  " +:+ fname) ;;
        zipf_write zipname fname fname
      else ret tt)) ;;
  print nl.

(** *** The files of a tree in the words of the specification *)


(** The path of a file: the names joined one by one to the path of the
    directory walked. *)
Definition path_below (top : string) (rel : list string) : string :=
  fold_left os_path_join rel top.


(** *** A distribution to archive *)

Definition small_distribution : node :=
  Dir [("mf6dev",
        Dir [("bin", Dir [("mf6", File "ELF" true)]);
             (".DS_Store", File "finder" false);
             ("doc", Dir [("mf6io.pdf", File "%PDF" false);
                          (".DS_Store", File "finder" false);
                          ("notes.DS_Store.txt", File "kept?" false)]);
             ("readme.md", File "MODFLOW 6" false)])].

Definition zip_world : world :=
  World ["make_distribution.py"] ∅ "linux" small_distribution [] [] [] ∅
        no_programs.





(** ** Example packager: the run scripts *)

Definition get_platform : M string :=
  sys_platform <- gets sys_platform ;;
  let platform := "unknown" in
  let platform :=
    if str_contains "linux" sys_platform then "linux"
    else if str_contains "darwin" sys_platform then "macos"
    else if str_contains "win" sys_platform then "windows"
    else platform in
  ret platform.

(** [for x in xs: body], the loop updating local variables of type [St]. *)
Fixpoint for_acc {A St} (xs : list A) (s : St) (body : A -> St -> M St)
    : M St :=
  match xs with
  | [] => ret s
  | x :: xs' => s' <- body x s ;; for_acc xs' s' body
  end.

(** [sorted(xs)] for strings: by code point, which for UTF-8 text is the
    order of the bytes. *)
Definition sorted (xs : list string) : list string :=
  merge_sort String.le xs.

Definition get_list_simulation_folders (pth : string) : M (list string) :=
  let simulation_folders := [] in
  triples <- os_walk pth ;;
  simulation_folders <-
    for_acc triples simulation_folders (fun triple simulation_folders =>
      let '(root, dirs, files) := triple in
      for_acc dirs simulation_folders (fun d simulation_folders =>
        let dwpath := os_path_join root d in
        names <- os_listdir dwpath ;;
        if bool_decide ("mfsim.nam" ∈ names)
        then ret (simulation_folders ++ [dwpath])
        else ret simulation_folders)) ;;
  let simulation_folders := sorted simulation_folders in
  ret simulation_folders.

Fixpoint common_prefix (xs ys : list string) : list string :=
  match xs, ys with
  | x :: xs', y :: ys' =>
      if decide (x = y) then x :: common_prefix xs' ys' else []
  | _, _ => []
  end.

(** [os.path.relpath(path, start)] of [posixpath], in the working
    directory [cwd], for a path that is not empty. *)
Definition relpath (cwd : list string) (path start : string) : string :=
  let start_list := abspath_names cwd start in
  let path_list := abspath_names cwd path in
  let i := length (common_prefix start_list path_list) in
  let rel_list := replicate (length start_list - i) ".." ++ drop i path_list in
  match rel_list with
  | [] => "."
  | _ => str_join "/" rel_list
  end.

Definition os_path_relpath (path start : string) : M string :=
  if bool_decide (path = "") then raise (ValueError "no path specified")
  else
    cwd <- gets curdir ;;
    ret (relpath cwd path start).

Definition build_example_run_scripts_linux (distribution_path : string)
    : M unit :=
  platform <- get_platform ;;
  if bool_decide (platform = "windows") then ret tt
  else
    print "Building example run scripts" ;;
    let examples_destination := os_path_join distribution_path "examples" in
    let mf6path :=
      os_path_join (os_path_join distribution_path "bin") "mf6" in
    simulation_folders <- get_list_simulation_folders examples_destination ;;
    for_each simulation_folders (fun dwpath =>
      let fname := os_path_join dwpath "run.sh" in
      print ("Adding " +:+ fname) ;;
      open_w fname ;;
      f_write fname ("#!/bin/bash" +:+ nl) ;;
      runloc <- os_path_relpath mf6path dwpath ;;
      f_write fname (runloc +:+ nl) ;;
      f_write fname ("echo ." +:+ nl) ;;
      chmod_exec fname) ;;
    let fname := os_path_join examples_destination "runall.sh" in
    open_w fname ;;
    f_write fname ("#!/bin/bash" +:+ nl) ;;
    for_each simulation_folders (fun dwpath =>
      d <- os_path_relpath dwpath examples_destination ;;
      let s := "cd " +:+ d in
      f_write fname (s +:+ nl) ;;
      runloc <- os_path_relpath mf6path dwpath ;;
      f_write fname (runloc +:+ nl) ;;
      d <- os_path_relpath examples_destination dwpath ;;
      let s := "cd " +:+ d in
      f_write fname (s +:+ nl) ;;
      let s := "" in
      f_write fname (s +:+ nl)) ;;
    chmod_exec fname.

(** *** The simulation folders in the words of the specification *)

Definition holds_marker (n : node) : bool :=
  match n with
  | Dir es => bool_decide ("mfsim.nam" ∈ map fst es)
  | File _ _ => false
  end.

(** The folders below a directory that hold the marker file, each by the
    names that lead to it from the directory: the subdirectories of the
    directory first, then what is below each entry. *)
Fixpoint marker_below (t : node) : list (list string) :=
  match t with
  | File _ _ => []
  | Dir es =>
      map (fun e => [fst e])
          (List.filter (fun e => is_dir (Some (snd e)) && holds_marker (snd e)) es)
      ++ flat_map (fun e => map (cons (fst e)) (marker_below (snd e))) es
  end.

Definition marker_folders (top : string) (t : node) : list string :=
  map (path_below top) (marker_below t).

(** The lines that make the aggregate script visit one folder. *)
Definition visit (cwd : list string) (examples_destination mf6path dwpath : string)
    : string :=
  (("cd " +:+ relpath cwd dwpath examples_destination) +:+ nl)
  +:+ (relpath cwd mf6path dwpath +:+ nl)
  +:+ (("cd " +:+ relpath cwd examples_destination dwpath) +:+ nl)
  +:+ ("" +:+ nl).

Fixpoint concat_strings (xs : list string) : string :=
  match xs with
  | [] => ""
  | x :: rest => x +:+ concat_strings rest
  end.

(** *** A distribution with three examples *)

Definition examples_distribution : node :=
  Dir [("mf6dev",
        Dir [("bin", Dir [("mf6", File "ELF" true)]);
             ("examples",
              Dir [("ex-gwt-b", Dir [("mfsim.nam", File "sim" false)]);
                   ("ex-gwf-a",
                    Dir [("mfsim.nam", File "sim" false);
                         ("mf6gwf", Dir [("mfsim.nam", File "sim" false)]);
                         ("data", Dir [("heads.csv", File "1,2" false)])]);
                   ("notes.txt", File "n" false)])])].

Definition examples_world : world :=
  World ["make_distribution.py"] ∅ "linux" examples_distribution [] [] [] ∅
        no_programs.

(** The body of the loop of [get_list_simulation_folders]. *)
Definition scan_walk (triple : string * list string * list string)
    (simulation_folders : list string) : M (list string) :=
  let '(root, dirs, files) := triple in
  for_acc dirs simulation_folders (fun d simulation_folders =>
    let dwpath := os_path_join root d in
    names <- os_listdir dwpath ;;
    if bool_decide ("mfsim.nam" ∈ names)
    then ret (simulation_folders ++ [dwpath])
    else ret simulation_folders).

(** Two worlds with the same working directory and the same directories. *)
Definition same_shape (w w' : world) : Prop :=
  curdir w' = curdir w /\
  forall q, is_dir (lookup_node (fs w') q) = is_dir (lookup_node (fs w) q).

(** The bodies of the two loops of [build_example_run_scripts_linux]. *)
Definition write_run_script (mf6path dwpath : string) : M unit :=
  let fname := os_path_join dwpath "run.sh" in
  print ("Adding " +:+ fname) ;;
  open_w fname ;;
  f_write fname ("#!/bin/bash" +:+ nl) ;;
  runloc <- os_path_relpath mf6path dwpath ;;
  f_write fname (runloc +:+ nl) ;;
  f_write fname ("echo ." +:+ nl) ;;
  chmod_exec fname.

Definition write_visit (fname examples_destination mf6path dwpath : string)
    : M unit :=
  d <- os_path_relpath dwpath examples_destination ;;
  let s := "cd " +:+ d in
  f_write fname (s +:+ nl) ;;
  runloc <- os_path_relpath mf6path dwpath ;;
  f_write fname (runloc +:+ nl) ;;
  d <- os_path_relpath examples_destination dwpath ;;
  let s := "cd " +:+ d in
  f_write fname (s +:+ nl) ;;
  let s := "" in
  f_write fname (s +:+ nl).

(** The platform on which [build_example_run_scripts_linux] does nothing. *)
Definition is_windows (sys_platform : string) : bool :=
  negb (str_contains "linux" sys_platform)
  && negb (str_contains "darwin" sys_platform)
  && str_contains "win" sys_platform.

(** ** Removing files *)

(** [delete_files(files, pth, allow_failure)]: the loop ends the function
    with [False] at the first file that cannot be removed, unless failures
    are allowed. *)
Fixpoint delete_files (files : list string) (pth : string)
    (allow_failure : bool) : M bool :=
  match files with
  | [] => ret true
  | file :: files' =>
      let fpth := os_path_join pth file in
      stop <- try_except
                (print ("removing..." +:+ file) ;;
                 os_remove fpth ;;
                 ret false)
                (fun _ =>
                   print ("could not remove..." +:+ file) ;;
                   if negb allow_failure then ret true else ret false) ;;
      if stop : bool then ret false
      else delete_files files' pth allow_failure
  end.


(** *** What the cleaning is about *)




(** [t'] is [t] with some of the files at [ps] removed and nothing else
    changed. *)
Definition pruned (ps : list (list string)) (t t' : node) : Prop :=
  (forall q, is_dir (lookup_node t' q) = is_dir (lookup_node t q)) /\
  (forall q, is_file (lookup_node t' q) = true ->
             lookup_node t' q = lookup_node t q) /\
  (forall q, is_file (lookup_node t q) = true -> q ∉ ps ->
             lookup_node t' q = lookup_node t q).

(** ** Release information *)




(** A world whose programs all run to the end, print [done] and exit with
    the status given. *)
Definition exiting (status : Z) (argv : list string) (pth : string)
    (t : node) (cwd : list string) : exn + process :=
  inr (Process (fun _ => inr ("done" +:+ nl, status)) "" t).

Definition approved_world : world :=
  World ["make_distribution.py"; "--isApproved"] ∅ "linux" (Dir []) [] [] []
        ∅ (exiting 0).

(** ** Copying files *)

(** [os.path.basename(s)] of [posixpath]: what follows the last separator. *)
Definition basename (s : string) : string :=
  default "" (last (split_slash s)).

(** [shutil.copy(src, dst)]: into the directory [dst] under the name of the
    source, or onto the path [dst]; the content and the mode are copied, the
    directory that is to hold the copy must exist.  A file copied onto
    itself is refused with [shutil.SameFileError], a [shutil.Error]. *)
Definition shutil_copy (src dst : string) : M string :=
  isdir <- os_path_isdir dst ;;
  let dst := if isdir : bool then os_path_join dst (basename src) else dst in
  ps <- resolve_path src ;;
  pd <- resolve_path dst ;;
  t <- gets fs ;;
  match ps with
  | None => raise (FileNotFoundError src)
  | Some ps =>
      match lookup_node t ps with
      | None => raise (FileNotFoundError src)
      | Some (Dir _) =>
          if bool_decide (pd = Some ps) then raise (ShutilError dst)
          else raise (IsADirectoryError src)
      | Some (File data x) =>
          match pd with
          | None => raise (FileNotFoundError dst)
          | Some pd =>
              if bool_decide (pd = ps) then raise (ShutilError dst)
              else
                match lookup_node t pd with
                | Some (Dir _) => raise (IsADirectoryError dst)
                | _ =>
                    if is_dir (lookup_node t (removelast pd)) then
                      match put t pd (File data x) with
                      | Some t' => set_fs t' ;; ret dst
                      | None => raise (FileNotFoundError dst)
                      end
                    else if bool_decide (is_Some (lookup_node t (removelast pd)))
                    then raise (NotADirectoryError dst)
                    else raise (FileNotFoundError dst)
                end
          end
      end
  end.

Definition copy_visual_studio_files (modflow6_path distribution_path : string)
    : M unit :=
  let flist :=
    [os_path_join (os_path_join modflow6_path "msvs") "mf6.sln";
     os_path_join (os_path_join modflow6_path "msvs") "mf6.vfproj";
     os_path_join (os_path_join modflow6_path "msvs") "mf6core.vfproj";
     os_path_join (os_path_join modflow6_path "msvs") "mf6bmi.sln";
     os_path_join (os_path_join modflow6_path "msvs") "mf6bmi.vfproj"] in
  print "Copying msvs files" ;;
  for_each flist (fun fname =>
    let destination_path := os_path_join distribution_path "msvs" in
    print ("  " +:+ fname +:+ " ===> " +:+ destination_path) ;;
    _ <- shutil_copy fname destination_path ;;
    ret tt) ;;
  print nl.

(** The project files of Visual Studio. *)
Definition msvs_files : list string :=
  ["mf6.sln"; "mf6.vfproj"; "mf6core.vfproj"; "mf6bmi.sln"; "mf6bmi.vfproj"].

(** ** The build files of meson *)

(** [os.walk(top, topdown=False)]: the subdirectories in turn, then the
    directory itself. *)
Fixpoint walk_bottom_up (top : string) (t : node)
    : list (string * list string * list string) :=
  match t with
  | File _ _ => []
  | Dir es =>
      flat_map (fun e => walk_bottom_up (os_path_join top (fst e)) (snd e)) es
      ++ [(top, dir_names es, file_names es)]
  end.

Definition os_walk_bottom_up (top : string)
    : M (list (string * list string * list string)) :=
  n <- stat top ;;
  match n with
  | Some t => ret (walk_bottom_up top t)
  | None => ret []
  end.

Definition paths_for_filename (filename pth : string) : M (list string) :=
  let result := [] in
  triples <- os_walk_bottom_up pth ;;
  for_acc triples result (fun triple result =>
    let '(root, dirs, files) := triple in
    let files := List.filter (fun f => bool_decide (f = filename)) files in
    for_acc files result (fun name result =>
      rpath <- os_path_relpath root pth ;;
      ret (result ++ [os_path_join rpath name]))).

Definition copy_meson_files (modflow6_path distribution_path : string)
    : M unit :=
  meson_files <- paths_for_filename "meson.build" modflow6_path ;;
  for_each meson_files (fun meson_file =>
    let src := os_path_join modflow6_path meson_file in
    let dst := os_path_join distribution_path meson_file in
    dst_exists <- os_path_exists dst ;;
    if negb dst_exists then
      print ("Copying " +:+ src +:+ " ===> " +:+ dst) ;;
      _ <- shutil_copy src dst ;;
      ret tt
    else ret tt).

(** *** The files of a name in the words of the comment of the function *)

(** The directories of a tree that hold a file called [filename], each by
    the names that lead to it: those below each entry first, then the tree
    itself. *)
Fixpoint holders (filename : string) (t : node) : list (list string) :=
  match t with
  | File _ _ => []
  | Dir es =>
      flat_map (fun e => map (cons (fst e)) (holders filename (snd e))) es
      ++ (if bool_decide (filename ∈ file_names es) then [[]] else [])
  end.

(** The path of the file of a holder, relative to the tree. *)
Definition relative_path (filename : string) (rel : list string) : string :=
  os_path_join (match rel with
                | [] => "."
                | _ => str_join "/" rel
                end) filename.

(** A checkout with build files at three levels, and a distribution that
    has one of them already. *)
Definition meson_tree : node :=
  Dir [("modflow6",
        Dir [("meson.build", File "project('modflow6')" false);
             ("src", Dir [("meson.build", File "sources" false);
                          ("mf6.f90", File "program mf6" false)]);
             ("utils", Dir [("zonebudget",
                             Dir [("meson.build", File "zbud6" false)])]);
             ("doc", Dir [("readme.md", File "docs" false)])]);
       ("mf6dev",
        Dir [("src", Dir [("meson.build", File "kept" false)]);
             ("utils", Dir [("zonebudget", Dir [])])])].

Definition meson_world : world :=
  World ["make_distribution.py"] ∅ "linux" meson_tree [] [] [] ∅ no_programs.

(** The entries the names [files] denote under [pth]. *)
Definition listed (cwd : list string) (pth : string) (files : list string)
    : list (list string) :=
  omap (fun f => components cwd (os_path_join pth f)) files.







(** ** Example packager: the batch files *)

(** The paths are those of [posixpath], as everywhere in this model; they
    are what the function computes where the platform is taken for Windows
    and [os.path] is [posixpath]. *)
Definition build_example_run_scripts_win (distribution_path : string)
    : M unit :=
  platform <- get_platform ;;
  if negb (bool_decide ("windows" = platform)) then ret tt
  else
    print "Building example run scripts" ;;
    let examples_destination := os_path_join distribution_path "examples" in
    let mf6path :=
      os_path_join (os_path_join distribution_path "bin") "mf6.exe" in
    simulation_folders <- get_list_simulation_folders examples_destination ;;
    for_each simulation_folders (fun dwpath =>
      let fname := os_path_join dwpath "run.bat" in
      print ("Adding " +:+ fname) ;;
      open_w fname ;;
      f_write fname ("@echo off" +:+ nl) ;;
      runbatloc <- os_path_relpath mf6path dwpath ;;
      f_write fname (runbatloc +:+ nl) ;;
      f_write fname ("echo." +:+ nl) ;;
      f_write fname ("echo Run complete.  Press any key to continue" +:+ nl) ;;
      f_write fname ("pause>nul" +:+ nl)) ;;
    let fname := os_path_join examples_destination "runall.bat" in
    open_w fname ;;
    for_each simulation_folders (fun dwpath =>
      d <- os_path_relpath dwpath examples_destination ;;
      let s := "cd " +:+ d in
      f_write fname (s +:+ nl) ;;
      runbatloc <- os_path_relpath mf6path dwpath ;;
      f_write fname (runbatloc +:+ nl) ;;
      d <- os_path_relpath examples_destination dwpath ;;
      let s := "cd " +:+ d in
      f_write fname (s +:+ nl) ;;
      let s := "" in
      f_write fname (s +:+ nl)) ;;
    f_write fname ("pause" +:+ nl).

(** The world of the examples on another platform. *)
Definition on_platform (platform : string) (w : world) : world :=
  World (sys_argv w) (environ w) platform (fs w) (curdir w) (stdout w)
        (opened w) (archives w) (popen w).

(** The body of the loop of [paths_for_filename]. *)
Definition collect_walk (filename pth : string)
    (triple : string * list string * list string) (result : list string)
    : M (list string) :=
  let '(root, dirs, files) := triple in
  let files := List.filter (fun f => bool_decide (f = filename)) files in
  for_acc files result (fun name result =>
    rpath <- os_path_relpath root pth ;;
    ret (result ++ [os_path_join rpath name])).

(** Nothing is lost from [w] to [w']: the working directory is the same,
    every file is where it was with its content and mode, and every
    directory is still a directory. *)
Definition keeps (w w' : world) : Prop :=
  curdir w' = curdir w /\
  (forall q, is_file (lookup_node (fs w) q) = true ->
             lookup_node (fs w') q = lookup_node (fs w) q) /\
  (forall q, is_dir (lookup_node (fs w) q) = true ->
             is_dir (lookup_node (fs w') q) = true).

(** The body of the loop of [copy_meson_files]. *)
Definition copy_meson_file (modflow6_path distribution_path meson_file : string)
    : M unit :=
  let src := os_path_join modflow6_path meson_file in
  let dst := os_path_join distribution_path meson_file in
  dst_exists <- os_path_exists dst ;;
  if negb dst_exists then
    print ("Copying " +:+ src +:+ " ===> " +:+ dst) ;;
    _ <- shutil_copy src dst ;;
    ret tt
  else ret tt.

(** ** Absolute paths *)




(** ** Release notes: the folder structure *)


(** ** Example packager: building the examples *)



(** *** The scripts that are run, in the words of the function *)









(** The body of the loop of [copy_visual_studio_files]. *)
Definition copy_msvs_file (distribution_path fname : string) : M unit :=
  let destination_path := os_path_join distribution_path "msvs" in
  print ("  " +:+ fname +:+ " ===> " +:+ destination_path) ;;
  _ <- shutil_copy fname destination_path ;;
  ret tt.

(** A checkout with its project files and a scaffolded distribution. *)
Definition msvs_tree : node :=
  Dir [("modflow6",
        Dir [("msvs", Dir [("mf6.sln", File "solution" false);
                           ("mf6.vfproj", File "project" false);
                           ("mf6core.vfproj", File "core" false);
                           ("mf6bmi.sln", File "bmi solution" false);
                           ("mf6bmi.vfproj", File "bmi project" false);
                           ("readme.txt", File "notes" false)])]);
       ("mf6dev", Dir [("msvs", Dir [("mf6.sln", File "old" false)])])].

Definition msvs_world : world :=
  World ["make_distribution.py"] ∅ "linux" msvs_tree [] [] [] ∅ no_programs.

(** ** Example packager: what a run script says *)

(** The computation changes nothing but what is at [p], above it or below
    it, when run in the working directory [c], which it keeps. *)
Definition touches {A} (c p : list string) (m : M A) : Prop :=
  forall w r w',
    curdir w = c -> m w = (r, w') ->
    curdir w' = c /\
    forall q, ~ p `prefix_of` q -> ~ q `prefix_of` p ->
              lookup_node (fs w') q = lookup_node (fs w) q.

(** The script of a simulation folder [depth] levels below the folder of
    the distribution. *)
Definition run_script (depth : nat) : string :=
  (("#!/bin/bash" +:+ nl)
   +:+ (str_join "/" (replicate depth ".." ++ ["bin"; "mf6"]) +:+ nl))
  +:+ ("echo ." +:+ nl).

(** The lines by which the aggregate script visits the folder reached from
    the examples folder by the names [rel]: enter, run, come back. *)
Definition visit_lines (rel : list string) : string :=
  (("cd " +:+ str_join "/" rel) +:+ nl)
  +:+ (str_join "/" (replicate (S (length rel)) ".." ++ ["bin"; "mf6"]) +:+ nl)
  +:+ (("cd " +:+ str_join "/" (replicate (length rel) "..")) +:+ nl)
  +:+ ("" +:+ nl).

(** The examples folder of [examples_distribution]. *)
Definition examples_folder : node :=
  Dir [("ex-gwt-b", Dir [("mfsim.nam", File "sim" false)]);
       ("ex-gwf-a",
        Dir [("mfsim.nam", File "sim" false);
             ("mf6gwf", Dir [("mfsim.nam", File "sim" false)]);
             ("data", Dir [("heads.csv", File "1,2" false)])]);
       ("notes.txt", File "n" false)].

(** * Properties *)

(** ** The monad *)

Lemma bind_ok {A B} (m : M A) (f : A -> M B) w a w' :
  m w = (Ok a, w') -> bind m f w = f a w'.
Proof. intros H. unfold bind. now rewrite H. Qed.

Lemma bind_raise {A B} (m : M A) (f : A -> M B) w e w' :
  m w = (Raise e, w') -> bind m f w = (Raise e, w').
Proof. intros H. unfold bind. now rewrite H. Qed.

(** ** Configuration resolver *)

Section FlagScan.
Variable flag : string.
Variable argv : list string.

(** The loop of the three path tunables. *)
Lemma scan_path pre xs (acc : string) w :
  argv = pre ++ xs -> ~ dangling flag xs ->
  for_enumerate_from (length pre) xs acc
    (fun idx arg cur =>
       if decide (arg = flag) then index argv (idx + 1) else ret cur) w
  = (Ok (or_else (cli_value flag xs) acc), w).
Proof.
  revert pre acc. induction xs as [|x xs IH]; intros pre acc Hargv Hl.
  - reflexivity.
  - assert (Hargv' : argv = (pre ++ [x]) ++ xs)
      by (rewrite <- app_assoc; exact Hargv).
    assert (Hlen : length (pre ++ [x]) = S (length pre))
      by (rewrite length_app; simpl; lia).
    simpl. destruct (decide (x = flag)) as [->|Hx].
    + destruct xs as [|v xs'].
      { exfalso. apply Hl. reflexivity. }
      assert (Hidx : argv !! (length pre + 1) = Some v).
      { rewrite Hargv'. rewrite lookup_app_r by (rewrite Hlen; lia).
        rewrite Hlen. replace (length pre + 1 - S (length pre)) with 0 by lia.
        reflexivity. }
      unfold index at 1. rewrite Hidx.
      erewrite bind_ok by reflexivity.
      rewrite <- Hlen. rewrite (IH _ v Hargv') by exact Hl.
      f_equal. f_equal.
      destruct (cli_value flag (v :: xs')); reflexivity.
    + erewrite bind_ok by reflexivity.
      assert (Hl' : ~ dangling flag xs).
      { intros Hd. apply Hl. unfold dangling in *.
        destruct xs; [discriminate | exact Hd]. }
      rewrite <- Hlen. rewrite (IH _ acc Hargv' Hl').
      f_equal. f_equal.
      destruct (cli_value flag xs); reflexivity.
Qed.

(** The loop of the compiler tunable. *)
Lemma scan_compiler pre xs (acc : option string * bool) w :
  argv = pre ++ xs -> ~ dangling flag xs ->
  for_enumerate_from (length pre) xs acc
    (fun idx arg st =>
       if decide (arg = flag) then
         v <- index argv (idx + 1) ;; ret (Some v, true)
       else ret st) w
  = (Ok (match cli_value flag xs with
         | Some v => (Some v, true)
         | None => acc
         end), w).
Proof.
  revert pre acc. induction xs as [|x xs IH]; intros pre acc Hargv Hl.
  - reflexivity.
  - assert (Hargv' : argv = (pre ++ [x]) ++ xs)
      by (rewrite <- app_assoc; exact Hargv).
    assert (Hlen : length (pre ++ [x]) = S (length pre))
      by (rewrite length_app; simpl; lia).
    simpl. destruct (decide (x = flag)) as [->|Hx].
    + destruct xs as [|v xs'].
      { exfalso. apply Hl. reflexivity. }
      assert (Hidx : argv !! (length pre + 1) = Some v).
      { rewrite Hargv'. rewrite lookup_app_r by (rewrite Hlen; lia).
        rewrite Hlen. replace (length pre + 1 - S (length pre)) with 0 by lia.
        reflexivity. }
      unfold index at 1. rewrite Hidx.
      erewrite bind_ok by reflexivity.
      rewrite <- Hlen. rewrite (IH _ (Some v, true) Hargv') by exact Hl.
      f_equal. f_equal.
      destruct (cli_value flag (v :: xs')); reflexivity.
    + erewrite bind_ok by reflexivity.
      assert (Hl' : ~ dangling flag xs).
      { intros Hd. apply Hl. unfold dangling in *.
        destruct xs; [discriminate | exact Hd]. }
      rewrite <- Hlen. rewrite (IH _ acc Hargv' Hl').
      f_equal. f_equal.
      destruct (cli_value flag xs); reflexivity.
Qed.
End FlagScan.

Lemma get_distribution_path_spec w caller :
  ~ dangling "-dp" (sys_argv w) ->
  get_distribution_path caller w
  = (Ok (env_cli_caller_default
           (environ w !! "MODFLOW6_DISTRIBUTION_PATH")
           (cli_value "-dp" (sys_argv w)) caller DISTRIBUTION_PATH), w).
Proof.
  intros Hd. unfold get_distribution_path, for_enumerate.
  erewrite bind_ok by reflexivity.
  erewrite bind_ok by (apply (scan_path "-dp" (sys_argv w) []); [reflexivity | exact Hd]).
  erewrite bind_ok by reflexivity.
  unfold env_cli_caller_default.
  destruct (environ w !! "MODFLOW6_DISTRIBUTION_PATH"),
    (cli_value "-dp" (sys_argv w)), caller; reflexivity.
Qed.

Lemma get_modflow6_path_spec w caller :
  ~ dangling "-mf6p" (sys_argv w) ->
  get_modflow6_path caller w
  = (Ok (env_cli_caller_default
           (environ w !! "MODFLOW6_PATH")
           (cli_value "-mf6p" (sys_argv w)) caller MODFLOW6_PATH), w).
Proof.
  intros Hd. unfold get_modflow6_path, for_enumerate.
  erewrite bind_ok by reflexivity.
  erewrite bind_ok by (apply (scan_path "-mf6p" (sys_argv w) []); [reflexivity | exact Hd]).
  erewrite bind_ok by reflexivity.
  unfold env_cli_caller_default.
  destruct (environ w !! "MODFLOW6_PATH"),
    (cli_value "-mf6p" (sys_argv w)), caller; reflexivity.
Qed.

Lemma get_modflow6_examples_path_spec w caller :
  ~ dangling "-mf6ep" (sys_argv w) ->
  get_modflow6_examples_path caller w
  = (Ok (env_cli_caller_default
           (environ w !! "MODFLOW6_EXAMPLES_PATH")
           (cli_value "-mf6ep" (sys_argv w)) caller MODFLOW6_EXAMPLES_PATH), w).
Proof.
  intros Hd. unfold get_modflow6_examples_path, for_enumerate.
  erewrite bind_ok by reflexivity.
  erewrite bind_ok by (apply (scan_path "-mf6ep" (sys_argv w) []); [reflexivity | exact Hd]).
  erewrite bind_ok by reflexivity.
  unfold env_cli_caller_default.
  destruct (environ w !! "MODFLOW6_EXAMPLES_PATH"),
    (cli_value "-mf6ep" (sys_argv w)), caller; reflexivity.
Qed.

(** What [get_compiler] returns and the world it leaves, in full. *)
Lemma get_compiler_spec w caller :
  ~ dangling "-fc" (sys_argv w) ->
  let env := environ w !! "FC" in
  let cli := cli_value "-fc" (sys_argv w) in
  let v := cli_caller_env_default env cli caller FORTRAN_COMPILER in
  get_compiler caller w
  = (Ok v,
     match compiler_source env cli caller with
     | FromEnvironment => w
     | _ => World (sys_argv w) (<["FC" := v]> (environ w)) (sys_platform w)
                  (fs w) (curdir w)
                  (stdout w ++ ["setting environmental variable FC=" +:+ v])
                  (opened w) (archives w) (popen w)
     end).
Proof.
  intros Hd. unfold get_compiler, for_enumerate.
  erewrite bind_ok by reflexivity.
  erewrite bind_ok
    by (apply (scan_compiler "-fc" (sys_argv w) []); [reflexivity | exact Hd]).
  unfold cli_caller_env_default, compiler_source.
  destruct (cli_value "-fc" (sys_argv w)) as [c|]; [reflexivity|].
  destruct caller as [c|]; [reflexivity|].
  cbn. unfold bind, os_environ_get, gets.
  destruct (environ w !! "FC") as [e|]; reflexivity.
Qed.

Lemma for_keep_flags xs idx (acc : option bool) w :
  for_enumerate_from idx xs acc
    (fun _ arg keep =>
       if bool_decide (arg = "-k") || bool_decide (arg = "--keep")
       then ret (Some true) else ret keep) w
  = (Ok (if bool_decide ("-k" ∈ xs \/ "--keep" ∈ xs) then Some true else acc), w).
Proof.
  revert idx acc. induction xs as [|x xs IH]; intros idx acc.
  - reflexivity.
  - cbn [for_enumerate_from].
    destruct (bool_decide (x = "-k") || bool_decide (x = "--keep")) eqn:Hx.
    + erewrite bind_ok by reflexivity. rewrite IH.
      rewrite (bool_decide_eq_true_2 (_ ∈ x :: xs \/ _)).
      * destruct (bool_decide _); reflexivity.
      * apply orb_true_iff in Hx as [Hx|Hx]; apply bool_decide_eq_true in Hx;
          subst x; [left | right]; constructor.
    + erewrite bind_ok by reflexivity. rewrite IH.
      apply orb_false_iff in Hx as [Hk Hkeep].
      apply bool_decide_eq_false in Hk, Hkeep.
      f_equal. f_equal.
      destruct (bool_decide ("-k" ∈ xs \/ "--keep" ∈ xs)) eqn:Hxs.
      * apply bool_decide_eq_true in Hxs.
        rewrite bool_decide_eq_true_2; [reflexivity|].
        destruct Hxs; [left | right]; now constructor.
      * apply bool_decide_eq_false in Hxs.
        rewrite bool_decide_eq_false_2; [reflexivity|].
        intros [H|H]; apply elem_of_cons in H as [H|H];
          try congruence; apply Hxs; auto.
Qed.

Lemma get_keep_spec w caller :
  get_keep caller w
  = (Ok (if bool_decide (keep_requested (sys_argv w)) then Some true
         else caller), w).
Proof.
  unfold get_keep, for_enumerate.
  erewrite bind_ok by reflexivity.
  erewrite bind_ok by apply for_keep_flags.
  reflexivity.
Qed.

Lemma resolve_spec w t caller :
  ~ dangling (flag_of t) (sys_argv w) ->
  fst (resolve t caller w)
  = Ok (precedence_of t (environ w !! env_of t)
          (cli_value (flag_of t) (sys_argv w)) caller (default_of t)).
Proof.
  intros Hd. destruct t; simpl in *.
  - now rewrite get_distribution_path_spec.
  - now rewrite get_modflow6_path_spec.
  - now rewrite get_modflow6_examples_path_spec.
  - now rewrite get_compiler_spec.
Qed.

Lemma cli_value_absent flag xs :
  (forall j, xs !! j <> Some flag) -> cli_value flag xs = None.
Proof.
  induction xs as [|x xs IH]; intros Hno; [reflexivity|].
  simpl. rewrite IH by (intros j; apply (Hno (S j))).
  destruct (decide (x = flag)) as [->|]; [|reflexivity].
  exfalso. now apply (Hno 0).
Qed.

Lemma cli_value_last flag argv i v :
  last_occurrence flag argv i -> argv !! S i = Some v ->
  cli_value flag argv = Some v.
Proof.
  revert i. induction argv as [|a rest IH]; intros i [Hi Hlast] Hv.
  - discriminate.
  - simpl. destruct i as [|i].
    + simpl in Hi. injection Hi as ->.
      rewrite cli_value_absent.
      * rewrite decide_True by reflexivity. now destruct rest.
      * intros j. apply (Hlast (S j)). lia.
    + erewrite IH; [reflexivity | | exact Hv].
      split; [exact Hi|]. intros j Hj. apply (Hlast (S j)). lia.
Qed.

Lemma last_occurrence_not_dangling flag argv i v :
  last_occurrence flag argv i -> argv !! S i = Some v ->
  ~ dangling flag argv.
Proof.
  intros [Hi Hlast] Hv Hd. unfold dangling in Hd.
  rewrite last_lookup in Hd.
  apply lookup_lt_Some in Hv.
  apply (Hlast (pred (length argv))); [lia | exact Hd].
Qed.

(** A flag with nothing after it: the missing-index failure. *)
Lemma scan_dangling {St} flag argv (step : string -> St) pre xs (acc : St) w :
  argv = pre ++ xs -> dangling flag xs ->
  for_enumerate_from (length pre) xs acc
    (fun idx arg cur =>
       if decide (arg = flag) then v <- index argv (idx + 1) ;; ret (step v)
       else ret cur) w
  = (Raise IndexError, w).
Proof.
  revert pre acc. induction xs as [|x xs IH]; intros pre acc Hargv Hd.
  - discriminate.
  - assert (Hargv' : argv = (pre ++ [x]) ++ xs)
      by (rewrite <- app_assoc; exact Hargv).
    assert (Hlen : length (pre ++ [x]) = S (length pre))
      by (rewrite length_app; simpl; lia).
    cbn [for_enumerate_from]. destruct xs as [|y xs'].
    + injection Hd as ->. rewrite decide_True by reflexivity.
      unfold index. rewrite lookup_ge_None_2.
      * reflexivity.
      * rewrite Hargv, length_app. simpl. lia.
    + assert (Hd' : dangling flag (y :: xs')) by exact Hd.
      destruct (decide (x = flag)) as [->|Hx].
      * unfold index at 1.
        replace (argv !! (length pre + 1)) with (Some y).
        -- erewrite (bind_ok (bind _ _)) by reflexivity.
           rewrite <- Hlen. now apply IH.
        -- rewrite Hargv', lookup_app_r by (rewrite Hlen; lia).
           rewrite Hlen.
           now replace (length pre + 1 - S (length pre)) with 0 by lia.
      * erewrite bind_ok by reflexivity. rewrite <- Hlen. now apply IH.
Qed.

Lemma get_compiler_dangling w caller :
  dangling "-fc" (sys_argv w) -> get_compiler caller w = (Raise IndexError, w).
Proof.
  intros Hd. unfold get_compiler, for_enumerate.
  erewrite bind_ok by reflexivity.
  erewrite bind_raise; [reflexivity|].
  apply (scan_dangling "-fc" (sys_argv w) (fun v => (Some v, true)) []);
    [reflexivity | exact Hd].
Qed.

(** C1, as the code has it. Each tunable is resolved by a fixed order of
    precedence, but not the same for all: the three paths take the
    environment variable first, then the command-line flag, then the caller's
    argument, then the built-in default; the compiler takes the command-line
    flag first, then the caller's argument, then the variable FC, then the
    default. The keep flag has no environment variable: it is true when -k or
    --keep is on the command line, and the caller's value otherwise when the
    caller gives one. *)
Theorem resolver_precedence w :
  (forall t caller, ~ dangling (flag_of t) (sys_argv w) ->
     fst (resolve t caller w)
     = Ok (precedence_of t (environ w !! env_of t)
             (cli_value (flag_of t) (sys_argv w)) caller (default_of t))) /\
  (forall t e, t <> Compiler -> ~ dangling (flag_of t) (sys_argv w) ->
     environ w !! env_of t = Some e ->
     forall caller, fst (resolve t caller w) = Ok e) /\
  (forall c, ~ dangling "-fc" (sys_argv w) ->
     cli_value "-fc" (sys_argv w) = Some c ->
     forall caller, fst (get_compiler caller w) = Ok c) /\
  (forall caller, keep_requested (sys_argv w) ->
     fst (get_keep caller w) = Ok (Some true)) /\
  (forall b, ~ keep_requested (sys_argv w) ->
     fst (get_keep (Some b) w) = Ok (Some b)).
Proof.
  split; [|split; [|split; [|split]]].
  - intros t caller Hd. now apply resolve_spec.
  - intros t e Ht Hd He caller. rewrite resolve_spec by exact Hd.
    rewrite He. now destruct t.
  - intros c Hd Hc caller. rewrite get_compiler_spec by exact Hd.
    simpl. now rewrite Hc.
  - intros caller Hk. rewrite get_keep_spec. simpl.
    now rewrite bool_decide_eq_true_2.
  - intros b Hk. rewrite get_keep_spec. simpl.
    now rewrite bool_decide_eq_false_2.
Qed.

Lemma resolver_precedence_witness :
  ~ dangling "-fc" (sys_argv fc_conflict_world) /\
  cli_value "-fc" (sys_argv fc_conflict_world) = Some "ifort" /\
  fst (get_compiler None fc_conflict_world) = Ok "ifort".
Proof.
  assert (Hd : ~ dangling "-fc" (sys_argv fc_conflict_world))
    by (vm_compute; discriminate).
  split; [exact Hd|]. split; [reflexivity|].
  destruct (resolver_precedence fc_conflict_world) as (_ & _ & Hfc & _).
  apply (Hfc "ifort" Hd). reflexivity.
Defined.

(** C1 as stated fails for the compiler: with FC set and -fc on the command
    line, the command line wins. *)
Lemma environment_does_not_override_fc_flag :
  ~ (forall w t caller e c,
       environ w !! env_of t = Some e ->
       cli_value (flag_of t) (sys_argv w) = Some c ->
       fst (resolve t caller w) = Ok e).
Proof.
  intros H.
  specialize (H fc_conflict_world Compiler None "gfortran-9" "ifort").
  assert (He : environ fc_conflict_world !! env_of Compiler = Some "gfortran-9")
    by (vm_compute; reflexivity).
  specialize (H He eq_refl). vm_compute in H. discriminate.
Qed.

(** C8 on the code: with neither -k nor --keep and no value from the caller,
    [get_keep] returns None, not the default KEEP (False). *)
Theorem get_keep_default_is_None :
  get_keep None plain_world = (Ok None, plain_world) /\
  Some KEEP <> (None : option bool).
Proof. split; [vm_compute; reflexivity | discriminate]. Qed.

(** C9. Resolving the compiler sets FC to the resolved value exactly when
    that value did not come from the environment; when it came from FC, the
    environment (and the rest of the world) is left as it was. *)
Theorem compiler_sets_FC_unless_from_environment w caller :
  ~ dangling "-fc" (sys_argv w) ->
  exists v w',
    get_compiler caller w = (Ok v, w') /\
    let src := compiler_source (environ w !! "FC")
                 (cli_value "-fc" (sys_argv w)) caller in
    (src = FromEnvironment ->
       environ w !! "FC" = Some v /\ w' = w) /\
    (src <> FromEnvironment ->
       environ w' = <["FC" := v]> (environ w)) /\
    (environ w' = <["FC" := v]> (environ w) /\
     stdout w' = stdout w ++ ["setting environmental variable FC=" +:+ v]
     <-> src <> FromEnvironment).
Proof.
  intros Hd. eexists _, _. split; [now apply get_compiler_spec|].
  cbv zeta. unfold compiler_source, cli_caller_env_default.
  destruct (cli_value "-fc" (sys_argv w)) as [c|];
    [|destruct caller as [c|]; [|destruct (environ w !! "FC") as [e|] eqn:He]];
    simpl; repeat split; try congruence; try tauto.
  intros [_ Hout] _.
  apply (f_equal length) in Hout. rewrite length_app in Hout. simpl in Hout. lia.
Qed.

Lemma compiler_sets_FC_unless_from_environment_witness :
  ~ dangling "-fc" (sys_argv env_fc_world) /\
  get_compiler None env_fc_world = (Ok "ifort", env_fc_world) /\
  environ (snd (get_compiler None plain_world)) !! "FC" = Some "gfortran".
Proof.
  assert (Hd : ~ dangling "-fc" (sys_argv env_fc_world))
    by (vm_compute; discriminate).
  assert (Hd' : ~ dangling "-fc" (sys_argv plain_world))
    by (vm_compute; discriminate).
  split; [exact Hd|]. split.
  - destruct (compiler_sets_FC_unless_from_environment env_fc_world None Hd)
      as (v & w' & Hrun & Henv & _).
    destruct (Henv eq_refl) as [Hv ->].
    vm_compute in Hv. injection Hv as <-. exact Hrun.
  - destruct (compiler_sets_FC_unless_from_environment plain_world None Hd')
      as (v & w' & Hrun & _ & Hset & _).
    rewrite Hrun. simpl. rewrite Hset by discriminate.
    rewrite lookup_insert_eq. f_equal.
    vm_compute in Hrun. now injection Hrun as <- _.
Defined.

(** C10, as the code has it. When a value-taking flag occurs several times,
    the value after its last occurrence is the one taken from the command
    line: it is what the resolver returns for the compiler, and for a path
    whenever the path's environment variable is not set. *)
Theorem last_occurrence_wins w t caller i v :
  last_occurrence (flag_of t) (sys_argv w) i ->
  sys_argv w !! S i = Some v ->
  (t <> Compiler -> environ w !! env_of t = None) ->
  fst (resolve t caller w) = Ok v.
Proof.
  intros Hlast Hv Henv.
  rewrite resolve_spec by (eapply last_occurrence_not_dangling; eauto).
  rewrite (cli_value_last _ _ _ _ Hlast Hv).
  destruct t; simpl in *; try (rewrite Henv by discriminate); reflexivity.
Qed.

Lemma last_occurrence_wins_witness :
  last_occurrence "-dp" (sys_argv twice_world) 3 /\
  sys_argv twice_world !! 1 = Some "-dp" /\
  fst (get_distribution_path None twice_world) = Ok "./second".
Proof.
  assert (Hlast : last_occurrence "-dp" (sys_argv twice_world) 3).
  { split; [reflexivity|]. intros j Hj.
    do 4 (destruct j as [|j]; [lia|]).
    destruct j as [|j]; [discriminate|]. discriminate. }
  split; [exact Hlast|]. split; [reflexivity|].
  apply (last_occurrence_wins twice_world DistributionPath None 3 "./second").
  - exact Hlast.
  - reflexivity.
  - intros _. vm_compute. reflexivity.
Defined.

(** C10 as stated fails when the path's environment variable is set: the
    variable is returned, not the value after the last -dp. *)
Lemma last_flag_value_loses_to_environment :
  ~ (forall w t caller i v,
       last_occurrence (flag_of t) (sys_argv w) i ->
       sys_argv w !! S i = Some v ->
       fst (resolve t caller w) = Ok v).
Proof.
  intros H.
  specialize (H twice_env_world DistributionPath None 3 "./second").
  assert (Hlast : last_occurrence "-dp" (sys_argv twice_env_world) 3).
  { split; [reflexivity|]. intros j Hj.
    do 4 (destruct j as [|j]; [lia|]).
    destruct j as [|j]; [discriminate|]. discriminate. }
  specialize (H Hlast eq_refl). vm_compute in H. discriminate.
Qed.

(** ** Command runner *)

Example repr_list_example :
  repr_list ["python"; "it's"; "a" +:+ nl] = "['python', " +:+ String "034" "it's"
    +:+ String "034" ", 'a\n']".
Proof. reflexivity. Qed.

Example utf8_valid_example :
  utf8_valid (String "195" (String "169" "")) = true /\
  utf8_valid (String "255" "") = false /\
  utf8_valid (String "195" "") = false.
Proof. now vm_compute. Qed.

Example run_make :
  run_command ["make"] "." None true false command_world
  = (Ok ("make: *** No rule to make target 'all'.  Stop." +:+ nl, 2%Z),
     World ["make_distribution.py"] ∅ "linux" (Dir []) []
       ["Running system command (make) in directory: ."] [] ∅ programs).
Proof. vm_compute. reflexivity. Qed.

(** The message of the exception raised on escalation. *)
Lemma run_command_completed w argv pth timeout verbose escalate p output ierr :
  popen w argv pth (fs w) (curdir w) = inr p ->
  first_communicate p timeout = inr (output, ierr) ->
  utf8_valid output = true ->
  let running := "Running system command " +:+
                 "(" +:+ str_join " " argv +:+ ") in directory: " +:+ pth in
  let failed := "Failed to execute system command " +:+ repr_list argv in
  let fatal := escalate && negb (ierr =? 0)%Z in
  run_command argv pth timeout verbose escalate w
  = (if fatal
     then Raise (Exception ((failed +:+ nl) +:+ ("return code " +:+ pretty ierr)))
     else Ok (output, ierr),
     World (sys_argv w) (environ w) (sys_platform w) (fs_after p) (curdir w)
           (stdout w ++ (if verbose then [running] else [])
                     ++ (if verbose && fatal then [failed; output] else []))
           (opened w) (archives w) (popen w)).
Proof.
  intros Hp Hc Hu. cbv zeta.
  unfold run_command, bind, Popen, with_process, try_finally, try_except,
    communicate, decode, print, modify, set_fs, ret, raise.
  destruct verbose, escalate; simpl; rewrite Hp, Hc, Hu; simpl.
  all: try destruct (decide (ierr <> 0%Z)) as [Hne|He]; simpl.
  all: try (apply Z.eqb_neq in Hne; rewrite Hne; simpl).
  all: try (assert (ierr = 0%Z) as -> by lia; simpl).
  all: rewrite <- ?app_assoc, ?app_nil_r; reflexivity.
Qed.







(** ** Paths and trees *)

Example scaffold_example :
  let r := initialize_new_distribution "../modflow6" "./distribution/mf6dev"
             scaffold_world in
  fst r = Ok tt /\
  fs (snd r) =
  Dir [("modflow6",
        Dir [("src", Dir [("mf6.f90", File "program mf6" false);
                          ("Utilities", Dir [("kind.f90", File "module kind" false)])]);
             ("srcbmi", Dir [("mf6bmi.f90", File "module mf6bmi" false)]);
             ("doc", Dir [])]);
       ("work", Dir [("distribution",
          Dir [("old", Dir [("bin", Dir [])]);
               ("mf6dev",
                Dir [("src", Dir [("mf6.f90", File "program mf6" false);
                                  ("Utilities", Dir [("kind.f90", File "module kind" false)])]);
                     ("srcbmi", Dir [("mf6bmi.f90", File "module mf6bmi" false)]);
                     ("bin", Dir []); ("doc", Dir []); ("examples", Dir []);
                     ("make", Dir []); ("msvs", Dir []); ("utils", Dir [])])])])].
Proof. vm_compute. split; reflexivity. Qed.

Example scaffold_existing_example :
  initialize_new_distribution "../modflow6" "./distribution/old" scaffold_world
  = (Raise (Exception "Distribution path cannot already exist. Remove ./distribution/old."),
     World ["make_distribution.py"] ∅ "linux" upstream_tree ["work"]
           ["Creating new distribution path: ./distribution/old"] [] ∅
           no_programs).
Proof. vm_compute. reflexivity. Qed.

Lemma bind_inv_ok {A B} (m : M A) (f : A -> M B) w b w' :
  bind m f w = (Ok b, w') ->
  exists a w1, m w = (Ok a, w1) /\ f a w1 = (Ok b, w').
Proof.
  unfold bind. destruct (m w) as [[a|e] w1]; [eauto | discriminate].
Qed.

Lemma str_app_cons c a b : String c a +:+ b = String c (a +:+ b).
Proof. reflexivity. Qed.

Lemma str_app_assoc a b c : (a +:+ b) +:+ c = a +:+ (b +:+ c).
Proof.
  induction a as [|x a IH]; [reflexivity|].
  rewrite !str_app_cons. now f_equal.
Qed.

Lemma split_slash_nonempty s : split_slash s <> [].
Proof.
  destruct s as [|c s]; simpl; [discriminate|].
  destruct (Ascii.eqb c "/"); [discriminate|].
  destruct (split_slash s); discriminate.
Qed.

Lemma split_slash_app a b :
  split_slash (a +:+ String "/" b) = split_slash a ++ split_slash b.
Proof.
  induction a as [|c a IH]; simpl.
  - reflexivity.
  - destruct (Ascii.eqb c "/"); rewrite IH; [reflexivity|].
    pose proof (split_slash_nonempty a) as Hne.
    destruct (split_slash a); [congruence | reflexivity].
Qed.

Lemma no_slash_cons c s :
  str_contains "/" (String c s) = false ->
  Ascii.eqb c "/" = false /\ str_contains "/" s = false.
Proof.
  cbn [str_contains startswith]. rewrite andb_true_r, Ascii.eqb_sym.
  intros H. now apply orb_false_iff in H.
Qed.

Lemma split_slash_no_slash s :
  str_contains "/" s = false -> split_slash s = [s].
Proof.
  induction s as [|c s IH]; intros H; [reflexivity|].
  apply no_slash_cons in H as [Hc Hs]. simpl. rewrite Hc, (IH Hs). reflexivity.
Qed.

Lemma endswith_slash_inv a :
  endswith_slash a = true -> exists a', a = a' +:+ "/".
Proof.
  induction a as [|c a IH]; [discriminate|].
  destruct a as [|c' a'].
  - simpl. intros H. apply Ascii.eqb_eq in H as ->. now exists "".
  - intros H. destruct (IH H) as [b Hb]. exists (String c b).
    change (String c b +:+ "/") with (String c (b +:+ "/")). now f_equal.
Qed.

Lemma isabs_app a b : a <> "" -> isabs (a +:+ b) = isabs a.
Proof.
  destruct a as [|c a]; [congruence|]. intros _. reflexivity.
Qed.

Lemma plain_inv name :
  plain name = true ->
  name <> "" /\ name <> "." /\ name <> ".." /\ str_contains "/" name = false.
Proof.
  unfold plain. intros H.
  repeat (apply andb_true_iff in H as [H ?]).
  repeat match goal with
         | H : negb _ = true |- _ => apply negb_true_iff in H
         | H : bool_decide _ = false |- _ => apply bool_decide_eq_false in H
         end.
  auto.
Qed.

Lemma step_component_plain stack name :
  plain name = true -> step_component stack name = stack ++ [name].
Proof.
  intros H. apply plain_inv in H as (H1 & H2 & H3 & _).
  unfold step_component.
  now rewrite !bool_decide_eq_false_2 by assumption.
Qed.

(** Joining a name to a path goes one level down. *)
Lemma components_join cwd a name p :
  plain name = true ->
  components cwd a = Some p ->
  components cwd (os_path_join a name) = Some (p ++ [name]).
Proof.
  intros Hplain Ha.
  pose proof (plain_inv _ Hplain) as (Hne & _ & _ & Hslash).
  unfold components, abspath_names in Ha.
  destruct (bool_decide (a = "")) eqn:Hempty; [discriminate|].
  apply bool_decide_eq_false in Hempty. injection Ha as <-.
  assert (Hrel : isabs name = false).
  { destruct name as [|c n]; [congruence|].
    apply no_slash_cons in Hslash as [Hc _].
    unfold isabs. cbn [startswith]. rewrite Ascii.eqb_sym, Hc. reflexivity. }
  unfold os_path_join. rewrite Hrel.
  rewrite (bool_decide_eq_false_2 (a = "")) by exact Hempty. simpl.
  destruct (endswith_slash a) eqn:Hend.
  - destruct (endswith_slash_inv _ Hend) as [a' ->].
    unfold components, abspath_names.
    rewrite bool_decide_eq_false_2
      by (destruct a'; simpl; discriminate).
    f_equal.
    assert (Habs : isabs ((a' +:+ "/") +:+ name) = isabs (a' +:+ "/"))
      by (apply isabs_app; destruct a'; discriminate).
    rewrite Habs.
    replace ((a' +:+ "/") +:+ name) with (a' +:+ String "/" name).
    + rewrite !split_slash_app, !fold_left_app.
      rewrite (split_slash_no_slash _ Hslash). simpl.
      now rewrite step_component_plain.
    + now rewrite str_app_assoc.
  - unfold components, abspath_names.
    rewrite bool_decide_eq_false_2 by (destruct a; [congruence | discriminate]).
    f_equal. rewrite isabs_app by exact Hempty.
    change (a +:+ "/" +:+ name) with (a +:+ String "/" name).
    rewrite split_slash_app, fold_left_app.
    rewrite (split_slash_no_slash _ Hslash). simpl.
    now rewrite step_component_plain.
Qed.

Lemma entry_set_entry_eq name c es : entry name (set_entry name c es) = Some c.
Proof.
  induction es as [|[n old] es IH]; simpl.
  - now rewrite decide_True.
  - destruct (decide (n = name)) as [->|Hn]; simpl.
    + now rewrite decide_True.
    + now rewrite decide_False.
Qed.

Lemma entry_set_entry_ne name name' c es :
  name <> name' -> entry name' (set_entry name c es) = entry name' es.
Proof.
  intros Hne. induction es as [|[n old] es IH]; simpl.
  - now rewrite decide_False.
  - destruct (decide (n = name)) as [->|Hn]; simpl.
    + now rewrite !decide_False.
    + destruct (decide (n = name')); [reflexivity | exact IH].
Qed.

Lemma set_entry_fresh name c es :
  entry name es = None -> set_entry name c es = es ++ [(name, c)].
Proof.
  induction es as [|[n old] es IH]; simpl; [reflexivity|].
  destruct (decide (n = name)); [discriminate|].
  intros H. now rewrite IH.
Qed.

Lemma lookup_node_app t p q :
  lookup_node t (p ++ q) =
  match lookup_node t p with
  | Some n => lookup_node n q
  | None => None
  end.
Proof.
  revert t. induction p as [|c p IH]; intros t; simpl; [reflexivity|].
  destruct t as [|es]; [reflexivity|].
  destruct (entry c es); [apply IH | reflexivity].
Qed.

Lemma lookup_node_file data x p :
  p <> [] -> lookup_node (File data x) p = None.
Proof. destruct p; [congruence | reflexivity]. Qed.

(** Nothing exists below what does not exist or is a file. *)
Lemma lookup_node_below t p q :
  is_dir (lookup_node t p) = false -> q <> [] ->
  lookup_node t (p ++ q) = None.
Proof.
  intros Hp Hq. rewrite lookup_node_app.
  destruct (lookup_node t p) as [[data x|es]|]; try reflexivity.
  - now apply lookup_node_file.
  - discriminate.
Qed.

Lemma lookup_chain_prefix p q :
  q `prefix_of` p -> is_dir (lookup_node (chain p) q) = true.
Proof.
  revert q. induction p as [|c p IH]; intros q Hq.
  - apply prefix_nil_inv in Hq as ->. reflexivity.
  - destruct q as [|c' q]; [reflexivity|].
    apply prefix_cons_inv_1 in Hq as Hc. subst c'.
    apply prefix_cons_inv_2 in Hq.
    simpl. rewrite decide_True by reflexivity. now apply IH.
Qed.

Lemma lookup_chain_other p q :
  ~ q `prefix_of` p -> lookup_node (chain p) q = None.
Proof.
  revert q. induction p as [|c p IH]; intros q Hq.
  - destruct q as [|c' q]; [|reflexivity].
    exfalso. apply Hq. apply prefix_nil.
  - destruct q as [|c' q]; [exfalso; apply Hq; apply prefix_nil|].
    simpl. destruct (decide (c = c')) as [->|Hne]; [|reflexivity].
    apply IH. intros Hpre. apply Hq. now apply prefix_cons.
Qed.

Lemma lookup_chain_leaf p : lookup_node (chain p) p = Some (Dir []).
Proof.
  induction p as [|c p IH]; [reflexivity|].
  simpl. now rewrite decide_True.
Qed.

Lemma put_same t p n t' :
  put t p n = Some t' -> lookup_node t' p = Some n.
Proof.
  revert t t'. induction p as [|c p IH]; intros t t' H.
  - simpl in H. now injection H as ->.
  - destruct t as [|es]; [discriminate|]. simpl in H.
    destruct p as [|c' p'].
    + injection H as <-. simpl. now rewrite entry_set_entry_eq.
    + destruct (entry c es) as [child|]; [|discriminate].
      destruct (put child (c' :: p') n) as [child'|] eqn:Hc; [|discriminate].
      injection H as <-.
      change (lookup_node (Dir (set_entry c child' es)) (c :: c' :: p'))
        with (match entry c (set_entry c child' es) with
              | Some ch => lookup_node ch (c' :: p')
              | None => None
              end).
      rewrite entry_set_entry_eq. exact (IH _ _ Hc).
Qed.

(** Putting something at [p] changes nothing beside [p]. *)
Lemma put_other t p n t' q :
  put t p n = Some t' -> ~ p `prefix_of` q -> ~ q `prefix_of` p ->
  lookup_node t' q = lookup_node t q.
Proof.
  revert t t' q. induction p as [|c p IH]; intros t t' q H Hpq Hqp.
  - exfalso. apply Hpq. apply prefix_nil.
  - destruct q as [|c2 q]; [exfalso; apply Hqp; apply prefix_nil|].
    destruct t as [|es]; [discriminate|]. simpl in H.
    destruct (decide (c = c2)) as [<-|Hne].
    + destruct p as [|c' p'].
      { exfalso. apply Hpq. apply prefix_cons, prefix_nil. }
      destruct (entry c es) as [child|] eqn:He; [|discriminate].
      destruct (put child (c' :: p') n) as [child'|] eqn:Hc; [|discriminate].
      injection H as <-. simpl. rewrite entry_set_entry_eq, He.
      apply (IH _ _ _ Hc).
      * intros Hp. apply Hpq. now apply prefix_cons.
      * intros Hp. apply Hqp. now apply prefix_cons.
    + assert (Ht' : exists x, t' = Dir (set_entry c x es)).
      { destruct p as [|c' p'].
        - injection H as <-. eauto.
        - destruct (entry c es) as [child|]; [|discriminate].
          destruct (put child (c' :: p') n) as [child'|]; [|discriminate].
          injection H as <-. eauto. }
      destruct Ht' as [x ->]. simpl.
      now rewrite entry_set_entry_ne.
Qed.

(** The directories above [p] stay directories. *)
Lemma put_above t p n t' q :
  put t p n = Some t' -> q `prefix_of` p -> q <> p ->
  is_dir (lookup_node t' q) = true.
Proof.
  revert t t' q. induction p as [|c p IH]; intros t t' q H Hqp Hne.
  - apply prefix_nil_inv in Hqp. congruence.
  - destruct t as [|es]; [discriminate|]. simpl in H.
    destruct q as [|c2 q].
    + destruct p as [|c' p'].
      * now injection H as <-.
      * destruct (entry c es) as [child|]; [|discriminate].
        destruct (put child (c' :: p') n) as [child'|]; [|discriminate].
        now injection H as <-.
    + apply prefix_cons_inv_1 in Hqp as Hc. subst c2.
      apply prefix_cons_inv_2 in Hqp.
      destruct p as [|c' p'].
      * apply prefix_nil_inv in Hqp. congruence.
      * destruct (entry c es) as [child|] eqn:He; [|discriminate].
        destruct (put child (c' :: p') n) as [child'|] eqn:Hc; [|discriminate].
        injection H as <-. simpl. rewrite entry_set_entry_eq.
        apply (IH _ _ _ Hc Hqp). congruence.
Qed.

Lemma put_keeps_dirs t p n t' q :
  put t p n = Some t' -> ~ p `prefix_of` q ->
  is_dir (lookup_node t q) = true -> is_dir (lookup_node t' q) = true.
Proof.
  intros H Hpq Hdir.
  destruct (decide (q `prefix_of` p)) as [Hqp|Hqp].
  - apply (put_above _ _ _ _ _ H Hqp). intros ->. now apply Hpq.
  - now rewrite (put_other _ _ _ _ _ H Hpq Hqp).
Qed.

Lemma mkdirs_above t p t' q :
  mkdirs t p = Some t' -> q `prefix_of` p ->
  is_dir (lookup_node t' q) = true.
Proof.
  revert t t' q. induction p as [|c p IH]; intros t t' q H Hqp.
  - apply prefix_nil_inv in Hqp as ->. destruct t; [discriminate|].
    simpl in H. now injection H as <-.
  - destruct t as [|es]; [discriminate|]. simpl in H.
    destruct q as [|c2 q].
    + destruct (entry c es) as [child|].
      * destruct (mkdirs child p); [|discriminate]. now injection H as <-.
      * now injection H as <-.
    + apply prefix_cons_inv_1 in Hqp as Hc. subst c2.
      apply prefix_cons_inv_2 in Hqp.
      destruct (entry c es) as [child|] eqn:He.
      * destruct (mkdirs child p) as [child'|] eqn:Hc; [|discriminate].
        injection H as <-. simpl. rewrite entry_set_entry_eq.
        now apply (IH _ _ _ Hc).
      * injection H as <-. simpl.
        rewrite <- (set_entry_fresh _ _ _ He), entry_set_entry_eq.
        now apply lookup_chain_prefix.
Qed.

(** Making directories changes nothing but at [p] and above. *)
Lemma mkdirs_other t p t' q :
  mkdirs t p = Some t' -> ~ q `prefix_of` p ->
  lookup_node t' q = lookup_node t q.
Proof.
  revert t t' q. induction p as [|c p IH]; intros t t' q H Hqp.
  - destruct t; [discriminate|]. simpl in H. now injection H as <-.
  - destruct t as [|es]; [discriminate|]. simpl in H.
    destruct q as [|c2 q]; [exfalso; apply Hqp; apply prefix_nil|].
    destruct (decide (c = c2)) as [<-|Hne].
    + assert (Hq : ~ q `prefix_of` p)
        by (intros Hp; apply Hqp; now apply prefix_cons).
      destruct (entry c es) as [child|] eqn:He.
      * destruct (mkdirs child p) as [child'|] eqn:Hc; [|discriminate].
        injection H as <-. simpl. rewrite entry_set_entry_eq, He.
        now apply (IH _ _ _ Hc).
      * injection H as <-. simpl.
        rewrite <- (set_entry_fresh _ _ _ He), entry_set_entry_eq, He.
        now apply lookup_chain_other.
    + assert (Ht' : exists x, t' = Dir (set_entry c x es)).
      { destruct (entry c es) as [child|] eqn:He.
        - destruct (mkdirs child p) as [child'|]; [|discriminate].
          injection H as <-. eauto.
        - injection H as <-. rewrite <- (set_entry_fresh _ _ _ He). eauto. }
      destruct Ht' as [x ->]. simpl. now rewrite entry_set_entry_ne.
Qed.

Lemma mkdirs_keeps_dirs t p t' q :
  mkdirs t p = Some t' ->
  is_dir (lookup_node t q) = true -> is_dir (lookup_node t' q) = true.
Proof.
  intros H Hdir.
  destruct (decide (q `prefix_of` p)) as [Hqp|Hqp].
  - now apply (mkdirs_above _ _ _ _ H).
  - now rewrite (mkdirs_other _ _ _ _ H Hqp).
Qed.

Lemma mkdirs_fresh_leaf t p t' :
  mkdirs t p = Some t' -> lookup_node t p = None ->
  lookup_node t' p = Some (Dir []).
Proof.
  revert t t'. induction p as [|c p IH]; intros t t' H Hnone.
  - discriminate.
  - destruct t as [|es]; [discriminate|]. simpl in H, Hnone |- *.
    destruct (entry c es) as [child|] eqn:He.
    + destruct (mkdirs child p) as [child'|] eqn:Hc; [|discriminate].
      injection H as <-. simpl. rewrite entry_set_entry_eq.
      now apply (IH _ _ Hc).
    + injection H as <-. simpl.
      rewrite <- (set_entry_fresh _ _ _ He), entry_set_entry_eq.
      apply lookup_chain_leaf.
Qed.

Lemma put_existing t p n old :
  lookup_node t p = Some old -> exists t', put t p n = Some t'.
Proof.
  revert t. induction p as [|c p IH]; intros t Hl.
  - simpl. eauto.
  - destruct t as [|es]; [discriminate|]. simpl in Hl |- *.
    destruct p as [|c' p']; [eauto|].
    destruct (entry c es) as [child|]; [|discriminate].
    destruct (IH _ Hl) as [child' ->]. eauto.
Qed.

Lemma put_in_dir t p c n :
  is_dir (lookup_node t p) = true -> exists t', put t (p ++ [c]) n = Some t'.
Proof.
  revert t. induction p as [|c0 p IH]; intros t Hdir.
  - destruct t as [|es]; [discriminate|]. simpl. eauto.
  - destruct t as [|es]; [discriminate|]. simpl in Hdir.
    destruct (entry c0 es) as [child|] eqn:He; [|discriminate].
    destruct (IH _ Hdir) as [child' Hput].
    cbn [app put]. rewrite He, Hput.
    destruct (p ++ [c]) eqn:Hpc; [now destruct p|]. eauto.
Qed.

Lemma put_ancestors t p n t' q :
  put t p n = Some t' -> q `prefix_of` p -> q <> p ->
  is_dir (lookup_node t q) = true.
Proof.
  revert t t' q. induction p as [|c p IH]; intros t t' q H Hqp Hne.
  - apply prefix_nil_inv in Hqp. congruence.
  - destruct t as [|es]; [discriminate|]. simpl in H.
    destruct q as [|c2 q]; [reflexivity|].
    apply prefix_cons_inv_1 in Hqp as Hc. subst c2.
    apply prefix_cons_inv_2 in Hqp.
    destruct p as [|c' p'].
    + apply prefix_nil_inv in Hqp. congruence.
    + destruct (entry c es) as [child|] eqn:He; [|discriminate].
      destruct (put child (c' :: p') n) as [child'|] eqn:Hc; [|discriminate].
      simpl. rewrite He. apply (IH _ _ _ Hc Hqp). congruence.
Qed.

(** Writing a file where there is no directory leaves every directory a
    directory and makes no new one. *)
Lemma put_file_skeleton t p data x t' :
  put t p (File data x) = Some t' ->
  is_dir (lookup_node t p) = false ->
  forall q, is_dir (lookup_node t' q) = is_dir (lookup_node t q).
Proof.
  intros Hput Hnd q.
  destruct (decide (p `prefix_of` q)) as [[k ->]|Hpq].
  - destruct k as [|c k].
    + rewrite app_nil_r, (put_same _ _ _ _ Hput). now rewrite Hnd.
    + rewrite (lookup_node_below t p (c :: k) Hnd) by discriminate.
      rewrite lookup_node_app, (put_same _ _ _ _ Hput). reflexivity.
  - destruct (decide (q `prefix_of` p)) as [Hqp|Hqp].
    + assert (Hne : q <> p) by (intros ->; now apply Hpq).
      rewrite (put_above _ _ _ _ _ Hput Hqp Hne).
      now rewrite (put_ancestors _ _ _ _ _ Hput Hqp Hne).
    + now rewrite (put_other _ _ _ _ _ Hput Hpq Hqp).
Qed.

(** Induction on trees, with the hypothesis for every entry of a directory. *)
Lemma node_induction (P : node -> Prop) :
  (forall data x, P (File data x)) ->
  (forall es, Forall (fun e => P (snd e)) es -> P (Dir es)) ->
  forall t, P t.
Proof.
  intros Hfile Hdir. fix IH 1. intros [data x|es].
  - apply Hfile.
  - apply Hdir. induction es as [|[name c] es IHes]; constructor.
    + apply IH.
    + exact IHes.
Qed.

Lemma wf_dir_inv es :
  wf (Dir es) = true ->
  NoDup (map fst es) /\
  Forall (fun e => plain (fst e) = true /\ wf (snd e) = true) es.
Proof.
  cbn [wf]. intros H. apply andb_true_iff in H as [Hnd Hall].
  apply bool_decide_eq_true in Hnd. split; [exact Hnd|].
  apply Forall_forall. intros e He.
  rewrite forallb_forall in Hall.
  apply andb_true_iff. apply Hall. now apply list_elem_of_In.
Qed.

Lemma entry_None_iff name es : entry name es = None <-> name ∉ map fst es.
Proof.
  induction es as [|[n c] es IH]; simpl.
  - split; [intros _ H; inversion H | reflexivity].
  - destruct (decide (n = name)) as [->|Hne].
    + split; [discriminate|]. intros H. exfalso. apply H. constructor.
    + rewrite IH. split.
      * intros H Hin. apply elem_of_cons in Hin as [?|?]; congruence.
      * intros H Hin. apply H. now constructor.
Qed.

Lemma entry_In name c es :
  NoDup (map fst es) -> (name, c) ∈ es -> entry name es = Some c.
Proof.
  induction es as [|[n c'] es IH]; intros Hnd Hin; [inversion Hin|].
  simpl in *. apply NoDup_cons in Hnd as [Hn Hnd].
  apply elem_of_cons in Hin as [Heq|Hin].
  - injection Heq as <- <-. now rewrite decide_True.
  - destruct (decide (n = name)) as [->|Hne].
    + exfalso. apply Hn. apply list_elem_of_fmap. now exists (name, c).
    + now apply IH.
Qed.

Lemma entry_Some_In name c es : entry name es = Some c -> (name, c) ∈ es.
Proof.
  induction es as [|[n c'] es IH]; simpl; [discriminate|].
  destruct (decide (n = name)) as [->|Hne]; intros H.
  - injection H as ->. constructor.
  - constructor. now apply IH.
Qed.

Lemma wf_lookup_node t p n :
  wf t = true -> lookup_node t p = Some n -> wf n = true.
Proof.
  revert t. induction p as [|c p IH]; intros t Hwf H.
  - simpl in H. now injection H as <-.
  - destruct t as [|es]; [discriminate|]. simpl in H.
    destruct (entry c es) as [child|] eqn:He; [|discriminate].
    apply (IH child); [|exact H].
    apply wf_dir_inv in Hwf as [_ Hall].
    rewrite Forall_forall in Hall.
    now apply (Hall _ (entry_Some_In _ _ _ He)).
Qed.

(** Copying onto nothing, or into a new directory, gives the tree itself. *)
Lemma merge_into_fresh ses acc :
  Forall (fun e => merge (snd e) None = (snd e, true)) ses ->
  NoDup (map fst (acc ++ ses)) ->
  merge_into merge ses (acc, true) = (acc ++ ses, true).
Proof.
  revert acc. induction ses as [|[name c] ses IH]; intros acc Hall Hnd.
  - now rewrite app_nil_r.
  - apply Forall_cons in Hall as [Hc Hall]. simpl in Hc.
    assert (Hfresh : entry name acc = None).
    { apply entry_None_iff. intros Hin.
      rewrite map_app in Hnd. apply NoDup_app in Hnd as (_ & Hdis & _).
      apply (Hdis _ Hin). constructor. }
    cbn [merge_into fst snd]. rewrite Hfresh, Hc. cbn [fst snd andb].
    rewrite (set_entry_fresh _ _ _ Hfresh).
    rewrite IH; [now rewrite <- app_assoc | exact Hall |].
    now rewrite <- app_assoc.
Qed.

Lemma merge_fresh t : wf t = true -> merge t None = (t, true).
Proof.
  induction t as [data x|es IH] using node_induction; intros Hwf.
  - reflexivity.
  - apply wf_dir_inv in Hwf as [Hnd Hall].
    cbn [merge]. rewrite (merge_into_fresh es []); [reflexivity | | exact Hnd].
    rewrite Forall_forall in IH, Hall |- *.
    intros e He. apply (IH e He). now apply Hall.
Qed.

Lemma merge_empty_dir es :
  wf (Dir es) = true -> merge (Dir es) (Some (Dir [])) = (Dir es, true).
Proof. intros Hwf. now rewrite <- (merge_fresh _ Hwf). Qed.

Lemma merge_ok_is_dir ses d :
  snd (merge (Dir ses) d) = true ->
  is_dir (Some (fst (merge (Dir ses) d))) = true.
Proof. destruct d as [[data x|des]|]; [discriminate | reflexivity..]. Qed.

Lemma drop_prefix_app p q : drop_prefix p (p ++ q) = Some q.
Proof.
  induction p as [|c p IH]; simpl; [reflexivity|].
  now rewrite decide_True.
Qed.

(** ** The file system calls *)


Lemma print_inv line w w' r :
  print line w = (r, w') -> fs w' = fs w /\ curdir w' = curdir w.
Proof. intros H. injection H as _ <-. now split. Qed.

Lemma os_makedirs_inv s w w' :
  os_makedirs s w = (Ok tt, w') ->
  curdir w' = curdir w /\
  exists p,
    components (curdir w) s = Some p /\
    lookup_node (fs w) p = None /\
    lookup_node (fs w') p = Some (Dir []) /\
    (forall q, is_dir (lookup_node (fs w) q) = true ->
               is_dir (lookup_node (fs w') q) = true) /\
    (forall q, ~ q `prefix_of` p ->
               lookup_node (fs w') q = lookup_node (fs w) q).
Proof.
  unfold os_makedirs, resolve_path, bind, gets, set_fs, modify, raise.
  destruct (components (curdir w) s) as [p|] eqn:Hp; [|discriminate].
  destruct (lookup_node (fs w) p) eqn:Hl; [discriminate|].
  destruct (mkdirs (fs w) p) as [t'|] eqn:Hm; [|discriminate].
  intros H. injection H as <-. split; [reflexivity|].
  exists p. unfold with_fs. simpl. repeat split.
  - exact Hl.
  - now apply (mkdirs_fresh_leaf _ _ _ Hm).
  - intros q. now apply (mkdirs_keeps_dirs _ _ _ _ Hm).
  - intros q. now apply (mkdirs_other _ _ _ _ Hm).
Qed.

Lemma shutil_copytree_inv src dst w w' :
  shutil_copytree src dst w = (Ok tt, w') ->
  curdir w' = curdir w /\
  exists ps pd ses,
    components (curdir w) src = Some ps /\
    components (curdir w) dst = Some pd /\
    lookup_node (fs w) ps = Some (Dir ses) /\
    is_dir (lookup_node (fs w') pd) = true /\
    (forall q, ~ pd `prefix_of` q ->
               is_dir (lookup_node (fs w) q) = true ->
               is_dir (lookup_node (fs w') q) = true) /\
    (forall q, ~ pd `prefix_of` q -> ~ q `prefix_of` pd ->
               lookup_node (fs w') q = lookup_node (fs w) q) /\
    (lookup_node (fs w) pd = None ->
     lookup_node (fs w') pd = Some (fst (merge (Dir ses) (Some (Dir []))))) /\
    (forall e1 e2 rest, pd = ps ++ e1 :: e2 :: rest -> entry e1 ses = None).
Proof.
  unfold shutil_copytree, resolve_path, bind, gets, set_fs, modify, raise, ret.
  destruct (components (curdir w) src) as [ps|] eqn:Hps; [|discriminate].
  destruct (components (curdir w) dst) as [pd|] eqn:Hpd; [|discriminate].
  destruct (lookup_node (fs w) ps) as [[data x|ses]|] eqn:Hs; try discriminate.
  destruct (match drop_prefix ps pd with
            | Some (e1 :: _ :: _) => bool_decide (is_Some (entry e1 ses))
            | _ => false
            end) eqn:Hrun; [discriminate|].
  destruct (is_file (lookup_node (fs w) pd)) eqn:Hfile; [discriminate|].
  destruct (mkdirs (fs w) pd) as [t1|] eqn:Hm; [|discriminate].
  destruct (put t1 pd (fst (merge (Dir ses) (lookup_node t1 pd)))) as [t2|]
    eqn:Hput; [|discriminate].
  destruct (snd (merge (Dir ses) (lookup_node t1 pd))) eqn:Hok; [|discriminate].
  intros H. injection H as <-. split; [reflexivity|].
  exists ps, pd, ses. unfold with_fs. simpl. repeat split.
  - exact Hs.
  - rewrite (put_same _ _ _ _ Hput). now apply merge_ok_is_dir.
  - intros q Hq Hdir. apply (put_keeps_dirs _ _ _ _ _ Hput Hq).
    now apply (mkdirs_keeps_dirs _ _ _ _ Hm).
  - intros q Hq1 Hq2. rewrite (put_other _ _ _ _ _ Hput Hq1 Hq2).
    now apply (mkdirs_other _ _ _ _ Hm).
  - intros Hnone. rewrite (put_same _ _ _ _ Hput).
    now rewrite (mkdirs_fresh_leaf _ _ _ Hm Hnone).
  - intros e1 e2 rest ->. rewrite drop_prefix_app in Hrun.
    apply bool_decide_eq_false in Hrun.
    destruct (entry e1 ses); [|reflexivity].
    exfalso. apply Hrun. eauto.
Qed.

Lemma prefix_sibling (p : list string) a b :
  a <> b -> ~ (p ++ [a]) `prefix_of` (p ++ [b]).
Proof.
  intros Hne H. apply prefix_app_inv in H. destruct H as [k Hk].
  simpl in Hk. injection Hk as Hab _. congruence.
Qed.

Lemma prefix_snoc_inv (q p : list string) a :
  q `prefix_of` (p ++ [a]) -> q `prefix_of` p \/ q = p ++ [a].
Proof.
  intros [k Hk]. destruct k as [|x k _] using rev_ind.
  - right. now rewrite app_nil_r in Hk.
  - left. rewrite app_assoc in Hk. apply app_inj_tail in Hk as [-> _].
    now exists k.
Qed.

Lemma prefix_proper_split (q p : list string) :
  q `prefix_of` p -> q <> p -> exists e r, p = q ++ e :: r.
Proof.
  intros [k ->] Hne. destruct k as [|e r].
  - now rewrite app_nil_r in Hne.
  - eauto.
Qed.

Lemma lookup_under_empty t p q :
  lookup_node t p = Some (Dir []) -> q <> [] -> lookup_node t (p ++ q) = None.
Proof.
  intros Hp Hq. rewrite lookup_node_app, Hp. now destruct q.
Qed.

Lemma lookup_under_missing t p q :
  lookup_node t p = None -> lookup_node t (p ++ q) = None.
Proof. intros Hp. now rewrite lookup_node_app, Hp. Qed.

Lemma os_path_isdir_run s w :
  os_path_isdir s w = (Ok (is_dir (node_at w s)), w).
Proof. reflexivity. Qed.

Lemma node_at_eq w w' s :
  curdir w' = curdir w -> fs w' = fs w -> node_at w' s = node_at w s.
Proof. unfold node_at. now intros -> ->. Qed.

(** The guard of the scaffolder. *)
Lemma scaffold_guard m d w :
  is_dir (node_at w d) = true ->
  initialize_new_distribution m d w
  = (Raise (Exception ("Distribution path cannot already exist. " +:+
                       ("Remove " +:+ d +:+ "."))),
     snd (print ("Creating new distribution path: " +:+ d) w)).
Proof.
  intros Hdir. unfold initialize_new_distribution.
  erewrite bind_ok by reflexivity.
  erewrite bind_ok by apply os_path_isdir_run.
  erewrite (node_at_eq w) by reflexivity. rewrite Hdir. reflexivity.
Qed.

Ltac bind_step H w1 H1 :=
  let a := fresh "a" in
  apply bind_inv_ok in H as (a & w1 & H1 & H); try destruct a.

(** One round of the loop that makes the subdirectories. *)
Lemma scaffold_subdir_step d sd p w w' :
  plain sd = true ->
  components (curdir w) d = Some p ->
  bind (print ("Creating directory " +:+ os_path_join d sd))
       (fun _ => os_makedirs (os_path_join d sd)) w = (Ok tt, w') ->
  curdir w' = curdir w /\
  lookup_node (fs w) (p ++ [sd]) = None /\
  lookup_node (fs w') (p ++ [sd]) = Some (Dir []) /\
  (forall q, is_dir (lookup_node (fs w) q) = true ->
             is_dir (lookup_node (fs w') q) = true) /\
  (forall q, ~ q `prefix_of` (p ++ [sd]) ->
             lookup_node (fs w') q = lookup_node (fs w) q).
Proof.
  intros Hsd Hp H. bind_step H w1 Hprint.
  apply print_inv in Hprint as [Hfs Hcwd].
  apply os_makedirs_inv in H as (Hcwd' & p' & Hp' & Hnone & Hnew & Hmono & Hoth).
  rewrite Hcwd in Hp'. rewrite (components_join _ _ _ _ Hsd Hp) in Hp'.
  injection Hp' as <-. rewrite Hfs in *.
  repeat split; try assumption. congruence.
Qed.

(** A source tree that exists before the call lies beside the new
    distribution directory, or the copy would have run away. *)
Lemma source_beside_target ps p sub ses t0 t n :
  lookup_node t0 p = None ->
  lookup_node t0 ps = Some n ->
  lookup_node t ps = Some (Dir ses) ->
  is_dir (lookup_node t p) = true ->
  (forall e1 e2 rest, p ++ [sub] = ps ++ e1 :: e2 :: rest ->
                      entry e1 ses = None) ->
  ~ ps `prefix_of` p /\ ~ ps `prefix_of` (p ++ [sub]) /\
  ~ (p ++ [sub]) `prefix_of` ps.
Proof.
  intros Hp0 Hps0 Hps Hdir Hrun.
  assert (Hnp : ~ ps `prefix_of` p).
  { intros Hpre.
    destruct (decide (ps = p)) as [->|Hne]; [congruence|].
    destruct (prefix_proper_split _ _ Hpre Hne) as (e & r & ->).
    assert (He : entry e ses = None).
    { destruct r as [|e2 r].
      - apply (Hrun e sub []). now rewrite <- app_assoc.
      - apply (Hrun e e2 (r ++ [sub])). now rewrite <- app_assoc. }
    rewrite lookup_node_app, Hps in Hdir. simpl in Hdir.
    now rewrite He in Hdir. }
  split; [exact Hnp|]. split.
  - intros Hpre. apply prefix_snoc_inv in Hpre as [Hpre| ->]; [auto|].
    now rewrite (lookup_under_missing _ _ _ Hp0) in Hps0.
  - intros [k ->]. rewrite <- app_assoc in Hps0.
    now rewrite (lookup_under_missing _ _ _ Hp0) in Hps0.
Qed.

Lemma sources_not_subdirs :
  ("src" ∉ scaffold_subdirs) /\ ("srcbmi" ∉ scaffold_subdirs).
Proof.
  split; intros H; unfold scaffold_subdirs in H;
    repeat (apply elem_of_cons in H as [H|H]; [discriminate|]);
    inversion H.
Qed.

(** What a successful run of the scaffolder has done. *)
Lemma scaffold_success m d w w' :
  initialize_new_distribution m d w = (Ok tt, w') ->
  curdir w' = curdir w /\
  exists p,
    components (curdir w) d = Some p /\
    lookup_node (fs w) p = None /\
    is_dir (lookup_node (fs w') p) = true /\
    is_dir (lookup_node (fs w') (p ++ ["src"])) = true /\
    is_dir (lookup_node (fs w') (p ++ ["srcbmi"])) = true /\
    (forall sd, sd ∈ scaffold_subdirs ->
                lookup_node (fs w') (p ++ [sd]) = Some (Dir [])) /\
    (wf (fs w) = true -> forall n,
       node_at w (m +:+ "/src") = Some n ->
       lookup_node (fs w') (p ++ ["src"]) = Some n) /\
    (wf (fs w) = true -> forall n,
       node_at w (m +:+ "/srcbmi") = Some n ->
       lookup_node (fs w') (p ++ ["srcbmi"]) = Some n).
Proof.
  intros H. unfold initialize_new_distribution in H.
  bind_step H w1 Hprint1.
  apply print_inv in Hprint1 as [Hfs1 Hcwd1].
  apply bind_inv_ok in H as (already & w1' & Hisdir & H).
  rewrite os_path_isdir_run in Hisdir. injection Hisdir as <- <-.
  bind_step H w2 Hmk.
  destruct (is_dir (node_at w1 d)); [discriminate|].
  apply os_makedirs_inv in Hmk as (Hcwd2 & p & Hp & Hnone & Hnew & Hmono2 & Hoth2).
  rewrite Hcwd1 in Hp. rewrite Hfs1 in *.
  bind_step H w3 Hprint3.
  apply print_inv in Hprint3 as [Hfs3 Hcwd3].
  bind_step H w4 Hcp1.
  apply shutil_copytree_inv in Hcp1
    as (Hcwd4 & ps1 & pd1 & ses1 & Hps1 & Hpd1 & Hses1 & Hdir1 & Hmono4 & Hoth4
        & Hfresh4 & Hrun4).
  bind_step H w5 Hcp2.
  apply shutil_copytree_inv in Hcp2
    as (Hcwd5 & ps2 & pd2 & ses2 & Hps2 & Hpd2 & Hses2 & Hdir2 & Hmono5 & Hoth5
        & Hfresh5 & Hrun5).
  assert (Hc3 : curdir w3 = curdir w) by congruence.
  assert (Hc4 : curdir w4 = curdir w) by congruence.
  assert (Hc5 : curdir w5 = curdir w) by congruence.
  rewrite Hc3 in Hps1, Hpd1. rewrite Hc4 in Hps2, Hpd2.
  rewrite (components_join _ d "src" p eq_refl Hp) in Hpd1.
  rewrite (components_join _ d "srcbmi" p eq_refl Hp) in Hpd2.
  injection Hpd1 as <-. injection Hpd2 as <-.
  rewrite Hfs3 in *.
  (* the six subdirectories *)
  cbn [for_each] in H.
  bind_step H w6 Hsd1.
  apply (scaffold_subdir_step d "bin" p) in Hsd1
    as (Hc6 & _ & Hn6 & Hm6 & Ho6); [|reflexivity|congruence].
  bind_step H w7 Hsd2.
  apply (scaffold_subdir_step d "doc" p) in Hsd2
    as (Hc7 & _ & Hn7 & Hm7 & Ho7); [|reflexivity|congruence].
  bind_step H w8 Hsd3.
  apply (scaffold_subdir_step d "examples" p) in Hsd3
    as (Hc8 & _ & Hn8 & Hm8 & Ho8); [|reflexivity|congruence].
  bind_step H w9 Hsd4.
  apply (scaffold_subdir_step d "make" p) in Hsd4
    as (Hc9 & _ & Hn9 & Hm9 & Ho9); [|reflexivity|congruence].
  bind_step H w10 Hsd5.
  apply (scaffold_subdir_step d "msvs" p) in Hsd5
    as (Hc10 & _ & Hn10 & Hm10 & Ho10); [|reflexivity|congruence].
  bind_step H w11 Hsd6.
  apply (scaffold_subdir_step d "utils" p) in Hsd6
    as (Hc11 & _ & Hn11 & Hm11 & Ho11); [|reflexivity|congruence].
  injection H as <-.
  (* a path beside the subdirectories is as the second copy left it *)
  assert (Hlate : forall sub, sub ∉ scaffold_subdirs ->
            lookup_node (fs w11) (p ++ [sub]) = lookup_node (fs w5) (p ++ [sub])).
  { intros sub Hsub.
    assert (Hsib : forall sd, sd ∈ scaffold_subdirs ->
              ~ (p ++ [sub]) `prefix_of` (p ++ [sd])).
    { intros sd Hsd. apply prefix_sibling. intros ->. auto. }
    unfold scaffold_subdirs in Hsib.
    rewrite Ho11, Ho10, Ho9, Ho8, Ho7, Ho6; [reflexivity|..];
      apply Hsib; apply list_elem_of_In; simpl; tauto. }
  assert (Hpdir2 : is_dir (lookup_node (fs w2) p) = true) by now rewrite Hnew.
  assert (Hpdir4 : is_dir (lookup_node (fs w4) p) = true).
  { apply Hmono4; [apply prefix_snoc_not | exact Hpdir2]. }
  split; [congruence|]. exists p.
  split; [exact Hp|]. split; [exact Hnone|]. split.
  { apply Hm11, Hm10, Hm9, Hm8, Hm7, Hm6, Hmono5;
      [apply prefix_snoc_not | exact Hpdir4]. }
  split.
  { apply Hm11, Hm10, Hm9, Hm8, Hm7, Hm6, Hmono5;
      [now apply prefix_sibling | exact Hdir1]. }
  split.
  { apply Hm11, Hm10, Hm9, Hm8, Hm7, Hm6. exact Hdir2. }
  split.
  { intros sd Hsd. unfold scaffold_subdirs in Hsd.
    repeat (apply elem_of_cons in Hsd as [->|Hsd]);
      [| | | | | | inversion Hsd].
    - rewrite Ho11, Ho10, Ho9, Ho8, Ho7; [exact Hn6|..];
        now apply prefix_sibling.
    - rewrite Ho11, Ho10, Ho9, Ho8; [exact Hn7|..]; now apply prefix_sibling.
    - rewrite Ho11, Ho10, Ho9; [exact Hn8|..]; now apply prefix_sibling.
    - rewrite Ho11, Ho10; [exact Hn9|..]; now apply prefix_sibling.
    - rewrite Ho11; [exact Hn10|]. now apply prefix_sibling.
    - exact Hn11. }
  split.
  - intros Hwf n Hn. unfold node_at in Hn. rewrite Hps1 in Hn.
    destruct (source_beside_target ps1 p "src" ses1 (fs w) (fs w2) n)
      as (Hb1 & Hb2 & Hb3); try assumption.
    assert (Heq : n = Dir ses1).
    { rewrite (Hoth2 _ Hb1) in Hses1. congruence. }
    subst n.
    rewrite Hlate by apply sources_not_subdirs.
    rewrite Hoth5;
      [| now apply prefix_sibling | now apply prefix_sibling].
    rewrite Hfresh4 by (apply (lookup_under_empty _ _ _ Hnew); discriminate).
    rewrite merge_empty_dir; [reflexivity|].
    now apply (wf_lookup_node _ _ _ Hwf Hn).
  - intros Hwf n Hn. unfold node_at in Hn. rewrite Hps2 in Hn.
    destruct (source_beside_target ps2 p "srcbmi" ses2 (fs w) (fs w4) n)
      as (Hb1 & Hb2 & Hb3); try assumption.
    assert (Hb4 : ~ ps2 `prefix_of` (p ++ ["src"])).
    { intros Hpre. apply prefix_snoc_inv in Hpre as [Hpre| ->]; [auto|].
      now rewrite (lookup_under_missing _ _ _ Hnone) in Hn. }
    assert (Hb5 : ~ (p ++ ["src"]) `prefix_of` ps2).
    { intros [k ->]. rewrite <- app_assoc in Hn.
      now rewrite (lookup_under_missing _ _ _ Hnone) in Hn. }
    assert (Heq : n = Dir ses2).
    { rewrite (Hoth4 _ Hb5 Hb4), (Hoth2 _ Hb1) in Hses2. congruence. }
    subst n.
    rewrite Hlate by apply sources_not_subdirs.
    rewrite Hfresh5.
    + rewrite merge_empty_dir; [reflexivity|].
      now apply (wf_lookup_node _ _ _ Hwf Hn).
    + rewrite Hoth4;
        [| now apply prefix_sibling | now apply prefix_sibling].
      apply (lookup_under_empty _ _ _ Hnew). discriminate.
Qed.

(** *** The scaffolder goes through *)

Lemma mkdirs_no_files t p :
  (forall q, q `prefix_of` p -> is_file (lookup_node t q) = false) ->
  lookup_node t p = None ->
  exists t', mkdirs t p = Some t'.
Proof.
  revert t. induction p as [|c p IH]; intros t Hfiles Hnone.
  - discriminate.
  - destruct t as [data x|es].
    + specialize (Hfiles [] (prefix_nil _)). discriminate.
    + simpl in Hnone |- *.
      destruct (entry c es) as [child|] eqn:He; [|eauto].
      destruct (IH child) as [child' ->]; [|exact Hnone|eauto].
      intros q Hq. specialize (Hfiles (c :: q) (prefix_cons _ _ _ Hq)).
      simpl in Hfiles. now rewrite He in Hfiles.
Qed.

Lemma mkdirs_in_dir t p c :
  is_dir (lookup_node t p) = true ->
  lookup_node t (p ++ [c]) = None ->
  exists t', mkdirs t (p ++ [c]) = Some t'.
Proof.
  revert t. induction p as [|c0 p IH]; intros t Hdir Hnone.
  - destruct t as [|es]; [discriminate|]. simpl in Hnone |- *.
    destruct (entry c es); [discriminate | eauto].
  - destruct t as [|es]; [discriminate|]. simpl in Hdir, Hnone |- *.
    destruct (entry c0 es) as [child|]; [|discriminate].
    destruct (IH _ Hdir Hnone) as [child' ->]. eauto.
Qed.

Lemma os_makedirs_run s w p t' :
  components (curdir w) s = Some p ->
  lookup_node (fs w) p = None ->
  mkdirs (fs w) p = Some t' ->
  os_makedirs s w = (Ok tt, with_fs w t').
Proof.
  intros Hp Hnone Hm.
  unfold os_makedirs, resolve_path, bind, gets. now rewrite Hp, Hnone, Hm.
Qed.

Lemma drop_prefix_Some p q r : drop_prefix p q = Some r -> q = p ++ r.
Proof.
  revert q. induction p as [|a p IH]; intros q H.
  - simpl in H. now injection H as ->.
  - destruct q as [|b q]; [discriminate|]. simpl in H.
    destruct (decide (a = b)) as [->|]; [|discriminate].
    simpl. f_equal. now apply IH.
Qed.

(** Copying a tree to a new entry of an existing directory, beside it. *)
Lemma shutil_copytree_run src dst w ps pp c ses :
  components (curdir w) src = Some ps ->
  components (curdir w) dst = Some (pp ++ [c]) ->
  lookup_node (fs w) ps = Some (Dir ses) ->
  wf (Dir ses) = true ->
  ~ ps `prefix_of` (pp ++ [c]) ->
  is_dir (lookup_node (fs w) pp) = true ->
  lookup_node (fs w) (pp ++ [c]) = None ->
  exists w', shutil_copytree src dst w = (Ok tt, w').
Proof.
  intros Hps Hpd Hses Hwf Hbeside Hparent Hnone.
  destruct (mkdirs_in_dir (fs w) pp c Hparent Hnone) as [t1 Hm].
  pose proof (mkdirs_fresh_leaf _ _ _ Hm Hnone) as Hleaf.
  destruct (put_existing t1 (pp ++ [c]) (Dir ses) _ Hleaf) as [t2 Hput].
  exists (with_fs w t2).
  unfold shutil_copytree, resolve_path, bind, gets.
  rewrite Hps, Hpd, Hses.
  destruct (drop_prefix ps (pp ++ [c])) as [r|] eqn:Hdrop.
  { exfalso. apply Hbeside. exists r. now apply drop_prefix_Some. }
  rewrite Hnone. cbn [is_file]. rewrite Hm, Hleaf.
  rewrite (merge_empty_dir _ Hwf). cbn [fst snd]. rewrite Hput. reflexivity.
Qed.

Lemma scaffold_subdirs_run d p :
  forall sds w,
    NoDup sds ->
    Forall (fun sd => plain sd = true) sds ->
    components (curdir w) d = Some p ->
    is_dir (lookup_node (fs w) p) = true ->
    (forall sd, sd ∈ sds -> lookup_node (fs w) (p ++ [sd]) = None) ->
    exists w',
      for_each sds (fun sd =>
        bind (print ("Creating directory " +:+ os_path_join d sd))
             (fun _ => os_makedirs (os_path_join d sd))) w = (Ok tt, w').
Proof.
  induction sds as [|sd sds IH]; intros w Hnd Hplain Hp Hdir Hfree.
  - exists w. reflexivity.
  - apply NoDup_cons in Hnd as [Hsd Hnd].
    apply Forall_cons in Hplain as [Hpl Hplain].
    set (w1 := snd (print ("Creating directory " +:+ os_path_join d sd) w)).
    assert (Hnone : lookup_node (fs w1) (p ++ [sd]) = None)
      by (apply Hfree; constructor).
    destruct (mkdirs_in_dir (fs w1) p sd Hdir Hnone) as [t' Hm].
    assert (Hstep :
      bind (print ("Creating directory " +:+ os_path_join d sd))
           (fun _ => os_makedirs (os_path_join d sd)) w
      = (Ok tt, with_fs w1 t')).
    { erewrite bind_ok by reflexivity. fold w1.
      apply (os_makedirs_run _ w1 (p ++ [sd])); try assumption.
      now apply (components_join _ d sd p). }
    destruct (scaffold_subdir_step d sd p w _ Hpl Hp Hstep)
      as (Hcwd & _ & _ & Hmono & Hoth).
    destruct (IH (with_fs w1 t')) as [w' Hrest]; try assumption.
    + now apply Hmono.
    + intros sd' Hsd'. rewrite Hoth.
      * apply Hfree. now constructor.
      * apply prefix_sibling. intros ->. auto.
    + exists w'. cbn [for_each]. erewrite bind_ok by exact Hstep. exact Hrest.
Qed.

(** Into a path that does not exist, with no file on the way to it and the
    two upstream trees in place beside it, the scaffolder runs to the end. *)
Lemma scaffold_goes_through m d w p ps1 ps2 ses1 ses2 :
  wf (fs w) = true ->
  components (curdir w) d = Some p ->
  lookup_node (fs w) p = None ->
  (forall q, q `prefix_of` p -> is_file (lookup_node (fs w) q) = false) ->
  components (curdir w) (m +:+ "/src") = Some ps1 ->
  lookup_node (fs w) ps1 = Some (Dir ses1) ->
  components (curdir w) (m +:+ "/srcbmi") = Some ps2 ->
  lookup_node (fs w) ps2 = Some (Dir ses2) ->
  ~ ps1 `prefix_of` p -> ~ ps2 `prefix_of` p ->
  exists w', initialize_new_distribution m d w = (Ok tt, w').
Proof.
  intros Hwf Hp Hnone Hfiles Hps1 Hses1 Hps2 Hses2 Hb1 Hb2.
  assert (Hbeside : forall ps n sub,
            lookup_node (fs w) ps = Some n -> ~ ps `prefix_of` p ->
            ~ ps `prefix_of` (p ++ [sub]) /\ ~ (p ++ [sub]) `prefix_of` ps).
  { intros ps n sub Hn Hb. split.
    - intros Hpre. apply prefix_snoc_inv in Hpre as [Hpre| ->]; [auto|].
      now rewrite (lookup_under_missing _ _ _ Hnone) in Hn.
    - intros [k ->]. rewrite <- app_assoc in Hn.
      now rewrite (lookup_under_missing _ _ _ Hnone) in Hn. }
  destruct (Hbeside ps1 _ "src" Hses1 Hb1) as [Hb1a Hb1b].
  destruct (Hbeside ps2 _ "src" Hses2 Hb2) as [Hb2a Hb2b].
  destruct (Hbeside ps2 _ "srcbmi" Hses2 Hb2) as [Hb2c Hb2d].
  set (w1 := snd (print ("Creating new distribution path: " +:+ d) w)).
  destruct (mkdirs_no_files (fs w) p Hfiles Hnone) as [t1 Hm].
  pose proof (mkdirs_fresh_leaf _ _ _ Hm Hnone) as Hleaf.
  pose proof (fun q => mkdirs_other _ _ _ q Hm) as Hoth.
  set (w2 := with_fs w1 t1).
  set (w3 := snd (print "Copying src and srcbmi..." w2)).
  assert (Hunder : forall sub, lookup_node t1 (p ++ [sub]) = None)
    by (intros sub; apply (lookup_under_empty _ _ _ Hleaf); discriminate).
  destruct (shutil_copytree_run (m +:+ "/src") (os_path_join d "src") w3
              ps1 p "src" ses1) as [w4 Hcp1].
  { exact Hps1. }
  { now apply (components_join _ d "src" p). }
  { simpl. now rewrite Hoth. }
  { now apply (wf_lookup_node _ _ _ Hwf Hses1). }
  { exact Hb1a. }
  { simpl. now rewrite Hleaf. }
  { simpl. apply Hunder. }
  destruct (shutil_copytree_inv _ _ _ _ Hcp1)
    as (Hcwd4 & ps1' & pd1 & ses1' & Hps1' & Hpd1 & _ & _ & Hmono4 & Hoth4 & _).
  simpl in Hpd1. rewrite (components_join _ d "src" p eq_refl Hp) in Hpd1.
  injection Hpd1 as <-. simpl in Hmono4, Hoth4, Hcwd4.
  destruct (shutil_copytree_run (m +:+ "/srcbmi") (os_path_join d "srcbmi") w4
              ps2 p "srcbmi" ses2) as [w5 Hcp2].
  { now rewrite Hcwd4. }
  { rewrite Hcwd4. now apply (components_join _ d "srcbmi" p). }
  { rewrite (Hoth4 _ Hb2b Hb2a). now rewrite Hoth. }
  { now apply (wf_lookup_node _ _ _ Hwf Hses2). }
  { exact Hb2c. }
  { apply Hmono4; [apply prefix_snoc_not | now rewrite Hleaf]. }
  { rewrite Hoth4; [apply Hunder | now apply prefix_sibling..]. }
  destruct (shutil_copytree_inv _ _ _ _ Hcp2)
    as (Hcwd5 & ps2' & pd2 & ses2' & Hps2' & Hpd2 & _ & _ & Hmono5 & Hoth5 & _).
  rewrite Hcwd4 in Hpd2. simpl in Hpd2.
  rewrite (components_join _ d "srcbmi" p eq_refl Hp) in Hpd2.
  injection Hpd2 as <-.
  destruct (scaffold_subdirs_run d p scaffold_subdirs w5) as [w' Hloop].
  { apply (bool_decide_unpack _). reflexivity. }
  { unfold scaffold_subdirs. repeat constructor. }
  { now rewrite Hcwd5, Hcwd4. }
  { apply Hmono5; [apply prefix_snoc_not|].
    apply Hmono4; [apply prefix_snoc_not | now rewrite Hleaf]. }
  { intros sd Hsd.
    assert (Hne1 : sd <> "src")
      by (intros ->; now apply (proj1 sources_not_subdirs)).
    assert (Hne2 : sd <> "srcbmi")
      by (intros ->; now apply (proj2 sources_not_subdirs)).
    rewrite Hoth5, Hoth4; [apply Hunder|..]; apply prefix_sibling; congruence. }
  exists w'. unfold initialize_new_distribution.
  erewrite bind_ok by reflexivity.
  erewrite bind_ok by apply os_path_isdir_run.
  assert (Hmissing : is_dir (node_at w d) = false).
  { unfold node_at. now rewrite Hp, Hnone. }
  erewrite (node_at_eq w) by reflexivity. rewrite Hmissing.
  erewrite bind_ok by (apply (os_makedirs_run d w1 p t1); assumption).
  erewrite bind_ok by reflexivity.
  erewrite bind_ok by exact Hcp1.
  erewrite bind_ok by exact Hcp2.
  exact Hloop.
Qed.

(** C4. Scaffolding into a path that is a directory raises before anything
    is made or copied: only the announcement is printed and the file system
    is as it was. And when the scaffolder returns, the target did not exist
    before the call; it is now a directory holding src and srcbmi, equal to
    the upstream trees of that name when those were there before the call,
    and the six new, empty subdirectories bin, doc, examples, make, msvs and
    utils. It does return when the target does not exist, no file stands on
    the way to it, and the upstream src and srcbmi are directories that do
    not hold the target. *)
Theorem scaffold_only_into_new_directory m d w :
  (is_dir (node_at w d) = true ->
   initialize_new_distribution m d w
   = (Raise (Exception ("Distribution path cannot already exist. " +:+
                        ("Remove " +:+ d +:+ "."))),
      snd (print ("Creating new distribution path: " +:+ d) w)) /\
   fs (snd (initialize_new_distribution m d w)) = fs w) /\
  (forall w',
     initialize_new_distribution m d w = (Ok tt, w') ->
     node_at w d = None /\
     is_dir (node_at w' d) = true /\
     is_dir (node_at w' (os_path_join d "src")) = true /\
     is_dir (node_at w' (os_path_join d "srcbmi")) = true /\
     (forall sd, sd ∈ scaffold_subdirs ->
        node_at w' (os_path_join d sd) = Some (Dir [])) /\
     (wf (fs w) = true -> forall n,
        node_at w (m +:+ "/src") = Some n ->
        node_at w' (os_path_join d "src") = Some n) /\
     (wf (fs w) = true -> forall n,
        node_at w (m +:+ "/srcbmi") = Some n ->
        node_at w' (os_path_join d "srcbmi") = Some n)) /\
  (forall p ps1 ps2 ses1 ses2,
     wf (fs w) = true ->
     components (curdir w) d = Some p ->
     lookup_node (fs w) p = None ->
     (forall q, q `prefix_of` p -> is_file (lookup_node (fs w) q) = false) ->
     components (curdir w) (m +:+ "/src") = Some ps1 ->
     lookup_node (fs w) ps1 = Some (Dir ses1) ->
     components (curdir w) (m +:+ "/srcbmi") = Some ps2 ->
     lookup_node (fs w) ps2 = Some (Dir ses2) ->
     ~ ps1 `prefix_of` p -> ~ ps2 `prefix_of` p ->
     exists w', initialize_new_distribution m d w = (Ok tt, w')).
Proof.
  split; [|split].
  - intros Hdir. rewrite (scaffold_guard _ _ _ Hdir). split; reflexivity.
  - intros w' Hrun.
    destruct (scaffold_success _ _ _ _ Hrun)
      as (Hcwd & p & Hp & Hnone & Hd & Hsrc & Hbmi & Hsub & Hcp1 & Hcp2).
    assert (Hjoin : forall sd, plain sd = true ->
              node_at w' (os_path_join d sd) = lookup_node (fs w') (p ++ [sd])).
    { intros sd Hsd. unfold node_at. rewrite Hcwd.
      now rewrite (components_join _ _ _ _ Hsd Hp). }
    repeat split.
    + unfold node_at. now rewrite Hp.
    + unfold node_at. now rewrite Hcwd, Hp.
    + now rewrite Hjoin.
    + now rewrite Hjoin.
    + intros sd Hsd. rewrite Hjoin; [now apply Hsub|].
      unfold scaffold_subdirs in Hsd.
      repeat (apply elem_of_cons in Hsd as [->|Hsd]; [reflexivity|]).
      inversion Hsd.
    + intros Hwf n Hn. rewrite Hjoin by reflexivity. now apply Hcp1.
    + intros Hwf n Hn. rewrite Hjoin by reflexivity. now apply Hcp2.
  - intros p ps1 ps2 ses1 ses2. apply scaffold_goes_through.
Qed.

Lemma scaffold_only_into_new_directory_witness :
  is_dir (node_at scaffold_world "./distribution/old") = true /\
  fst (initialize_new_distribution "../modflow6" "./distribution/old"
         scaffold_world)
  = Raise (Exception
             "Distribution path cannot already exist. Remove ./distribution/old.") /\
  fst (initialize_new_distribution "../modflow6" "./distribution/mf6dev"
         scaffold_world) = Ok tt /\
  node_at (snd (initialize_new_distribution "../modflow6"
                  "./distribution/mf6dev" scaffold_world))
          "./distribution/mf6dev/src"
  = node_at scaffold_world "../modflow6/src".
Proof.
  assert (Hold : is_dir (node_at scaffold_world "./distribution/old") = true)
    by reflexivity.
  split; [exact Hold|]. split.
  - destruct (scaffold_only_into_new_directory "../modflow6"
                "./distribution/old" scaffold_world) as [Hguard _].
    destruct (Hguard Hold) as [-> _]. reflexivity.
  - destruct (scaffold_only_into_new_directory "../modflow6"
                "./distribution/mf6dev" scaffold_world) as (_ & Hok & Hgo).
    destruct (Hgo ["work"; "distribution"; "mf6dev"]
                  ["modflow6"; "src"] ["modflow6"; "srcbmi"]
                  [("mf6.f90", File "program mf6" false);
                   ("Utilities", Dir [("kind.f90", File "module kind" false)])]
                  [("mf6bmi.f90", File "module mf6bmi" false)])
      as [w' Hrun]; try reflexivity.
    { intros q [k Hk].
      destruct q as [|a q]; [reflexivity|]. injection Hk as <- Hk.
      destruct q as [|a q]; [reflexivity|]. injection Hk as <- Hk.
      destruct q as [|a q]; [reflexivity|]. injection Hk as <- Hk.
      destruct q; [reflexivity|discriminate]. }
    { intros [k Hk]. discriminate. }
    { intros [k Hk]. discriminate. }
    rewrite Hrun. split; [reflexivity|].
    destruct (Hok w' Hrun) as (_ & _ & _ & _ & _ & Hsrc & _).
    simpl snd. symmetry.
    change "./distribution/mf6dev/src"
      with (os_path_join "./distribution/mf6dev" "src").
    destruct (node_at scaffold_world "../modflow6/src") as [n|] eqn:Hn;
      [| vm_compute in Hn; discriminate].
    symmetry. apply (Hsrc eq_refl n). exact Hn.
Defined.

(** ** Documentation rebuilder *)

Example splitext_examples :
  splitext "gwf-chd.dfn" = ("gwf-chd", ".dfn") /\
  splitext ".bashrc" = (".bashrc", "") /\
  splitext "a.tar.gz" = ("a.tar", ".gz") /\
  splitext "..x" = ("..x", "") /\
  splitext "noext" = ("noext", "").
Proof. repeat split; reflexivity. Qed.

Example rebuild_tex_example :
  fst (rebuild_tex_from_dfn "modflow6" doc_world)
  = Raise (AssertionError
      (nl +:+ "1 TeX file(s) are missing. Missing files:" +:+ nl +:+
       "    1 gwf-wel-desc.tex" +:+ nl)).
Proof. vm_compute. reflexivity. Qed.

Lemma filter_m_pure {A} (xs : list A) (keep : A -> M bool) (pred : A -> bool) w :
  (forall x, x ∈ xs -> keep x w = (Ok (pred x), w)) ->
  filter_m xs keep w = (Ok (List.filter pred xs), w).
Proof.
  induction xs as [|x xs IH]; intros Hkeep; [reflexivity|].
  cbn [filter_m List.filter].
  erewrite bind_ok by (apply Hkeep; constructor).
  erewrite bind_ok by (apply IH; intros y Hy; apply Hkeep; now constructor).
  now destruct (pred x).
Qed.

Lemma os_path_isfile_run s w :
  os_path_isfile s w = (Ok (is_file (node_at w s)), w).
Proof. reflexivity. Qed.

(** What is found under a name joined to the path of a directory. *)
Lemma node_at_join w folder p es name :
  components (curdir w) folder = Some p ->
  lookup_node (fs w) p = Some (Dir es) ->
  plain name = true ->
  node_at w (os_path_join folder name) = entry name es.
Proof.
  intros Hp Hes Hname. unfold node_at.
  rewrite (components_join _ _ _ _ Hname Hp), lookup_node_app, Hes.
  simpl. now destruct (entry name es).
Qed.







(** The check is what [rebuild_tex_from_dfn] ends with: when the folder of
    the fragments is there and the generator has run, the outcome of the
    function is the outcome of the check in the world the generator left. *)
Lemma rebuild_tex_from_dfn_ends_with_check m w p w2 out :
  components (curdir w) (mf6ivar_path m) = Some p ->
  is_dir (lookup_node (fs w) p) = true ->
  bind remove_tex_files
       (fun _ => run_command ["python"; "mf6ivar.py"] "./" None true true)
       (snd (set_curdir p
          (snd (print "Rebuilding the tex files from dfn by running mf6ivar.py"
                  w))))
  = (Ok out, w2) ->
  rebuild_tex_from_dfn m w
  = (fst (check_tex_files w2),
     snd (set_curdir (curdir w) (snd (check_tex_files w2)))).
Proof.
  intros Hp Hdir Hregen. unfold rebuild_tex_from_dfn.
  erewrite bind_ok by reflexivity.
  unfold with_cwd. erewrite bind_ok by reflexivity.
  erewrite bind_ok.
  2:{ unfold os_chdir, resolve_path, bind, gets. cbn [curdir fs print modify snd].
      rewrite Hp. destruct (lookup_node (fs w) p) as [[data x|es]|];
        try discriminate. reflexivity. }
  unfold try_finally.
  apply bind_inv_ok in Hregen as ([] & w1' & Hrm & Hrun).
  erewrite bind_ok by exact Hrm.
  erewrite bind_ok by exact Hrun.
  destruct (check_tex_files w2) as [r w3]. reflexivity.
Qed.

Example rebuild_tex_from_dfn_ends_with_check_example :
  rebuild_tex_from_dfn "modflow6" doc_world
  = (Raise (AssertionError
              (nl +:+ "1 TeX file(s) are missing. Missing files:" +:+ nl +:+
               "    1 gwf-wel-desc.tex" +:+ nl)),
     World ["make_distribution.py"] ∅ "linux" (in_doc mf6ivar_after) []
           ["Rebuilding the tex files from dfn by running mf6ivar.py";
            "Running system command (python mf6ivar.py) in directory: ./"]
           [] ∅ forgetful_generator).
Proof. vm_compute. reflexivity. Qed.

(** ** Archiver *)

Example normpath_examples :
  normpath "./distribution/mf6dev/bin/mf6" = "distribution/mf6dev/bin/mf6" /\
  normpath "a//b/../c/." = "a/c" /\
  normpath "../x" = "../x" /\
  normpath "/../x" = "/x" /\
  normpath "//x" = "//x" /\
  normpath "///x" = "/x" /\
  normpath "./" = ".".
Proof. repeat split; reflexivity. Qed.

Example zipdir_example :
  archives (snd (zipdir "mf6dev" "mf6dev.zip" zip_world)) !! "mf6dev.zip"
  = Some [("mf6dev/readme.md", "MODFLOW 6");
          ("mf6dev/bin/mf6", "ELF");
          ("mf6dev/doc/mf6io.pdf", "%PDF")].
Proof. vm_compute. reflexivity. Qed.









Lemma wf_child es name c :
  wf (Dir es) = true -> (name, c) ∈ es ->
  plain name = true /\ wf c = true /\ entry name es = Some c.
Proof.
  intros Hwf Hin. apply wf_dir_inv in Hwf as [Hnd Hall].
  rewrite Forall_forall in Hall. destruct (Hall _ Hin) as [Hp Hc].
  repeat split; try assumption. now apply entry_In.
Qed.


(** ** Example packager *)

Example relpath_examples :
  relpath ["home"; "u"] "mf6dev/bin/mf6" "mf6dev/examples/ex-a" = "../../bin/mf6" /\
  relpath ["home"; "u"] "mf6dev/examples/ex-a" "mf6dev/examples" = "ex-a" /\
  relpath ["home"; "u"] "a" "a" = "." /\
  relpath ["home"; "u"] "/x" "b" = "../../../x".
Proof. repeat split; reflexivity. Qed.

Example run_scripts_example :
  let w' := snd (build_example_run_scripts_linux "mf6dev" examples_world) in
  opened w' = ["mf6dev/examples/ex-gwf-a/run.sh";
               "mf6dev/examples/ex-gwf-a/mf6gwf/run.sh";
               "mf6dev/examples/ex-gwt-b/run.sh";
               "mf6dev/examples/runall.sh"] /\
  node_at w' "mf6dev/examples/runall.sh"
  = Some (File ("#!/bin/bash" +:+ nl +:+
                "cd ex-gwf-a" +:+ nl +:+ "../../bin/mf6" +:+ nl +:+
                "cd .." +:+ nl +:+ nl +:+
                "cd ex-gwf-a/mf6gwf" +:+ nl +:+ "../../../bin/mf6" +:+ nl +:+
                "cd ../.." +:+ nl +:+ nl +:+
                "cd ex-gwt-b" +:+ nl +:+ "../../bin/mf6" +:+ nl +:+
                "cd .." +:+ nl +:+ nl) true).
Proof. vm_compute. split; reflexivity. Qed.

(** ** The archive: claim C7 *)




Lemma for_acc_app {A St} (xs ys : list A) (s : St) (body : A -> St -> M St) w :
  for_acc (xs ++ ys) s body w
  = bind (for_acc xs s body) (fun s' => for_acc ys s' body) w.
Proof.
  revert s w. induction xs as [|x xs IH]; intros s w.
  - reflexivity.
  - cbn [for_acc app]. unfold bind.
    destruct (body x s w) as [[s1|e] w1]; [|reflexivity].
    rewrite IH. reflexivity.
Qed.

Lemma os_listdir_run s w es :
  node_at w s = Some (Dir es) -> os_listdir s w = (Ok (map fst es), w).
Proof. intros H. unfold os_listdir, stat, bind, gets. now rewrite H. Qed.

Lemma dir_names_cons name n es :
  dir_names ((name, n) :: es)
  = if is_dir (Some n) then name :: dir_names es else dir_names es.
Proof. now destruct n. Qed.

Lemma path_below_cons top name rel :
  path_below top (name :: rel) = path_below (os_path_join top name) rel.
Proof. reflexivity. Qed.

(** The subdirectories of one directory. *)
Lemma scan_own_dirs w top p es :
  components (curdir w) top = Some p ->
  lookup_node (fs w) p = Some (Dir es) ->
  wf (Dir es) = true ->
  forall sub acc,
    (forall e, e ∈ sub -> e ∈ es) ->
    for_acc (dir_names sub) acc (fun d simulation_folders =>
      bind (os_listdir (os_path_join top d)) (fun names =>
        if bool_decide ("mfsim.nam" ∈ names)
        then ret (simulation_folders ++ [os_path_join top d])
        else ret simulation_folders)) w
    = (Ok (acc ++ map (path_below top)
             (map (fun e => [fst e])
                (List.filter (fun e => is_dir (Some (snd e)) &&
                                       holds_marker (snd e)) sub))), w).
Proof.
  intros Hp Hes Hwf.
  induction sub as [|[name c] sub IH]; intros acc Hsub.
  - simpl. now rewrite app_nil_r.
  - assert (Hin : (name, c) ∈ es) by (apply Hsub; constructor).
    assert (Hsub' : forall e, e ∈ sub -> e ∈ es)
      by (intros e He; apply Hsub; now constructor).
    destruct (wf_child _ _ _ Hwf Hin) as (Hplain & Hwfc & Hentry).
    rewrite dir_names_cons. destruct c as [data x|ces].
    + cbn [is_dir List.filter fst snd andb]. now apply IH.
    + cbn [is_dir for_acc List.filter fst snd andb holds_marker].
      assert (Hbody :
        bind (os_listdir (os_path_join top name)) (fun names =>
          if bool_decide ("mfsim.nam" ∈ names)
          then ret (acc ++ [os_path_join top name])
          else ret acc) w
        = (Ok (if bool_decide ("mfsim.nam" ∈ map fst ces)
               then acc ++ [os_path_join top name] else acc), w)).
      { erewrite bind_ok.
        2:{ apply (os_listdir_run _ _ ces).
            rewrite (node_at_join w top p es name Hp Hes Hplain).
            exact Hentry. }
        now destruct (bool_decide ("mfsim.nam" ∈ map fst ces)). }
      erewrite bind_ok by exact Hbody.
      rewrite IH by exact Hsub'.
      destruct (bool_decide ("mfsim.nam" ∈ map fst ces)); [|reflexivity].
      cbn [map fst]. now rewrite <- app_assoc.
Qed.

Lemma marker_folders_child top name c :
  map (path_below top) (map (cons name) (marker_below c))
  = marker_folders (os_path_join top name) c.
Proof. unfold marker_folders. rewrite map_map. reflexivity. Qed.

(** Walking a tree finds the folders that hold the marker. *)
Lemma scan_tree w t :
  forall top p acc,
    components (curdir w) top = Some p ->
    lookup_node (fs w) p = Some t ->
    wf t = true ->
    for_acc (walk top t) acc scan_walk w
    = (Ok (acc ++ marker_folders top t), w).
Proof.
  induction t as [data x|es IH] using node_induction;
    intros top p acc Hp Ht Hwf.
  - simpl. unfold marker_folders. simpl. now rewrite app_nil_r.
  - cbn [walk for_acc].
    erewrite bind_ok
      by (apply (scan_own_dirs w top p es Hp Ht Hwf es acc); auto).
    assert (Hsubs : forall sub acc,
      (forall e, e ∈ sub -> e ∈ es) ->
      for_acc (flat_map (fun e => walk (os_path_join top (fst e)) (snd e)) sub)
              acc scan_walk w
      = (Ok (acc ++ map (path_below top)
               (flat_map (fun e => map (cons (fst e)) (marker_below (snd e)))
                         sub)), w)).
    { induction sub as [|[name c] sub IHsub]; intros acc' Hsub.
      - simpl. now rewrite app_nil_r.
      - assert (Hin : (name, c) ∈ es) by (apply Hsub; constructor).
        destruct (wf_child _ _ _ Hwf Hin) as (Hplain & Hwfc & Hentry).
        rewrite Forall_forall in IH.
        cbn [flat_map fst snd]. rewrite for_acc_app.
        erewrite bind_ok.
        2:{ apply (IH _ Hin (os_path_join top name) (p ++ [name])).
            - now apply components_join.
            - rewrite lookup_node_app, Ht. simpl. now rewrite Hentry.
            - exact Hwfc. }
        rewrite IHsub by (intros e He; apply Hsub; now constructor).
        rewrite map_app, marker_folders_child.
        now rewrite <- app_assoc. }
    rewrite Hsubs by auto.
    unfold marker_folders. cbn [marker_below].
    now rewrite map_app, <- app_assoc.
Qed.

Lemma get_list_simulation_folders_run w pth t :
  wf (fs w) = true ->
  node_at w pth = Some t ->
  get_list_simulation_folders pth w = (Ok (sorted (marker_folders pth t)), w).
Proof.
  intros Hwf Ht. unfold node_at in Ht.
  destruct (components (curdir w) pth) as [p|] eqn:Hp; [|discriminate].
  unfold get_list_simulation_folders.
  erewrite bind_ok.
  2:{ unfold os_walk, stat, bind, gets, node_at. now rewrite Hp, Ht. }
  erewrite bind_ok.
  2:{ apply (scan_tree w t pth p [] Hp Ht). now apply (wf_lookup_node _ _ _ Hwf Ht). }
  reflexivity.
Qed.

(** The folders found are the directories below the root that list the
    marker, each once. *)
Lemma marker_below_inv t :
  wf t = true ->
  forall rel, rel ∈ marker_below t ->
    rel <> [] /\ Forall (fun n => plain n = true) rel /\
    exists es, lookup_node t rel = Some (Dir es) /\ "mfsim.nam" ∈ map fst es.
Proof.
  induction t as [data x|es IH] using node_induction; intros Hwf rel Hrel.
  - inversion Hrel.
  - cbn [marker_below] in Hrel. rewrite Forall_forall in IH.
    apply elem_of_app in Hrel as [Hown|Hsub].
    + apply list_elem_of_fmap in Hown as ([name c] & -> & Hin).
      apply list_elem_of_In, filter_In in Hin as [Hin Hm].
      apply list_elem_of_In in Hin. simpl in Hm.
      destruct (wf_child _ _ _ Hwf Hin) as (Hplain & Hwfc & Hentry).
      destruct c as [data x|ces]; [discriminate|].
      simpl in Hm. apply bool_decide_eq_true in Hm.
      split; [discriminate|]. split; [now repeat constructor|].
      exists ces. simpl. now rewrite Hentry.
    + apply list_elem_of_In, in_flat_map in Hsub as ([name c] & Hin & Hsub).
      apply list_elem_of_In in Hin.
      apply in_map_iff in Hsub as (rel' & <- & Hrel').
      apply list_elem_of_In in Hrel'.
      destruct (wf_child _ _ _ Hwf Hin) as (Hplain & Hwfc & Hentry).
      destruct (IH _ Hin Hwfc rel' Hrel') as (Hne & Hall & es' & Hlook & Hm).
      split; [discriminate|]. split; [now constructor|].
      exists es'. simpl. now rewrite Hentry.
Qed.


Lemma components_path_below cwd rel :
  Forall (fun n => plain n = true) rel ->
  forall top p,
    components cwd top = Some p ->
    components cwd (path_below top rel) = Some (p ++ rel).
Proof.
  induction rel as [|name rel IH]; intros Hall top p Hp.
  - simpl. now rewrite app_nil_r.
  - apply Forall_cons in Hall as [Hname Hall].
    rewrite path_below_cons.
    rewrite (IH Hall _ (p ++ [name])); [now rewrite <- app_assoc|].
    now apply components_join.
Qed.

Lemma NoDup_flat_map_heads (es : list (string * node))
    (below : node -> list (list string)) :
  NoDup (map fst es) ->
  (forall e, e ∈ es -> NoDup (below (snd e))) ->
  NoDup (flat_map (fun e => map (cons (fst e)) (below (snd e))) es).
Proof.
  induction es as [|[name c] es IH]; intros Hnd Hall; [constructor|].
  cbn [flat_map fst snd map] in *. apply NoDup_cons in Hnd as [Hname Hnd].
  apply NoDup_app. split; [|split].
  - apply (NoDup_fmap_2 (cons name)). apply (Hall (name, c)). constructor.
  - intros rel Hrel Hrest.
    apply list_elem_of_fmap in Hrel as (r & -> & _).
    apply list_elem_of_In, in_flat_map in Hrest as ([name' c'] & Hin & Hr).
    apply in_map_iff in Hr as (r' & Heq & _). simpl in Heq.
    injection Heq as -> _. apply Hname.
    apply list_elem_of_fmap. exists (name, c'). split; [reflexivity|].
    now apply list_elem_of_In.
  - apply IH; [exact Hnd|]. intros e He. apply Hall. now constructor.
Qed.

Lemma NoDup_map_fst_filter (keep : string * node -> bool) es :
  NoDup (map fst es) -> NoDup (map fst (List.filter keep es)).
Proof.
  induction es as [|[name c] es IH]; intros Hnd; [constructor|].
  cbn [map fst] in Hnd. apply NoDup_cons in Hnd as [Hname Hnd].
  cbn [List.filter]. destruct (keep (name, c)); [|now apply IH].
  cbn [map fst]. apply NoDup_cons. split; [|now apply IH].
  intros Hin. apply Hname.
  apply list_elem_of_fmap in Hin as (e & -> & He).
  apply list_elem_of_In, filter_In in He as [He _].
  apply list_elem_of_fmap. exists e. split; [reflexivity|].
  now apply list_elem_of_In.
Qed.

Lemma marker_below_NoDup t : wf t = true -> NoDup (marker_below t).
Proof.
  induction t as [data x|es IH] using node_induction; intros Hwf.
  - constructor.
  - cbn [marker_below]. rewrite Forall_forall in IH.
    pose proof (wf_dir_inv _ Hwf) as [Hnd Hall].
    rewrite Forall_forall in Hall.
    apply NoDup_app. split; [|split].
    + rewrite <- (map_map fst (fun n : string => [n])).
      apply (NoDup_fmap_2 (fun n : string => [n])).
      now apply NoDup_map_fst_filter.
    + intros rel Hown Hsub.
      apply list_elem_of_fmap in Hown as (e & -> & _).
      apply list_elem_of_In, in_flat_map in Hsub as ([name c] & Hin & Hr).
      apply list_elem_of_In in Hin.
      apply in_map_iff in Hr as (r & Heq & Hr). apply list_elem_of_In in Hr.
      injection Heq as _ ->.
      destruct (marker_below_inv c) with (rel := @nil string) as (Hne & _);
        [exact (proj2 (Hall _ Hin)) | exact Hr | congruence].
    + apply NoDup_flat_map_heads; [exact Hnd|].
      intros e He. apply (IH e He). exact (proj2 (Hall _ He)).
Qed.


(** ** Writing files *)

Lemma same_shape_refl w : same_shape w w.
Proof. now split. Qed.

Lemma same_shape_trans w1 w2 w3 :
  same_shape w1 w2 -> same_shape w2 w3 -> same_shape w1 w3.
Proof.
  intros [Hc1 Hd1] [Hc2 Hd2]. split; [congruence|].
  intros q. now rewrite Hd2.
Qed.

Lemma removelast_snoc (p : list string) c : removelast (p ++ [c]) = p.
Proof. apply removelast_last. Qed.

Lemma open_w_run s w pp c :
  components (curdir w) s = Some (pp ++ [c]) ->
  is_dir (lookup_node (fs w) pp) = true ->
  is_dir (lookup_node (fs w) (pp ++ [c])) = false ->
  exists w' x,
    open_w s w = (Ok tt, w') /\
    same_shape w w' /\
    opened w' = opened w ++ [s] /\
    lookup_node (fs w') (pp ++ [c]) = Some (File "" x).
Proof.
  intros Hp Hparent Hnd.
  assert (Hx : exists x,
            match lookup_node (fs w) (pp ++ [c]) with
            | Some (File _ x0) => x0
            | _ => false
            end = x) by eauto.
  destruct Hx as [x Hx].
  destruct (put_in_dir (fs w) pp c (File "" x) Hparent) as [t' Hput].
  exists (World (sys_argv w) (environ w) (sys_platform w) t' (curdir w)
                (stdout w) (opened w ++ [s]) (archives w) (popen w)), x.
  split; [|split; [|split]].
  - unfold open_w, resolve_path, bind, gets. rewrite Hp.
    rewrite removelast_snoc, Hparent.
    destruct (lookup_node (fs w) (pp ++ [c])) as [[d x0|es]|] eqn:Hl;
      try discriminate; subst x; rewrite Hput; reflexivity.
  - split; [reflexivity|]. intros q. simpl.
    now apply (put_file_skeleton _ _ _ _ _ Hput).
  - reflexivity.
  - simpl. now apply (put_same _ _ _ _ Hput).
Qed.

Lemma f_write_run s text w p data x :
  components (curdir w) s = Some p ->
  lookup_node (fs w) p = Some (File data x) ->
  exists w',
    f_write s text w = (Ok tt, w') /\
    same_shape w w' /\
    opened w' = opened w /\
    lookup_node (fs w') p = Some (File (data +:+ text) x).
Proof.
  intros Hp Hl.
  destruct (put_existing (fs w) p (File (data +:+ text) x) _ Hl) as [t' Hput].
  exists (with_fs w t'). split; [|split; [|split]].
  - unfold f_write, resolve_path, bind, gets. rewrite Hp, Hl, Hput. reflexivity.
  - split; [reflexivity|]. intros q. simpl.
    apply (put_file_skeleton _ _ _ _ _ Hput). now rewrite Hl.
  - reflexivity.
  - simpl. now apply (put_same _ _ _ _ Hput).
Qed.

Lemma chmod_exec_run s w p data x :
  components (curdir w) s = Some p ->
  lookup_node (fs w) p = Some (File data x) ->
  exists w',
    chmod_exec s w = (Ok tt, w') /\
    same_shape w w' /\
    opened w' = opened w /\
    lookup_node (fs w') p = Some (File data true).
Proof.
  intros Hp Hl.
  destruct (put_existing (fs w) p (File data true) _ Hl) as [t' Hput].
  exists (with_fs w t'). split; [|split; [|split]].
  - unfold chmod_exec, resolve_path, bind, gets. rewrite Hp, Hl, Hput.
    reflexivity.
  - split; [reflexivity|]. intros q. simpl.
    apply (put_file_skeleton _ _ _ _ _ Hput). now rewrite Hl.
  - reflexivity.
  - simpl. now apply (put_same _ _ _ _ Hput).
Qed.

Lemma os_path_relpath_run path start w :
  path <> "" ->
  os_path_relpath path start w = (Ok (relpath (curdir w) path start), w).
Proof.
  intros Hne. unfold os_path_relpath.
  now rewrite bool_decide_eq_false_2.
Qed.

Lemma components_nonempty cwd s p : components cwd s = Some p -> s <> "".
Proof. intros H ->. discriminate. Qed.

Lemma os_path_join_nonempty a name : name <> "" -> os_path_join a name <> "".
Proof.
  intros Hne. unfold os_path_join.
  destruct (isabs name); [exact Hne|].
  destruct (bool_decide (a = "") || endswith_slash a);
    destruct a; simpl; try discriminate; exact Hne.
Qed.

(** One per-folder script. *)
Lemma write_run_script_run mf6path f w pf :
  mf6path <> "" ->
  components (curdir w) f = Some pf ->
  is_dir (lookup_node (fs w) pf) = true ->
  is_dir (lookup_node (fs w) (pf ++ ["run.sh"])) = false ->
  exists w',
    write_run_script mf6path f w = (Ok tt, w') /\
    same_shape w w' /\
    opened w' = opened w ++ [os_path_join f "run.sh"] /\
    lookup_node (fs w') (pf ++ ["run.sh"])
    = Some (File ((("" +:+ ("#!/bin/bash" +:+ nl))
                   +:+ (relpath (curdir w) mf6path f +:+ nl))
                  +:+ ("echo ." +:+ nl)) true).
Proof.
  intros Hmf6 Hpf Hdir Hfree.
  set (fname := os_path_join f "run.sh").
  assert (Hname : components (curdir w) fname = Some (pf ++ ["run.sh"]))
    by now apply components_join.
  set (w1 := snd (print ("Adding " +:+ fname) w)).
  destruct (open_w_run fname w1 pf "run.sh" Hname Hdir Hfree)
    as (w2 & x & Hopen & [Hc2 Hs2] & Ho2 & Hl2).
  destruct (f_write_run fname ("#!/bin/bash" +:+ nl) w2 _ _ _
              ltac:(rewrite Hc2; exact Hname) Hl2)
    as (w3 & Hw3 & [Hc3 Hs3] & Ho3 & Hl3).
  destruct (f_write_run fname (relpath (curdir w) mf6path f +:+ nl) w3 _ _ _
              ltac:(rewrite Hc3, Hc2; exact Hname) Hl3)
    as (w4 & Hw4 & [Hc4 Hs4] & Ho4 & Hl4).
  destruct (f_write_run fname ("echo ." +:+ nl) w4 _ _ _
              ltac:(rewrite Hc4, Hc3, Hc2; exact Hname) Hl4)
    as (w5 & Hw5 & [Hc5 Hs5] & Ho5 & Hl5).
  destruct (chmod_exec_run fname w5 _ _ _
              ltac:(rewrite Hc5, Hc4, Hc3, Hc2; exact Hname) Hl5)
    as (w6 & Hw6 & [Hc6 Hs6] & Ho6 & Hl6).
  exists w6. split; [|split; [|split]].
  - unfold write_run_script. fold fname.
    erewrite bind_ok by reflexivity. fold w1.
    erewrite bind_ok by exact Hopen.
    erewrite bind_ok by exact Hw3.
    erewrite bind_ok
      by (apply os_path_relpath_run; exact Hmf6).
    replace (curdir w3) with (curdir w) by (rewrite Hc3, Hc2; reflexivity).
    erewrite bind_ok by exact Hw4.
    erewrite bind_ok by exact Hw5.
    exact Hw6.
  - split.
    + rewrite Hc6, Hc5, Hc4, Hc3, Hc2. reflexivity.
    + intros q. rewrite Hs6, Hs5, Hs4, Hs3, Hs2. reflexivity.
  - rewrite Ho6, Ho5, Ho4, Ho3, Ho2. reflexivity.
  - exact Hl6.
Qed.


(** One visit in the aggregate script. *)
Lemma write_visit_run fname examples mf6path f w prun data x :
  f <> "" -> examples <> "" -> mf6path <> "" ->
  components (curdir w) fname = Some prun ->
  lookup_node (fs w) prun = Some (File data x) ->
  exists w',
    write_visit fname examples mf6path f w = (Ok tt, w') /\
    same_shape w w' /\
    opened w' = opened w /\
    lookup_node (fs w') prun
    = Some (File (data +:+ visit (curdir w) examples mf6path f) x).
Proof.
  intros Hf Hex Hmf6 Hname Hl.
  destruct (f_write_run fname (("cd " +:+ relpath (curdir w) f examples) +:+ nl)
              w _ _ _ Hname Hl)
    as (w1 & Hw1 & [Hc1 Hs1] & Ho1 & Hl1).
  destruct (f_write_run fname (relpath (curdir w) mf6path f +:+ nl) w1 _ _ _
              ltac:(rewrite Hc1; exact Hname) Hl1)
    as (w2 & Hw2 & [Hc2 Hs2] & Ho2 & Hl2).
  destruct (f_write_run fname (("cd " +:+ relpath (curdir w) examples f) +:+ nl)
              w2 _ _ _ ltac:(rewrite Hc2, Hc1; exact Hname) Hl2)
    as (w3 & Hw3 & [Hc3 Hs3] & Ho3 & Hl3).
  destruct (f_write_run fname ("" +:+ nl) w3 _ _ _
              ltac:(rewrite Hc3, Hc2, Hc1; exact Hname) Hl3)
    as (w4 & Hw4 & [Hc4 Hs4] & Ho4 & Hl4).
  exists w4. split; [|split; [|split]].
  - unfold write_visit.
    erewrite bind_ok by (apply os_path_relpath_run; exact Hf).
    erewrite bind_ok by exact Hw1.
    erewrite bind_ok by (apply os_path_relpath_run; exact Hmf6).
    rewrite Hc1.
    erewrite bind_ok by exact Hw2.
    erewrite bind_ok by (apply os_path_relpath_run; exact Hex).
    rewrite Hc2, Hc1.
    erewrite bind_ok by exact Hw3.
    exact Hw4.
  - split.
    + rewrite Hc4, Hc3, Hc2, Hc1. reflexivity.
    + intros q. rewrite Hs4, Hs3, Hs2, Hs1. reflexivity.
  - rewrite Ho4, Ho3, Ho2, Ho1. reflexivity.
  - rewrite Hl4. unfold visit. now rewrite !str_app_assoc.
Qed.

(** All the visits of the aggregate script. *)
Lemma write_visits_run fname examples mf6path prun x :
  examples <> "" -> mf6path <> "" ->
  forall folders w data,
    (forall f, f ∈ folders -> f <> "") ->
    components (curdir w) fname = Some prun ->
    lookup_node (fs w) prun = Some (File data x) ->
    exists w',
      for_each folders (write_visit fname examples mf6path) w = (Ok tt, w') /\
      same_shape w w' /\
      opened w' = opened w /\
      lookup_node (fs w') prun
      = Some (File (data +:+ concat_strings
                               (map (visit (curdir w) examples mf6path) folders))
                   x).
Proof.
  intros Hex Hmf6.
  induction folders as [|f folders IH]; intros w data Hne Hname Hl.
  - exists w. split; [reflexivity|]. split; [apply same_shape_refl|].
    split; [reflexivity|]. simpl. rewrite Hl. do 2 f_equal.
    clear. induction data as [|c d IHd]; [reflexivity|].
    rewrite str_app_cons. now f_equal.
  - destruct (write_visit_run fname examples mf6path f w prun data x)
      as (w1 & Hrun & Hshape1 & Ho1 & Hl1);
      [apply Hne; constructor | assumption..|].
    pose proof Hshape1 as [Hc1 _].
    destruct (IH w1 (data +:+ visit (curdir w) examples mf6path f))
      as (w' & Hrest & Hshape' & Ho' & Hl').
    + intros g Hg. apply Hne. now constructor.
    + now rewrite Hc1.
    + exact Hl1.
    + exists w'. split; [|split; [|split]].
      * cbn [for_each]. erewrite bind_ok by exact Hrun. exact Hrest.
      * now apply (same_shape_trans w w1 w').
      * now rewrite Ho', Ho1.
      * rewrite Hl', Hc1. cbn [map concat_strings].
        now rewrite str_app_assoc.
Qed.

Lemma get_platform_run w :
  is_windows (sys_platform w) = false ->
  exists platform,
    get_platform w = (Ok platform, w) /\
    bool_decide (platform = "windows") = false.
Proof.
  unfold is_windows, get_platform, bind, gets, ret. intros H.
  destruct (str_contains "linux" (sys_platform w));
    [eexists; split; [reflexivity | reflexivity]|].
  destruct (str_contains "darwin" (sys_platform w));
    [eexists; split; [reflexivity | reflexivity]|].
  destruct (str_contains "win" (sys_platform w)); [discriminate|].
  eexists; split; reflexivity.
Qed.

Lemma sorted_Permutation l : sorted l ≡ₚ l.
Proof. apply merge_sort_Permutation. Qed.

Lemma sorted_Sorted l : Sorted String.le (sorted l).
Proof. apply (Sorted_merge_sort String.le). Qed.

Lemma sorted_elem_of l x : x ∈ sorted l <-> x ∈ l.
Proof. now rewrite sorted_Permutation. Qed.



(** * Further properties of the script *)

(** ** Configuration resolver: the edges *)

Lemma scan_path_dangling flag argv pre xs (acc : string) w :
  argv = pre ++ xs -> dangling flag xs ->
  for_enumerate_from (length pre) xs acc
    (fun idx arg cur =>
       if decide (arg = flag) then index argv (idx + 1) else ret cur) w
  = (Raise IndexError, w).
Proof.
  revert pre acc. induction xs as [|x xs IH]; intros pre acc Hargv Hd.
  - discriminate.
  - assert (Hargv' : argv = (pre ++ [x]) ++ xs)
      by (rewrite <- app_assoc; exact Hargv).
    assert (Hlen : length (pre ++ [x]) = S (length pre))
      by (rewrite length_app; simpl; lia).
    cbn [for_enumerate_from]. destruct xs as [|y xs'].
    + injection Hd as ->. rewrite decide_True by reflexivity.
      unfold index. rewrite lookup_ge_None_2.
      * reflexivity.
      * rewrite Hargv, length_app. simpl. lia.
    + assert (Hd' : dangling flag (y :: xs')) by exact Hd.
      destruct (decide (x = flag)) as [->|Hx].
      * unfold index at 1.
        replace (argv !! (length pre + 1)) with (Some y).
        -- erewrite bind_ok by reflexivity.
           rewrite <- Hlen. now apply IH.
        -- rewrite Hargv', lookup_app_r by (rewrite Hlen; lia).
           rewrite Hlen.
           now replace (length pre + 1 - S (length pre)) with 0 by lia.
      * erewrite bind_ok by reflexivity. rewrite <- Hlen. now apply IH.
Qed.

(** X1. A value-taking flag given as the last word of the command line makes
    its resolver raise IndexError, for each of -dp, -mf6p, -mf6ep and -fc:
    neither the caller's value, nor the environment variable, nor the
    default is used, and nothing is printed or set. *)
Theorem dangling_flag_raises_IndexError w t caller :
  dangling (flag_of t) (sys_argv w) ->
  resolve t caller w = (Raise IndexError, w).
Proof.
  intros Hd. destruct t; simpl in Hd |- *.
  - unfold get_distribution_path, for_enumerate.
    erewrite bind_ok by reflexivity.
    erewrite bind_raise; [reflexivity|].
    now apply (scan_path_dangling "-dp" (sys_argv w) []).
  - unfold get_modflow6_path, for_enumerate.
    erewrite bind_ok by reflexivity.
    erewrite bind_raise; [reflexivity|].
    now apply (scan_path_dangling "-mf6p" (sys_argv w) []).
  - unfold get_modflow6_examples_path, for_enumerate.
    erewrite bind_ok by reflexivity.
    erewrite bind_raise; [reflexivity|].
    now apply (scan_path_dangling "-mf6ep" (sys_argv w) []).
  - now apply get_compiler_dangling.
Qed.

Lemma dangling_flag_raises_IndexError_witness :
  get_distribution_path (Some "./elsewhere")
    (bare_world ["make_distribution.py"; "-dp"]
                {["MODFLOW6_DISTRIBUTION_PATH" := "./from-env"]})
  = (Raise IndexError,
     bare_world ["make_distribution.py"; "-dp"]
                {["MODFLOW6_DISTRIBUTION_PATH" := "./from-env"]}).
Proof.
  apply (dangling_flag_raises_IndexError
           (bare_world ["make_distribution.py"; "-dp"]
                       {["MODFLOW6_DISTRIBUTION_PATH" := "./from-env"]})
           DistributionPath).
  reflexivity.
Defined.

(** X2. The compiler chosen by [get_compiler] sticks: a second call, with
    the same argument or with none, returns the same compiler and leaves the
    environment as the first call left it. *)
Theorem compiler_choice_sticks w caller v w1 :
  get_compiler caller w = (Ok v, w1) ->
  (exists w2, get_compiler caller w1 = (Ok v, w2) /\ environ w2 = environ w1) /\
  (exists w2, get_compiler None w1 = (Ok v, w2) /\ environ w2 = environ w1).
Proof.
  intros Hrun.
  destruct (decide (last (sys_argv w) = Some "-fc")) as [Hd|Hd].
  { rewrite (get_compiler_dangling _ _ Hd) in Hrun. discriminate. }
  rewrite (get_compiler_spec _ _ Hd) in Hrun. cbv zeta in Hrun.
  injection Hrun as Hv Hw1.
  assert (Hargv : sys_argv w1 = sys_argv w)
    by (rewrite <- Hw1; now destruct (compiler_source _ _ _)).
  assert (Hd1 : ~ dangling "-fc" (sys_argv w1)) by now rewrite Hargv.
  rewrite !(get_compiler_spec _ _ Hd1). cbv zeta. rewrite Hargv.
  unfold cli_caller_env_default, compiler_source in *.
  destruct (cli_value "-fc" (sys_argv w)) as [c|].
  { simpl in Hv. subst c. rewrite <- Hw1. simpl.
    split; eexists; (split; [reflexivity|]); simpl;
      now rewrite insert_insert_eq. }
  destruct caller as [c|].
  { simpl in Hv. subst c. rewrite <- Hw1. simpl. rewrite lookup_insert_eq.
    split; eexists; (split; [reflexivity|]); simpl;
      [now rewrite insert_insert_eq | reflexivity]. }
  destruct (environ w !! "FC") as [e|] eqn:He.
  { simpl in Hv. subst e. subst w1. rewrite He. simpl.
    split; eexists; (split; reflexivity). }
  simpl in Hv. rewrite <- Hw1. simpl. rewrite lookup_insert_eq. simpl.
  rewrite Hv. split; eexists; (split; reflexivity).
Qed.

Lemma compiler_choice_sticks_witness :
  exists w2,
    get_compiler None (snd (get_compiler (Some "ifort") plain_world))
    = (Ok "ifort", w2).
Proof.
  destruct (compiler_choice_sticks plain_world (Some "ifort") "ifort"
              (snd (get_compiler (Some "ifort") plain_world)))
    as [_ (w2 & H2 & _)].
  - reflexivity.
  - exists w2. exact H2.
Defined.

(** ** Command runner: what comes back *)





(** X4. A program that exits with status 0 is never escalated: with or
    without [terminate_on_failure] the call returns the output and 0, the
    only line printed is the announcement (none when [verbose] is off), and
    the file system is the one the program left. *)
Theorem run_command_success w argv pth timeout verbose escalate p output :
  popen w argv pth (fs w) (curdir w) = inr p ->
  first_communicate p timeout = inr (output, 0%Z) ->
  utf8_valid output = true ->
  exists w',
    run_command argv pth timeout verbose escalate w = (Ok (output, 0%Z), w') /\
    fs w' = fs_after p /\
    curdir w' = curdir w /\
    stdout w'
    = stdout w ++
      (if verbose
       then ["Running system command " +:+
             "(" +:+ str_join " " argv +:+ ") in directory: " +:+ pth]
       else []).
Proof.
  intros Hp Hc Hu.
  rewrite (run_command_completed _ _ _ _ _ _ _ _ _ Hp Hc Hu). cbv zeta.
  rewrite andb_false_r. eexists. split; [reflexivity|]. simpl.
  rewrite andb_false_r, app_nil_r. auto.
Qed.

Lemma run_command_success_witness :
  exists w',
    run_command ["python"; "update_version.py"] "." None true true
      approved_world
    = (Ok ("done" +:+ nl, 0%Z), w').
Proof.
  destruct (run_command_success approved_world ["python"; "update_version.py"]
              "." None true true
              (Process (fun _ => inr ("done" +:+ nl, 0%Z)) "" (Dir []))
              ("done" +:+ nl))
    as (w' & Hrun & _); try reflexivity.
  exists w'. exact Hrun.
Defined.

(** ** Release information *)






(** ** Removing files *)

Lemma wf_dir_intro es :
  NoDup (map fst es) ->
  Forall (fun e => plain (fst e) = true /\ wf (snd e) = true) es ->
  wf (Dir es) = true.
Proof.
  intros Hnd Hall. cbn [wf]. apply andb_true_iff. split.
  - now apply bool_decide_eq_true.
  - apply forallb_forall. intros e He. apply list_elem_of_In in He.
    rewrite Forall_forall in Hall. apply andb_true_iff. now apply Hall.
Qed.

Lemma del_entry_elem name es e : e ∈ del_entry name es -> e ∈ es.
Proof.
  induction es as [|[n c] es IH]; simpl; [easy|].
  destruct (decide (n = name)); intros H.
  - now constructor.
  - apply elem_of_cons in H as [->|H]; [constructor|].
    constructor. now apply IH.
Qed.

Lemma del_entry_other name n es :
  n <> name -> entry n (del_entry name es) = entry n es.
Proof.
  intros Hne. induction es as [|[m c] es IH]; simpl; [reflexivity|].
  destruct (decide (m = name)) as [->|Hm]; simpl.
  - now rewrite decide_False by congruence.
  - destruct (decide (m = n)); [reflexivity | exact IH].
Qed.

Lemma del_entry_NoDup name es :
  NoDup (map fst es) ->
  NoDup (map fst (del_entry name es)) /\ entry name (del_entry name es) = None.
Proof.
  induction es as [|[n c] es IH]; simpl; intros Hnd.
  - split; [constructor | reflexivity].
  - apply NoDup_cons in Hnd as [Hn Hnd].
    destruct (decide (n = name)) as [->|Hne]; simpl.
    + split; [exact Hnd | now apply entry_None_iff].
    + destruct (IH Hnd) as [Hnd' Hgone]. split.
      * apply NoDup_cons. split; [|exact Hnd'].
        intros Hin. apply Hn. apply list_elem_of_fmap in Hin as (e & -> & He).
        apply list_elem_of_fmap. exists e. split; [reflexivity|].
        now apply (del_entry_elem name).
      * now rewrite decide_False.
Qed.

Lemma set_entry_names name c old es :
  entry name es = Some old -> map fst (set_entry name c es) = map fst es.
Proof.
  induction es as [|[n c'] es IH]; simpl; [discriminate|].
  destruct (decide (n = name)); simpl; [reflexivity|].
  intros H. now rewrite IH.
Qed.

Lemma set_entry_elem name c es e :
  e ∈ set_entry name c es -> e = (name, c) \/ e ∈ es.
Proof.
  induction es as [|[n c'] es IH]; simpl; intros H.
  - apply list_elem_of_singleton in H. now left.
  - destruct (decide (n = name)) as [->|Hne].
    + apply elem_of_cons in H as [->|H]; [now left|]. right. now constructor.
    + apply elem_of_cons in H as [->|H]; [right; constructor|].
      destruct (IH H) as [->|Hin]; [now left|]. right. now constructor.
Qed.

Lemma wf_set_entry name c old es :
  wf (Dir es) = true -> entry name es = Some old -> wf c = true ->
  wf (Dir (set_entry name c es)) = true.
Proof.
  intros Hwf He Hc. apply wf_dir_inv in Hwf as [Hnd Hall].
  apply wf_dir_intro.
  - now rewrite (set_entry_names _ _ _ _ He).
  - apply Forall_forall. intros e Hin. rewrite Forall_forall in Hall.
    apply set_entry_elem in Hin as [->|Hin]; [|now apply Hall].
    split; [|exact Hc]. simpl.
    now apply (Hall _ (entry_Some_In _ _ _ He)).
Qed.

Lemma wf_del_entry name es :
  wf (Dir es) = true -> wf (Dir (del_entry name es)) = true.
Proof.
  intros Hwf. apply wf_dir_inv in Hwf as [Hnd Hall].
  apply wf_dir_intro.
  - now apply del_entry_NoDup.
  - apply Forall_forall. intros e Hin. rewrite Forall_forall in Hall.
    apply Hall. now apply (del_entry_elem name).
Qed.

Lemma unlink_below es c c2 p :
  unlink (Dir es) (c :: c2 :: p)
  = match entry c es with
    | Some child =>
        match unlink child (c2 :: p) with
        | Some child' => Some (Dir (set_entry c child' es))
        | None => None
        end
    | None => None
    end.
Proof. reflexivity. Qed.

(** Removing a file of a well-formed tree: the file is gone, the directories
    above it are still directories, everything else is as it was. *)
Lemma unlink_file p :
  forall t data x,
    wf t = true -> is_dir (Some t) = true ->
    lookup_node t p = Some (File data x) ->
    exists t',
      unlink t p = Some t' /\ wf t' = true /\ is_dir (Some t') = true /\
      lookup_node t' p = None /\
      (forall q, ~ q `prefix_of` p -> lookup_node t' q = lookup_node t q) /\
      (forall q, q `prefix_of` p -> q <> p ->
                 is_dir (lookup_node t' q) = true /\
                 is_dir (lookup_node t q) = true).
Proof.
  induction p as [|c p IH]; intros t data x Hwf Hroot Hfile.
  - simpl in Hfile. injection Hfile as ->. discriminate.
  - destruct t as [|es]; [discriminate|]. simpl in Hfile.
    destruct (entry c es) as [child|] eqn:He; [|discriminate].
    assert (Hchild : wf child = true).
    { apply wf_dir_inv in Hwf as [_ Hall]. rewrite Forall_forall in Hall.
      now apply (Hall _ (entry_Some_In _ _ _ He)). }
    destruct p as [|c2 p].
    + simpl in Hfile. injection Hfile as ->.
      exists (Dir (del_entry c es)).
      pose proof (wf_dir_inv _ Hwf) as [Hnd _].
      destruct (del_entry_NoDup c es Hnd) as [_ Hgone].
      split; [reflexivity|]. split; [now apply wf_del_entry|].
      split; [reflexivity|]. split; [simpl; now rewrite Hgone|]. split.
      * intros q Hq. destruct q as [|c' q]; [exfalso; apply Hq, prefix_nil|].
        simpl. destruct (decide (c' = c)) as [->|Hne].
        -- rewrite Hgone, He. destruct q as [|c'' q]; [|reflexivity].
           exfalso. apply Hq. reflexivity.
        -- now rewrite del_entry_other.
      * intros q Hq Hne. destruct q as [|c' q]; [split; reflexivity|].
        exfalso. apply Hne.
        apply prefix_cons_inv_1 in Hq as Hc. subst c'.
        apply prefix_cons_inv_2, prefix_nil_inv in Hq. now subst q.
    + assert (Hcdir : is_dir (Some child) = true)
        by (destruct child; [discriminate | reflexivity]).
      destruct (IH child data x Hchild Hcdir Hfile)
        as (child' & Hun & Hwf' & Hdir' & Hgone & Hother & Habove).
      exists (Dir (set_entry c child' es)).
      split; [now rewrite unlink_below, He, Hun|].
      split; [now apply (wf_set_entry _ _ child)|].
      split; [reflexivity|].
      split; [cbn [lookup_node]; now rewrite entry_set_entry_eq|]. split.
      * intros q Hq. destruct q as [|c' q]; [exfalso; apply Hq, prefix_nil|].
        cbn [lookup_node]. destruct (decide (c' = c)) as [->|Hne].
        -- rewrite entry_set_entry_eq, He. apply Hother.
           intros Hpre. apply Hq. now apply prefix_cons.
        -- now rewrite entry_set_entry_ne by congruence.
      * intros q Hq Hne. destruct q as [|c' q]; [split; reflexivity|].
        apply prefix_cons_inv_1 in Hq as Hc. subst c'.
        apply prefix_cons_inv_2 in Hq.
        cbn [lookup_node]. rewrite entry_set_entry_eq, He.
        apply Habove; [exact Hq | congruence].
Qed.

Lemma node_kind (n : option node) :
  is_dir n = false -> is_file n = false -> n = None.
Proof. destruct n as [[|]|]; easy. Qed.

Lemma pruned_refl ps t : pruned ps t t.
Proof. repeat split; auto. Qed.

Lemma pruned_trans ps ps' t t' t'' :
  pruned ps t t' -> pruned ps' t' t'' -> pruned (ps ++ ps') t t''.
Proof.
  intros (Hd & Hf & Ho) (Hd' & Hf' & Ho'). repeat split.
  - intros q. now rewrite Hd', Hd.
  - intros q Hq. rewrite (Hf' q Hq). apply Hf. now rewrite <- (Hf' q Hq).
  - intros q Hq Hnot. rewrite not_elem_of_app in Hnot.
    destruct Hnot as [Hn Hn'].
    rewrite <- (Ho q Hq Hn). apply Ho'; [|exact Hn'].
    now rewrite (Ho q Hq Hn).
Qed.


(** What is not there before is not there after. *)
Lemma pruned_missing ps t t' q :
  pruned ps t t' -> lookup_node t q = None -> lookup_node t' q = None.
Proof.
  intros (Hd & Hf & _) Hq. apply node_kind.
  - now rewrite Hd, Hq.
  - destruct (is_file (lookup_node t' q)) eqn:Hfile; [|reflexivity].
    rewrite (Hf q Hfile), Hq in Hfile. discriminate.
Qed.

Lemma unlink_pruned t p data x :
  wf t = true -> is_dir (Some t) = true ->
  lookup_node t p = Some (File data x) ->
  exists t',
    unlink t p = Some t' /\ wf t' = true /\ is_dir (Some t') = true /\
    lookup_node t' p = None /\ pruned [p] t t'.
Proof.
  intros Hwf Hroot Hfile.
  destruct (unlink_file p t data x Hwf Hroot Hfile)
    as (t' & Hun & Hwf' & Hroot' & Hgone & Hother & Habove).
  exists t'. repeat split; try assumption.
  - intros q. destruct (decide (q `prefix_of` p)) as [Hq|Hq].
    + destruct (decide (q = p)) as [->|Hne].
      * now rewrite Hgone, Hfile.
      * destruct (Habove q Hq Hne) as [-> ->]. reflexivity.
    + now rewrite Hother.
  - intros q Hq. destruct (decide (q `prefix_of` p)) as [Hpre|Hpre].
    + destruct (decide (q = p)) as [->|Hne].
      * rewrite Hgone in Hq. discriminate.
      * destruct (Habove q Hpre Hne) as [Hd _].
        destruct (lookup_node t' q) as [[|]|]; discriminate.
    + now apply Hother.
  - intros q Hq Hnot. apply Hother. intros Hpre.
    destruct (decide (q = p)) as [->|Hne].
    + apply Hnot. constructor.
    + destruct (Habove q Hpre Hne) as [_ Hd].
      destruct (lookup_node t q) as [[|]|]; discriminate.
Qed.

Lemma os_remove_ok s w p data x :
  wf (fs w) = true -> is_dir (Some (fs w)) = true ->
  components (curdir w) s = Some p ->
  lookup_node (fs w) p = Some (File data x) ->
  exists t',
    os_remove s w = (Ok tt, with_fs w t') /\ wf t' = true /\
    is_dir (Some t') = true /\ lookup_node t' p = None /\
    pruned [p] (fs w) t'.
Proof.
  intros Hwf Hroot Hp Hfile.
  destruct (unlink_pruned _ _ _ _ Hwf Hroot Hfile)
    as (t' & Hun & Hwf' & Hroot' & Hgone & Hpr).
  exists t'. split; [|auto].
  unfold os_remove, resolve_path, bind, gets. now rewrite Hp, Hfile, Hun.
Qed.


Lemma os_remove_inv s w r w' :
  os_remove s w = (r, w') ->
  curdir w' = curdir w /\ stdout w' = stdout w /\
  (forall e, r = Raise e -> w' = w).
Proof.
  unfold os_remove, resolve_path, bind, gets, raise, set_fs, modify.
  destruct (components (curdir w) s) as [p|].
  - destruct (lookup_node (fs w) p) as [[data x|es]|].
    + destruct (unlink (fs w) p); intros H; injection H as <- <-;
        repeat split; try reflexivity; intros e He; now try discriminate.
    + intros H; injection H as <- <-. repeat split; auto.
    + intros H; injection H as <- <-. repeat split; auto.
  - intros H; injection H as <- <-. repeat split; auto.
Qed.



Lemma node_at_file w s :
  is_file (node_at w s) = true ->
  exists p data x,
    components (curdir w) s = Some p /\
    lookup_node (fs w) p = Some (File data x).
Proof.
  unfold node_at. destruct (components (curdir w) s) as [p|]; [|discriminate].
  destruct (lookup_node (fs w) p) as [[data x|]|] eqn:Hn; try discriminate.
  intros _. now exists p, data, x.
Qed.

(** X6. [delete_files] never raises, whatever the names and the state of the
    file system: a file that cannot be removed is reported on the standard
    output, and ends the call with False only when failures are not allowed;
    with failures allowed the result is always True. The working directory
    is not changed. *)
Theorem delete_files_never_raises files pth allow_failure :
  forall w,
    exists b w',
      delete_files files pth allow_failure w = (Ok b, w') /\
      (allow_failure = true -> b = true) /\
      curdir w' = curdir w.
Proof.
  induction files as [|file files IH]; intros w.
  - exists true, w. repeat split.
  - cbn [delete_files].
    set (w1 := snd (print ("removing..." +:+ file) w)).
    destruct (os_remove (os_path_join pth file) w1) as [[[]|e] w2] eqn:Hrm.
    + destruct (os_remove_inv _ _ _ _ Hrm) as (Hcwd & _ & _).
      destruct (IH w2) as (b & w' & Hrest & Hb & Hcwd').
      exists b, w'. split; [|split; [exact Hb | now rewrite Hcwd', Hcwd]].
      assert (Hstep :
        try_except
          (bind (print ("removing..." +:+ file))
                (fun _ => bind (os_remove (os_path_join pth file))
                               (fun _ => ret false)))
          (fun _ => bind (print ("could not remove..." +:+ file))
                         (fun _ => if negb allow_failure then ret true
                                   else ret false)) w
        = (Ok false, w2)).
      { unfold try_except. erewrite bind_ok by reflexivity. fold w1.
        erewrite bind_ok by exact Hrm. reflexivity. }
      erewrite bind_ok by exact Hstep. exact Hrest.
    + destruct (os_remove_inv _ _ _ _ Hrm) as (Hcwd & _ & Hsame).
      set (w3 := snd (print ("could not remove..." +:+ file) w2)).
      assert (Hstep :
        try_except
          (bind (print ("removing..." +:+ file))
                (fun _ => bind (os_remove (os_path_join pth file))
                               (fun _ => ret false)))
          (fun _ => bind (print ("could not remove..." +:+ file))
                         (fun _ => if negb allow_failure then ret true
                                   else ret false)) w
        = (Ok (negb allow_failure), w3)).
      { unfold try_except. erewrite bind_ok by reflexivity. fold w1.
        erewrite bind_raise by exact Hrm.
        erewrite bind_ok by reflexivity. now destruct allow_failure. }
      destruct allow_failure.
      * destruct (IH w3) as (b & w' & Hrest & Hb & Hcwd').
        exists b, w'. split; [|split; [exact Hb|]].
        -- erewrite bind_ok by exact Hstep. exact Hrest.
        -- rewrite Hcwd'. unfold w3. simpl. exact Hcwd.
      * exists false, w3. split; [|split; [discriminate|]].
        -- erewrite bind_ok by exact Hstep. reflexivity.
        -- unfold w3. simpl. exact Hcwd.
Qed.

Lemma listed_cons cwd pth f files :
  listed cwd pth (f :: files)
  = match components cwd (os_path_join pth f) with
    | Some p => p :: listed cwd pth files
    | None => listed cwd pth files
    end.
Proof. reflexivity. Qed.


Lemma elem_of_listed cwd pth files q :
  q ∈ listed cwd pth files <->
  exists f, f ∈ files /\ components cwd (os_path_join pth f) = Some q.
Proof. unfold listed. apply list_elem_of_omap. Qed.











(** ** Distribution scaffolder: the edges *)

(** X10. When the distribution path exists but is a regular file, the guard
    of [initialize_new_distribution] does not see it: the call ends in the
    FileExistsError of [os.makedirs], not in the exception that asks to
    remove the path, and the file system is as it was. *)
Theorem scaffold_onto_file_raises_FileExistsError m d w :
  is_file (node_at w d) = true ->
  initialize_new_distribution m d w
  = (Raise (FileExistsError d),
     snd (print ("Creating new distribution path: " +:+ d) w)).
Proof.
  intros Hfile. destruct (node_at_file _ _ Hfile) as (p & data & x & Hp & Hn).
  unfold initialize_new_distribution.
  erewrite bind_ok by reflexivity.
  erewrite bind_ok by apply os_path_isdir_run.
  erewrite (node_at_eq w) by reflexivity.
  unfold node_at at 1. rewrite Hp, Hn. cbn [is_dir].
  erewrite bind_raise; [reflexivity|].
  unfold os_makedirs, resolve_path, bind, gets. simpl. rewrite Hp. simpl.
  now rewrite Hn.
Qed.

Lemma scaffold_onto_file_raises_FileExistsError_witness :
  fst (initialize_new_distribution "../modflow6" "../modflow6/src/mf6.f90"
         scaffold_world)
  = Raise (FileExistsError "../modflow6/src/mf6.f90").
Proof.
  rewrite (scaffold_onto_file_raises_FileExistsError "../modflow6"
             "../modflow6/src/mf6.f90" scaffold_world eq_refl).
  reflexivity.
Defined.



(** ** Archiver and run scripts: the edges *)






Lemma get_platform_value w :
  get_platform w
  = (Ok (if str_contains "linux" (sys_platform w) then "linux"
         else if str_contains "darwin" (sys_platform w) then "macos"
         else if str_contains "win" (sys_platform w) then "windows"
         else "unknown"), w).
Proof. reflexivity. Qed.

(** X14. Of the two builders of run scripts at most one acts, whatever the
    platform: where [get_platform] says windows (the platform name contains
    win and neither linux nor darwin, so darwin is not Windows) the builder
    of run.sh returns at once, everywhere else the builder of run.bat does;
    the one that returns at once changes nothing and prints nothing. *)
Theorem run_script_builders_exclude_each_other d w :
  (is_windows (sys_platform w) = true ->
   build_example_run_scripts_linux d w = (Ok tt, w)) /\
  (is_windows (sys_platform w) = false ->
   build_example_run_scripts_win d w = (Ok tt, w)) /\
  (build_example_run_scripts_linux d w = (Ok tt, w) \/
   build_example_run_scripts_win d w = (Ok tt, w)).
Proof.
  assert (Hlinux : is_windows (sys_platform w) = true ->
            build_example_run_scripts_linux d w = (Ok tt, w)).
  { unfold is_windows. intros H.
    apply andb_true_iff in H as [H Hwin]. apply andb_true_iff in H as [Hl Hd].
    apply negb_true_iff in Hl, Hd.
    unfold build_example_run_scripts_linux.
    erewrite bind_ok by apply get_platform_value.
    now rewrite Hl, Hd, Hwin. }
  assert (Hwin : is_windows (sys_platform w) = false ->
            build_example_run_scripts_win d w = (Ok tt, w)).
  { unfold is_windows. intros H.
    unfold build_example_run_scripts_win.
    erewrite bind_ok by apply get_platform_value.
    destruct (str_contains "linux" (sys_platform w)); [reflexivity|].
    destruct (str_contains "darwin" (sys_platform w)); [reflexivity|].
    destruct (str_contains "win" (sys_platform w)); [discriminate|].
    reflexivity. }
  split; [exact Hlinux|]. split; [exact Hwin|].
  destruct (is_windows (sys_platform w)); auto.
Qed.

Lemma run_script_builders_exclude_each_other_witness :
  build_example_run_scripts_win "mf6dev" (on_platform "darwin" examples_world)
  = (Ok tt, on_platform "darwin" examples_world) /\
  build_example_run_scripts_linux "mf6dev" (on_platform "cygwin" examples_world)
  = (Ok tt, on_platform "cygwin" examples_world).
Proof.
  split.
  - apply (run_script_builders_exclude_each_other "mf6dev"
             (on_platform "darwin" examples_world)). reflexivity.
  - apply (run_script_builders_exclude_each_other "mf6dev"
             (on_platform "cygwin" examples_world)). reflexivity.
Defined.

(** ** The working directory *)



(** ** The build files of meson *)

Lemma fold_left_step_plain rel :
  Forall (fun n => plain n = true) rel ->
  forall p, fold_left step_component rel p = p ++ rel.
Proof.
  induction rel as [|name rel IH]; intros Hall p; simpl.
  - now rewrite app_nil_r.
  - apply Forall_cons in Hall as [Hname Hall].
    rewrite step_component_plain by exact Hname.
    rewrite (IH Hall). now rewrite <- app_assoc.
Qed.

Lemma plain_not_abs name : plain name = true -> isabs name = false.
Proof.
  intros Hplain. apply plain_inv in Hplain as (Hne & _ & _ & Hslash).
  destruct name as [|c n]; [congruence|].
  apply no_slash_cons in Hslash as [Hc _].
  unfold isabs. cbn [startswith]. now rewrite Ascii.eqb_sym, Hc.
Qed.

(** The names of a joined path, for a name joined to any path. *)
Lemma split_join_fold s name p :
  plain name = true ->
  fold_left step_component (split_slash (os_path_join s name)) p
  = fold_left step_component (split_slash s) p ++ [name].
Proof.
  intros Hplain.
  pose proof (plain_not_abs _ Hplain) as Hrel.
  pose proof (plain_inv _ Hplain) as (_ & _ & _ & Hslash).
  unfold os_path_join. rewrite Hrel.
  destruct (bool_decide (s = "")) eqn:Hempty; simpl.
  - apply bool_decide_eq_true in Hempty. subst s.
    change ("" +:+ name) with name.
    rewrite (split_slash_no_slash _ Hslash). cbn [fold_left split_slash].
    rewrite step_component_plain by exact Hplain. reflexivity.
  - destruct (endswith_slash s) eqn:Hend.
    + destruct (endswith_slash_inv _ Hend) as [a' ->].
      replace ((a' +:+ "/") +:+ name) with (a' +:+ String "/" name)
        by now rewrite str_app_assoc.
      rewrite !split_slash_app, !fold_left_app.
      rewrite (split_slash_no_slash _ Hslash). simpl.
      now rewrite step_component_plain.
    + change (s +:+ "/" +:+ name) with (s +:+ String "/" name).
      rewrite split_slash_app, fold_left_app.
      rewrite (split_slash_no_slash _ Hslash). simpl.
      now rewrite step_component_plain.
Qed.

Lemma isabs_join s name :
  plain name = true -> isabs (os_path_join s name) = isabs s.
Proof.
  intros Hplain. pose proof (plain_not_abs _ Hplain) as Hrel.
  unfold os_path_join. rewrite Hrel.
  destruct (bool_decide (s = "")) eqn:Hempty; simpl.
  - apply bool_decide_eq_true in Hempty. now subst s.
  - apply bool_decide_eq_false in Hempty.
    destruct (endswith_slash s); now apply isabs_app.
Qed.

(** Joining a relative path to a path: its names are followed from where
    the path leads. *)
Lemma components_join_relative cwd a r p :
  components cwd a = Some p -> r <> "" -> isabs r = false ->
  components cwd (os_path_join a r)
  = Some (fold_left step_component (split_slash r) p).
Proof.
  intros Ha Hr Hrel.
  unfold components, abspath_names in Ha.
  destruct (bool_decide (a = "")) eqn:Hempty; [discriminate|].
  apply bool_decide_eq_false in Hempty. injection Ha as <-.
  unfold os_path_join. rewrite Hrel.
  rewrite (bool_decide_eq_false_2 (a = "")) by exact Hempty. simpl.
  destruct (endswith_slash a) eqn:Hend.
  - destruct (endswith_slash_inv _ Hend) as [a' ->].
    unfold components, abspath_names.
    rewrite bool_decide_eq_false_2 by (destruct a'; simpl; discriminate).
    f_equal.
    assert (Habs : isabs ((a' +:+ "/") +:+ r) = isabs (a' +:+ "/"))
      by (apply isabs_app; destruct a'; discriminate).
    rewrite Habs.
    replace ((a' +:+ "/") +:+ r) with (a' +:+ String "/" r)
      by now rewrite str_app_assoc.
    rewrite !split_slash_app, !fold_left_app. reflexivity.
  - unfold components, abspath_names.
    rewrite bool_decide_eq_false_2 by (destruct a; [congruence | discriminate]).
    f_equal. rewrite isabs_app by exact Hempty.
    change (a +:+ "/" +:+ r) with (a +:+ String "/" r).
    now rewrite split_slash_app, fold_left_app.
Qed.

Lemma split_slash_join rel :
  Forall (fun n => plain n = true) rel -> rel <> [] ->
  split_slash (str_join "/" rel) = rel.
Proof.
  induction rel as [|x rel IH]; intros Hall Hne; [congruence|].
  apply Forall_cons in Hall as [Hx Hall].
  pose proof (plain_inv _ Hx) as (_ & _ & _ & Hslash).
  destruct rel as [|y rel].
  - simpl. now apply split_slash_no_slash.
  - change (str_join "/" (x :: y :: rel))
      with (x +:+ String "/" (str_join "/" (y :: rel))).
    rewrite split_slash_app, (split_slash_no_slash _ Hslash).
    now rewrite IH.
Qed.

Lemma isabs_str_join x rel :
  plain x = true -> isabs (str_join "/" (x :: rel)) = false.
Proof.
  intros Hx. pose proof (plain_not_abs _ Hx) as Hrel.
  pose proof (plain_inv _ Hx) as (Hne & _).
  destruct rel as [|y rel]; [exact Hrel|].
  change (str_join "/" (x :: y :: rel))
    with (x +:+ ("/" +:+ str_join "/" (y :: rel))).
  now rewrite isabs_app.
Qed.

(** The path [paths_for_filename] gives for a holder leads back to the file
    of the holder. *)
Lemma components_relative_path cwd pth p filename rel :
  components cwd pth = Some p ->
  plain filename = true ->
  Forall (fun n => plain n = true) rel ->
  components cwd (os_path_join pth (relative_path filename rel))
  = Some (p ++ rel ++ [filename]).
Proof.
  intros Hp Hname Hrel. unfold relative_path.
  rewrite (components_join_relative _ _ _ p Hp).
  - rewrite split_join_fold by exact Hname. f_equal.
    destruct rel as [|x rel].
    + reflexivity.
    + rewrite split_slash_join by (auto; discriminate).
      rewrite (fold_left_step_plain _ Hrel). now rewrite <- app_assoc.
  - apply os_path_join_nonempty. now apply plain_inv in Hname.
  - rewrite isabs_join by exact Hname.
    destruct rel as [|x rel]; [reflexivity|].
    apply Forall_cons in Hrel as [Hx _]. now apply isabs_str_join.
Qed.

Lemma common_prefix_app (p r : list string) : common_prefix p (p ++ r) = p.
Proof.
  induction p as [|x p IH]; simpl.
  - now destruct r.
  - rewrite decide_True by reflexivity. now rewrite IH.
Qed.

Lemma relpath_path_below cwd pth rel :
  pth <> "" ->
  Forall (fun n => plain n = true) rel ->
  relpath cwd (path_below pth rel) pth
  = match rel with
    | [] => "."
    | _ => str_join "/" rel
    end.
Proof.
  intros Hpth Hrel.
  assert (Hp : components cwd pth = Some (abspath_names cwd pth)).
  { unfold components. now rewrite bool_decide_eq_false_2. }
  pose proof (components_path_below cwd rel Hrel _ _ Hp) as Hbelow.
  pose proof (components_nonempty _ _ _ Hbelow) as Hne.
  unfold components in Hbelow.
  rewrite bool_decide_eq_false_2 in Hbelow by exact Hne.
  injection Hbelow as Hbelow.
  unfold relpath. rewrite Hbelow, common_prefix_app, Nat.sub_diag.
  simpl. rewrite drop_app_length. reflexivity.
Qed.

Lemma path_below_snoc top rel name :
  path_below top (rel ++ [name]) = os_path_join (path_below top rel) name.
Proof. unfold path_below. now rewrite fold_left_app. Qed.

Lemma filter_eq_NoDup (x : string) l :
  NoDup l ->
  List.filter (fun f => bool_decide (f = x)) l
  = if bool_decide (x ∈ l) then [x] else [].
Proof.
  induction l as [|y l IH]; intros Hnd; [reflexivity|].
  apply NoDup_cons in Hnd as [Hy Hnd]. simpl. rewrite (IH Hnd).
  destruct (bool_decide (y = x)) eqn:Hyx.
  - apply bool_decide_eq_true in Hyx. subst y.
    rewrite (bool_decide_eq_false_2 (x ∈ l)) by exact Hy.
    rewrite bool_decide_eq_true_2 by constructor. reflexivity.
  - apply bool_decide_eq_false in Hyx.
    destruct (bool_decide (x ∈ l)) eqn:Hin.
    + apply bool_decide_eq_true in Hin.
      rewrite bool_decide_eq_true_2 by now constructor. reflexivity.
    + apply bool_decide_eq_false in Hin.
      rewrite bool_decide_eq_false_2; [reflexivity|].
      intros H. apply elem_of_cons in H as [H|H]; congruence.
Qed.

Lemma file_names_NoDup es : NoDup (map fst es) -> NoDup (file_names es).
Proof. apply NoDup_map_fst_filter. Qed.

(** Walking a tree bottom up collects the paths of the holders. *)
Lemma collect_tree filename pth w t :
  pth <> "" ->
  forall rel acc,
    Forall (fun n => plain n = true) rel ->
    wf t = true ->
    for_acc (walk_bottom_up (path_below pth rel) t) acc
            (collect_walk filename pth) w
    = (Ok (acc ++ map (fun r => relative_path filename (rel ++ r))
                      (holders filename t)), w).
Proof.
  intros Hpth.
  induction t as [data x|es IH] using node_induction;
    intros rel acc Hrel Hwf.
  - simpl. now rewrite app_nil_r.
  - cbn [walk_bottom_up holders]. rewrite for_acc_app.
    assert (Hsubs : forall sub acc,
      (forall e, e ∈ sub -> e ∈ es) ->
      for_acc (flat_map (fun e => walk_bottom_up
                                    (os_path_join (path_below pth rel) (fst e))
                                    (snd e)) sub)
              acc (collect_walk filename pth) w
      = (Ok (acc ++ map (fun r => relative_path filename (rel ++ r))
               (flat_map (fun e => map (cons (fst e)) (holders filename (snd e)))
                         sub)), w)).
    { induction sub as [|[name c] sub IHsub]; intros acc' Hsub.
      - simpl. now rewrite app_nil_r.
      - assert (Hin : (name, c) ∈ es) by (apply Hsub; constructor).
        destruct (wf_child _ _ _ Hwf Hin) as (Hplain & Hwfc & Hentry).
        rewrite Forall_forall in IH.
        cbn [flat_map fst snd]. rewrite for_acc_app.
        rewrite <- path_below_snoc.
        erewrite bind_ok.
        2:{ apply (IH _ Hin (rel ++ [name])); [|exact Hwfc].
            apply Forall_app. split; [exact Hrel|]. now constructor. }
        rewrite IHsub by (intros e He; apply Hsub; now constructor).
        rewrite map_app, map_map, <- app_assoc. do 3 f_equal.
        cbn [snd]. f_equal.
        apply map_ext. intros r. now rewrite <- app_assoc. }
    erewrite bind_ok by (apply Hsubs; auto).
    cbn [for_acc]. erewrite bind_ok; [reflexivity|].
    unfold collect_walk.
    pose proof (wf_dir_inv _ Hwf) as [Hnd _].
    rewrite (filter_eq_NoDup _ _ (file_names_NoDup _ Hnd)).
    rewrite map_app, app_assoc.
    destruct (bool_decide (filename ∈ file_names es)); simpl.
    + assert (Hp : components (curdir w) pth
                   = Some (abspath_names (curdir w) pth)).
      { unfold components. now rewrite bool_decide_eq_false_2. }
      pose proof (components_path_below _ rel Hrel _ _ Hp) as Hbelow.
      pose proof (os_path_relpath_run (path_below pth rel) pth w
                    (components_nonempty _ _ _ Hbelow)) as Hrp.
      unfold bind. rewrite Hrp.
      rewrite (relpath_path_below _ _ _ Hpth Hrel).
      unfold relative_path, ret. rewrite app_nil_r. reflexivity.
    + now rewrite app_nil_r.
Qed.

Lemma file_names_entry filename es :
  NoDup (map fst es) ->
  filename ∈ file_names es <-> is_file (entry filename es) = true.
Proof.
  intros Hnd. unfold file_names. rewrite list_elem_of_fmap. split.
  - intros ([name c] & -> & Hin). apply list_elem_of_In, filter_In in Hin
      as [Hin Hkind]. apply list_elem_of_In in Hin. cbn [fst].
    rewrite (entry_In _ _ _ Hnd Hin). simpl in Hkind |- *.
    now destruct c.
  - intros Hfile. destruct (entry filename es) as [[data x|]|] eqn:He;
      try discriminate.
    exists (filename, File data x). split; [reflexivity|].
    apply list_elem_of_In, filter_In. split; [|reflexivity].
    apply list_elem_of_In. now apply entry_Some_In.
Qed.

(** The holders are the directories that have a file of the name. *)
Lemma holders_spec filename t :
  wf t = true ->
  forall rel,
    rel ∈ holders filename t <->
    Forall (fun n => plain n = true) rel /\
    exists es, lookup_node t rel = Some (Dir es) /\
               is_file (entry filename es) = true.
Proof.
  induction t as [data x|es IH] using node_induction; intros Hwf rel.
  - simpl. split; [intros H; inversion H|].
    intros (_ & es & Hes & _). destruct rel; discriminate.
  - pose proof (wf_dir_inv _ Hwf) as [Hnd _].
    rewrite Forall_forall in IH.
    cbn [holders]. rewrite elem_of_app. split.
    + intros [Hin|Hin].
      * apply list_elem_of_In, in_flat_map in Hin as ([name c] & He & Hin).
        apply list_elem_of_In in He.
        destruct (wf_child _ _ _ Hwf He) as (Hplain & Hwfc & Hentry).
        simpl in Hin. apply in_map_iff in Hin as (r & <- & Hr).
        apply list_elem_of_In in Hr.
        apply (IH _ He Hwfc) in Hr as (Hall & es' & Hes' & Hfile).
        split; [now constructor|]. exists es'. split; [|exact Hfile].
        simpl. now rewrite Hentry.
      * destruct (bool_decide (filename ∈ file_names es)) eqn:Hb;
          [|inversion Hin].
        apply list_elem_of_singleton in Hin. subst rel.
        apply bool_decide_eq_true in Hb.
        split; [constructor|]. exists es. split; [reflexivity|].
        now apply file_names_entry.
    + intros (Hall & es' & Hes' & Hfile). destruct rel as [|name r].
      * right. simpl in Hes'. injection Hes' as <-.
        rewrite bool_decide_eq_true_2 by now apply file_names_entry.
        constructor.
      * left. simpl in Hes'.
        destruct (entry name es) as [c|] eqn:Hentry; [|discriminate].
        pose proof (entry_Some_In _ _ _ Hentry) as He.
        destruct (wf_child _ _ _ Hwf He) as (Hplain & Hwfc & _).
        apply Forall_cons in Hall as [_ Hall].
        apply list_elem_of_In, in_flat_map. exists (name, c).
        split; [now apply list_elem_of_In|]. simpl.
        apply in_map, list_elem_of_In. apply (IH _ He Hwfc).
        split; [exact Hall|]. now exists es'.
Qed.

Lemma paths_for_filename_run filename pth w t :
  wf (fs w) = true ->
  node_at w pth = Some t ->
  paths_for_filename filename pth w
  = (Ok (map (relative_path filename) (holders filename t)), w).
Proof.
  intros Hwf Ht. unfold node_at in Ht.
  destruct (components (curdir w) pth) as [p|] eqn:Hp; [|discriminate].
  pose proof (components_nonempty _ _ _ Hp) as Hne.
  change (paths_for_filename filename pth w)
    with (bind (os_walk_bottom_up pth)
               (fun triples => for_acc triples [] (collect_walk filename pth))
               w).
  erewrite bind_ok.
  2:{ unfold os_walk_bottom_up, stat, bind, gets, node_at. now rewrite Hp, Ht. }
  change (walk_bottom_up pth t) with (walk_bottom_up (path_below pth []) t).
  rewrite (collect_tree filename pth w t Hne [] []);
    [reflexivity | constructor | now apply (wf_lookup_node _ _ _ Hwf Ht)].
Qed.

(** X16. [paths_for_filename] lists the files of the given name in the tree
    at [pth], one path for each directory that has such a file, bottom up:
    rel/name for the directory reached by the names rel, and ./name for the
    top itself. Joined to [pth] each path leads back to a file. A [pth]
    that is not a directory gives the empty list; the function never
    raises. *)
Theorem paths_for_filename_lists_holders filename pth w :
  (forall t,
     wf (fs w) = true ->
     node_at w pth = Some t ->
     paths_for_filename filename pth w
     = (Ok (map (relative_path filename) (holders filename t)), w) /\
     (forall rel,
        rel ∈ holders filename t <->
        Forall (fun n => plain n = true) rel /\
        exists es, lookup_node t rel = Some (Dir es) /\
                   is_file (entry filename es) = true) /\
     (forall r, r ∈ map (relative_path filename) (holders filename t) ->
        is_file (node_at w (os_path_join pth r)) = true)) /\
  (is_dir (node_at w pth) = false ->
   paths_for_filename filename pth w = (Ok [], w)).
Proof.
  split.
  - intros t Hwf Ht.
    split; [now apply paths_for_filename_run|].
    unfold node_at in Ht.
    destruct (components (curdir w) pth) as [p|] eqn:Hp; [|discriminate].
    pose proof (wf_lookup_node _ _ _ Hwf Ht) as Hwft.
    split; [now apply holders_spec|].
    intros r Hr. apply list_elem_of_fmap in Hr as (rel & -> & Hrel).
    apply (holders_spec _ _ Hwft) in Hrel as (Hall & es & Hes & Hfile).
    assert (Hplain : plain filename = true).
    { destruct (entry filename es) as [n|] eqn:He; [|discriminate].
      pose proof (wf_lookup_node _ _ _ Hwft Hes) as Hwfd.
      now destruct (wf_child _ _ _ Hwfd (entry_Some_In _ _ _ He)). }
    unfold node_at.
    rewrite (components_relative_path _ _ p _ _ Hp Hplain Hall).
    rewrite lookup_node_app, Ht, lookup_node_app, Hes. simpl.
    now destruct (entry filename es).
  - intros Hdir.
    unfold paths_for_filename, os_walk_bottom_up, stat, bind, gets.
    destruct (node_at w pth) as [[|]|]; try reflexivity. discriminate.
Qed.

Lemma paths_for_filename_lists_holders_witness :
  paths_for_filename "meson.build" "modflow6" meson_world
  = (Ok ["src/meson.build"; "utils/zonebudget/meson.build"; "./meson.build"],
     meson_world).
Proof.
  destruct (paths_for_filename_lists_holders "meson.build" "modflow6"
              meson_world) as [Hlist _].
  destruct (node_at meson_world "modflow6") as [t|] eqn:Ht;
    [|vm_compute in Ht; discriminate].
  destruct (Hlist t eq_refl eq_refl) as (Hrun & _).
  rewrite Hrun. vm_compute in Ht. injection Ht as <-. reflexivity.
Defined.

Lemma bind_inv {A B} (m : M A) (f : A -> M B) w r w' :
  bind m f w = (r, w') ->
  (exists a w1, m w = (Ok a, w1) /\ f a w1 = (r, w')) \/
  (exists e, m w = (Raise e, w') /\ r = Raise e).
Proof.
  unfold bind. destruct (m w) as [[a|e] w1]; intros H.
  - left. eauto.
  - right. injection H as <- <-. eauto.
Qed.

Lemma keeps_refl w : keeps w w.
Proof. repeat split; auto. Qed.

Lemma keeps_trans w1 w2 w3 : keeps w1 w2 -> keeps w2 w3 -> keeps w1 w3.
Proof.
  intros (Hc & Hf & Hd) (Hc' & Hf' & Hd'). repeat split.
  - congruence.
  - intros q Hq. rewrite <- (Hf q Hq). apply Hf'. now rewrite (Hf q Hq).
  - intros q Hq. auto.
Qed.

Lemma keeps_print line w : keeps w (snd (print line w)).
Proof. repeat split; auto. Qed.

(** What is at a path stays there, as a file unchanged or as a directory. *)
Lemma keeps_exists w w' q :
  keeps w w' -> is_Some (lookup_node (fs w) q) -> is_Some (lookup_node (fs w') q).
Proof.
  intros (_ & Hf & Hd) [n Hn]. destruct n as [data x|es].
  - rewrite Hf by now rewrite Hn. now rewrite Hn.
  - specialize (Hd q). rewrite Hn in Hd. specialize (Hd eq_refl).
    destruct (lookup_node (fs w') q); [eauto | discriminate].
Qed.

(** Putting a file where nothing is loses nothing. *)
Lemma put_fresh_keeps t p data x t' :
  lookup_node t p = None ->
  put t p (File data x) = Some t' ->
  (forall q, is_file (lookup_node t q) = true ->
             lookup_node t' q = lookup_node t q) /\
  (forall q, is_dir (lookup_node t q) = true ->
             is_dir (lookup_node t' q) = true).
Proof.
  intros Hnone Hput. split.
  - intros q Hq. apply (put_other _ _ _ _ _ Hput).
    + intros [k ->]. rewrite lookup_node_app, Hnone in Hq. discriminate.
    + intros Hpre. destruct (decide (q = p)) as [->|Hne].
      * rewrite Hnone in Hq. discriminate.
      * pose proof (put_ancestors _ _ _ _ _ Hput Hpre Hne) as Hd.
        destruct (lookup_node t q) as [[|]|]; discriminate.
  - intros q Hq. apply (put_keeps_dirs _ _ _ _ _ Hput); [|exact Hq].
    intros [k ->]. rewrite lookup_node_app, Hnone in Hq. discriminate.
Qed.

(** [shutil.copy] onto a path where nothing is. *)
Lemma shutil_copy_fresh src dst w r w' :
  node_at w dst = None ->
  shutil_copy src dst w = (r, w') ->
  keeps w w' /\
  (forall v, r = Ok v ->
     exists data x,
       node_at w src = Some (File data x) /\
       node_at w' dst = Some (File data x) /\
       exists pd, components (curdir w) dst = Some pd /\
                  forall q, ~ pd `prefix_of` q -> ~ q `prefix_of` pd ->
                            lookup_node (fs w') q = lookup_node (fs w) q).
Proof.
  intros Hnone. unfold shutil_copy.
  erewrite bind_ok by apply os_path_isdir_run. rewrite Hnone. cbn [is_dir].
  unfold resolve_path, bind, gets, raise, node_at in *. simpl.
  destruct (components (curdir w) src) as [ps|];
    [|intros H; injection H as <- <-; split; [apply keeps_refl | discriminate]].
  destruct (lookup_node (fs w) ps) as [[data x|ses]|] eqn:Hsrc.
  - destruct (components (curdir w) dst) as [pd|] eqn:Hpd;
      [|intros H; injection H as <- <-; split;
        [apply keeps_refl | discriminate]].
    destruct (bool_decide (pd = ps));
      [intros H; injection H as <- <-; split;
        [apply keeps_refl | discriminate]|].
    rewrite Hnone.
    destruct (is_dir (lookup_node (fs w) (removelast pd))).
    + destruct (put (fs w) pd (File data x)) as [t'|] eqn:Hput.
      * intros H. injection H as <- <-. simpl.
        destruct (put_fresh_keeps _ _ _ _ _ Hnone Hput) as [Hf Hd].
        split; [repeat split; auto|].
        intros v _. exists data, x. split; [reflexivity|].
        rewrite Hpd. split; [now apply (put_same _ _ _ _ Hput)|].
        exists pd. split; [reflexivity|].
        intros q H1 H2. now apply (put_other _ _ _ _ _ Hput).
      * intros H; injection H as <- <-. split;
          [apply keeps_refl | discriminate].
    + destruct (bool_decide _); intros H; injection H as <- <-; split;
        try apply keeps_refl; discriminate.
  - destruct (bool_decide _); intros H; injection H as <- <-; split;
      try apply keeps_refl; discriminate.
  - intros H; injection H as <- <-. split; [apply keeps_refl | discriminate].
Qed.

Lemma os_path_exists_run s w :
  os_path_exists s w = (Ok (bool_decide (is_Some (node_at w s))), w).
Proof. reflexivity. Qed.

(** One build file: nothing is lost, and afterwards something is at the
    destination. *)
Lemma copy_meson_file_keeps m d f w r w' :
  copy_meson_file m d f w = (r, w') ->
  keeps w w' /\
  (r = Ok tt -> is_Some (node_at w' (os_path_join d f))).
Proof.
  unfold copy_meson_file. erewrite bind_ok by apply os_path_exists_run.
  destruct (bool_decide (is_Some (node_at w (os_path_join d f)))) eqn:Hex;
    cbn [negb].
  - apply bool_decide_eq_true in Hex. intros H. injection H as <- <-.
    split; [apply keeps_refl | now intros _].
  - apply bool_decide_eq_false in Hex.
    assert (Hnone : node_at w (os_path_join d f) = None).
    { destruct (node_at w (os_path_join d f)); [|reflexivity].
      exfalso. apply Hex. eauto. }
    intros Hrun. apply bind_inv in Hrun as [(a & w0 & Hpr & Hrun)|(e & Hpr & _)];
      [|discriminate].
    apply print_inv in Hpr as [Hfs0 Hcwd0].
    assert (Hk0 : keeps w w0) by (repeat split; [easy | now rewrite Hfs0..]).
    assert (Hnone0 : node_at w0 (os_path_join d f) = None)
      by now rewrite (node_at_eq w w0).
    apply bind_inv in Hrun as [(v & w1 & Hcp & Hrun)|(e & Hcp & ->)].
    + injection Hrun as <- <-.
      destruct (shutil_copy_fresh _ _ _ _ _ Hnone0 Hcp) as [Hk Hok].
      split; [now apply (keeps_trans _ w0)|]. intros _.
      destruct (Hok v eq_refl) as (data & x & _ & Hdst & _).
      rewrite Hdst. eauto.
    + destruct (shutil_copy_fresh _ _ _ _ _ Hnone0 Hcp) as [Hk _].
      split; [now apply (keeps_trans _ w0) | discriminate].
Qed.

Lemma copy_meson_files_loop m d :
  forall files w r w',
    for_each files (copy_meson_file m d) w = (r, w') ->
    keeps w w' /\
    (r = Ok tt ->
     forall f, f ∈ files -> is_Some (node_at w' (os_path_join d f))).
Proof.
  induction files as [|f files IH]; intros w r w' Hrun.
  - injection Hrun as <- <-. split; [apply keeps_refl|].
    intros _ f Hf. inversion Hf.
  - cbn [for_each] in Hrun. unfold bind in Hrun.
    destruct (copy_meson_file m d f w) as [[[]|e] w1] eqn:Hstep.
    + destruct (copy_meson_file_keeps _ _ _ _ _ _ Hstep) as [Hk1 Hthere].
      destruct (IH _ _ _ Hrun) as [Hk Hrest].
      split; [now apply (keeps_trans _ w1)|].
      intros Hr f' Hf'. apply elem_of_cons in Hf' as [->|Hf'];
        [|now apply Hrest].
      specialize (Hthere eq_refl). unfold node_at in Hthere |- *.
      destruct Hk as (Hc & Hk).
      rewrite Hc.
      destruct (components (curdir w1) (os_path_join d f)) as [q|];
        [|destruct Hthere; discriminate].
      apply (keeps_exists w1 w'); [now split | exact Hthere].
    + injection Hrun as <- <-.
      destruct (copy_meson_file_keeps _ _ _ _ _ _ Hstep) as [Hk1 _].
      split; [exact Hk1 | discriminate].
Qed.

Lemma for_acc_pure {A St} (body : A -> St -> M St) :
  (forall x s w r w', body x s w = (r, w') -> w' = w) ->
  forall xs s w r w', for_acc xs s body w = (r, w') -> w' = w.
Proof.
  intros Hbody. induction xs as [|x xs IH]; intros s w r w' Hrun.
  - now injection Hrun as _ <-.
  - cbn [for_acc] in Hrun. unfold bind in Hrun.
    destruct (body x s w) as [[s1|e] w1] eqn:Hstep.
    + rewrite <- (Hbody _ _ _ _ _ Hstep). now apply (IH s1 _ r).
    + injection Hrun as _ <-. now apply (Hbody _ _ _ _ _ Hstep).
Qed.

(** Looking for files changes nothing. *)
Lemma paths_for_filename_pure filename pth w r w' :
  paths_for_filename filename pth w = (r, w') -> w' = w.
Proof.
  unfold paths_for_filename, os_walk_bottom_up, stat, bind, gets.
  assert (Hloop : forall triples s w0 r0 w0',
            for_acc triples s (collect_walk filename pth) w0 = (r0, w0') ->
            w0' = w0).
  { apply for_acc_pure. intros [[root dirs] files] s w0 r0 w0'.
    unfold collect_walk. apply for_acc_pure.
    intros name s1 w1 r1 w1'.
    unfold os_path_relpath, bind, gets, raise, ret.
    destruct (bool_decide (root = "")); intros H; now injection H as _ <-. }
  destruct (node_at w pth) as [t|]; simpl.
  - apply Hloop.
  - apply (Hloop []).
Qed.

(** X17. [copy_meson_files] never overwrites or removes anything, whether it
    returns or raises: every file that was there is there with the same
    content, every directory is still a directory, and the working directory
    is the same; a build file is copied only to a path where nothing was.
    When it returns, something is at each of the relative paths of the build
    files under the distribution. *)
Theorem copy_meson_files_never_overwrites m d w r w' :
  copy_meson_files m d w = (r, w') ->
  curdir w' = curdir w /\
  (forall q, is_file (lookup_node (fs w) q) = true ->
     lookup_node (fs w') q = lookup_node (fs w) q) /\
  (forall q, is_dir (lookup_node (fs w) q) = true ->
     is_dir (lookup_node (fs w') q) = true) /\
  (r = Ok tt ->
   forall files, fst (paths_for_filename "meson.build" m w) = Ok files ->
   forall f, f ∈ files -> is_Some (node_at w' (os_path_join d f))).
Proof.
  change (copy_meson_files m d w)
    with (bind (paths_for_filename "meson.build" m)
               (fun meson_files => for_each meson_files (copy_meson_file m d))
               w).
  unfold bind.
  destruct (paths_for_filename "meson.build" m w) as [[files|e] w0] eqn:Hlist.
  - pose proof (paths_for_filename_pure _ _ _ _ _ Hlist) as ->.
    intros Hrun. destruct (copy_meson_files_loop _ _ _ _ _ _ Hrun)
      as [(Hc & Hf & Hd) Hthere].
    repeat split; auto.
    intros Hr files' Hfiles. simpl in Hfiles. injection Hfiles as <-.
    now apply Hthere.
  - pose proof (paths_for_filename_pure _ _ _ _ _ Hlist) as ->.
    intros H. injection H as <- <-. repeat split; auto. discriminate.
Qed.

Lemma copy_meson_files_never_overwrites_witness :
  exists w',
    copy_meson_files "modflow6" "mf6dev" meson_world = (Ok tt, w') /\
    lookup_node (fs w') ["mf6dev"; "src"; "meson.build"]
    = Some (File "kept" false) /\
    is_Some (node_at w' "mf6dev/utils/zonebudget/meson.build").
Proof.
  destruct (copy_meson_files "modflow6" "mf6dev" meson_world) as [r w'] eqn:Hrun.
  destruct (copy_meson_files_never_overwrites _ _ _ _ _ Hrun)
    as (_ & Hfiles & _ & Hthere).
  assert (Hr : r = Ok tt) by (vm_compute in Hrun; congruence).
  subst r. exists w'. split; [reflexivity|]. split.
  - now rewrite Hfiles.
  - change "mf6dev/utils/zonebudget/meson.build"
      with (os_path_join "mf6dev" "utils/zonebudget/meson.build").
    apply (Hthere eq_refl
             ["src/meson.build"; "utils/zonebudget/meson.build"; "./meson.build"]);
      [reflexivity|].
    apply (bool_decide_unpack _). reflexivity.
Defined.

(** ** Example packager: building the examples *)








(** ** Release notes: the folder structure *)





(** ** Documentation rebuilder: the stale fragments *)

(** Removing files one after the other, as a loop without handler does. *)
Lemma remove_each pth :
  forall files w,
    wf (fs w) = true -> is_dir (Some (fs w)) = true ->
    (forall f, f ∈ files -> is_file (node_at w (os_path_join pth f)) = true) ->
    NoDup (map (fun f => components (curdir w) (os_path_join pth f)) files) ->
    exists t1,
      for_each files (fun f => os_remove (os_path_join pth f)) w
      = (Ok tt, with_fs w t1) /\
      wf t1 = true /\ is_dir (Some t1) = true /\
      pruned (listed (curdir w) pth files) (fs w) t1 /\
      (forall f, f ∈ files ->
         node_at (with_fs w t1) (os_path_join pth f) = None).
Proof.
  induction files as [|file files IH]; intros w Hwf Hroot Hfiles Hnd.
  - exists (fs w). split; [now destruct w|]. split; [exact Hwf|].
    split; [exact Hroot|]. split; [apply pruned_refl|].
    intros f Hf. inversion Hf.
  - cbn [map] in Hnd. apply NoDup_cons in Hnd as [Hfresh Hnd].
    assert (Hfile : is_file (node_at w (os_path_join pth file)) = true)
      by (apply Hfiles; constructor).
    destruct (node_at_file _ _ Hfile) as (p & data & x & Hp & Hn).
    destruct (os_remove_ok _ _ _ _ _ Hwf Hroot Hp Hn)
      as (t' & Hrm & Hwf' & Hroot' & Hgone & Hpr).
    destruct (IH (with_fs w t')) as (t1 & Hrest & Hwf1 & Hroot1 & Hpr1 & Hnone);
      try assumption.
    { intros f Hf.
      assert (Hfw : is_file (node_at w (os_path_join pth f)) = true)
        by (apply Hfiles; now constructor).
      destruct (node_at_file _ _ Hfw) as (q & d & y & Hq & Hnq).
      unfold node_at. simpl. rewrite Hq.
      destruct Hpr as (_ & _ & Hother). rewrite Hother.
      - now rewrite Hnq.
      - now rewrite Hnq.
      - intros Hin. apply list_elem_of_singleton in Hin. subst q.
        apply Hfresh. apply list_elem_of_fmap. exists f.
        split; [congruence | exact Hf]. }
    exists t1. split; [|split; [exact Hwf1|split; [exact Hroot1|split]]].
    + cbn [for_each]. erewrite bind_ok by exact Hrm. exact Hrest.
    + rewrite listed_cons, Hp. now apply (pruned_trans [p] _ _ _ _ Hpr).
    + intros f Hf. apply elem_of_cons in Hf as [->|Hf]; [|now apply Hnone].
      unfold node_at. simpl. rewrite Hp.
      now apply (pruned_missing _ _ _ _ Hpr1).
Qed.

(** Whatever becomes of the command, a program that was launched has left
    its file system. *)
Lemma run_command_leaves w argv pth timeout verbose escalate pr :
  popen w argv pth (fs w) (curdir w) = inr pr ->
  fs (snd (run_command argv pth timeout verbose escalate w)) = fs_after pr /\
  curdir (snd (run_command argv pth timeout verbose escalate w)) = curdir w.
Proof.
  intros Hp.
  unfold run_command, bind, Popen, with_process, try_finally, try_except,
    communicate, communicate_again, kill, decode, print, modify, set_fs,
    ret, raise.
  destruct verbose; simpl; rewrite Hp; simpl;
    (destruct (first_communicate pr timeout) as [e|[output rc]]; simpl;
     [ destruct e; simpl; destruct (utf8_valid (later_output pr)); simpl;
       split; reflexivity
     | destruct (utf8_valid output); simpl;
       [ destruct escalate; simpl;
         [destruct (decide (rc <> 0%Z)); simpl|]; split; reflexivity
       | destruct (utf8_valid (later_output pr)); simpl; split; reflexivity ]]).
Qed.

Lemma filter_m_world {A} (keep : A -> M bool) :
  (forall x w, snd (keep x w) = w) ->
  forall xs w, snd (filter_m xs keep w) = w.
Proof.
  intros Hkeep. induction xs as [|x xs IH]; intros w; [reflexivity|].
  cbn [filter_m]. unfold bind.
  pose proof (Hkeep x w) as Hx. destruct (keep x w) as [[b|e] w1].
  - simpl in Hx. subst w1. pose proof (IH w) as Hxs.
    destruct (filter_m xs keep w) as [[kept|e] w2]; exact Hxs.
  - exact Hx.
Qed.

Lemma list_stems_world folder ext w : snd (list_stems folder ext w) = w.
Proof.
  unfold list_stems, os_listdir, stat, bind, gets.
  destruct (node_at w folder) as [[data x|es]|]; try reflexivity.
  pose proof (filter_m_world
                (fun f => bind (os_path_isfile (os_path_join folder f))
                               (fun isfile =>
                                  ret (isfile &&
                                       str_contains ext (snd (splitext f)))))
                (fun x w0 => eq_refl) (map fst es) w) as Hw.
  simpl. unfold bind in Hw.
  destruct (filter_m (map fst es) _ w) as [[kept|e] w1]; exact Hw.
Qed.

(** The check looks and changes nothing. *)
Lemma check_tex_files_world w : snd (check_tex_files w) = w.
Proof.
  unfold check_tex_files, bind.
  pose proof (list_stems_world "dfn" "dfn" w) as H1.
  destruct (list_stems "dfn" "dfn" w) as [[dfnfiles|e] w1]; simpl in H1;
    subst w1; [|reflexivity].
  pose proof (list_stems_world "tex" "tex" w) as H2.
  destruct (list_stems "tex" "tex" w) as [[texfiles|e] w2]; simpl in H2;
    subst w2; [|reflexivity].
  destruct (missing_tex dfnfiles texfiles "" 0) as [missing icnt].
  unfold assert. now destruct (bool_decide (icnt = 0)).
Qed.

Lemma run_command_launch_fails w argv pth timeout verbose escalate e :
  popen w argv pth (fs w) (curdir w) = inl e ->
  exists w',
    run_command argv pth timeout verbose escalate w = (Raise e, w') /\
    fs w' = fs w /\ curdir w' = curdir w.
Proof.
  intros Hp. unfold run_command, bind, Popen, print, modify, ret.
  destruct verbose; simpl; rewrite Hp; eexists; repeat split; reflexivity.
Qed.

(** [rebuild_tex_from_dfn] once it is in the folder of the generator. *)
Lemma rebuild_tex_from_dfn_inside m w p :
  components (curdir w) (mf6ivar_path m) = Some p ->
  is_dir (lookup_node (fs w) p) = true ->
  let inside :=
    snd (set_curdir p
           (snd (print "Rebuilding the tex files from dfn by running mf6ivar.py"
                   w))) in
  let body :=
    bind remove_tex_files
         (fun _ => bind (run_command ["python"; "mf6ivar.py"] "./" None true true)
                        (fun _ => check_tex_files)) in
  rebuild_tex_from_dfn m w
  = (fst (body inside), snd (set_curdir (curdir w) (snd (body inside)))).
Proof.
  intros Hp Hdir inside body. unfold rebuild_tex_from_dfn.
  erewrite bind_ok by reflexivity.
  unfold with_cwd. erewrite bind_ok by reflexivity.
  erewrite bind_ok.
  2:{ unfold os_chdir, resolve_path, bind, gets. cbn [curdir fs print modify snd].
      rewrite Hp. destruct (lookup_node (fs w) p) as [[data x|es]|];
        try discriminate. reflexivity. }
  transitivity (let (r, w') := body inside in
                (r, snd (set_curdir (curdir w) w'))); [reflexivity|].
  destruct (body inside) as [r w2]. reflexivity.
Qed.

Lemma components_tex p name :
  plain name = true ->
  components p (os_path_join "tex" name) = Some (p ++ ["tex"; name]).
Proof.
  intros Hname.
  rewrite (components_join p "tex" name (p ++ ["tex"]) Hname).
  - now rewrite <- app_assoc.
  - unfold components, abspath_names. simpl.
    now rewrite step_component_plain.
Qed.

(** X20. [rebuild_tex_from_dfn] removes every file of the folder tex before
    the generator is launched, and nothing else: the generator starts on a
    tree without fragments. So no stale fragment can satisfy the check at the
    end: when the generator cannot be launched the function raises with the
    fragments already gone, and once it was launched the file system is the
    one the generator left. The working directory is then as before. *)
Theorem rebuild_removes_stale_fragments m w p tes :
  wf (fs w) = true -> is_dir (Some (fs w)) = true ->
  components (curdir w) (mf6ivar_path m) = Some p ->
  lookup_node (fs w) (p ++ ["tex"]) = Some (Dir tes) ->
  exists t1,
    (forall name, is_file (lookup_node t1 (p ++ ["tex"; name])) = false) /\
    (forall q, is_dir (lookup_node t1 q) = is_dir (lookup_node (fs w) q)) /\
    (forall q, is_file (lookup_node (fs w) q) = true ->
       ~ (p ++ ["tex"]) `prefix_of` q ->
       lookup_node t1 q = lookup_node (fs w) q) /\
    (forall e,
       popen w ["python"; "mf6ivar.py"] "./" t1 p = inl e ->
       exists w',
         rebuild_tex_from_dfn m w = (Raise e, w') /\
         fs w' = t1 /\ curdir w' = curdir w) /\
    (forall pr,
       popen w ["python"; "mf6ivar.py"] "./" t1 p = inr pr ->
       fs (snd (rebuild_tex_from_dfn m w)) = fs_after pr /\
       curdir (snd (rebuild_tex_from_dfn m w)) = curdir w).
Proof.
  intros Hwf Hroot Hp Htex.
  assert (Hdir : is_dir (lookup_node (fs w) p) = true).
  { rewrite lookup_node_app in Htex.
    destruct (lookup_node (fs w) p) as [[|]|]; try discriminate. reflexivity. }
  pose proof (rebuild_tex_from_dfn_inside m w p Hp Hdir) as Hinside.
  cbv zeta in Hinside.
  set (inside := snd (set_curdir p
         (snd (print "Rebuilding the tex files from dfn by running mf6ivar.py"
                 w)))) in *.
  assert (Hptex : components (curdir inside) "tex" = Some (p ++ ["tex"])).
  { unfold components, abspath_names. simpl. now rewrite step_component_plain. }
  pose proof (wf_lookup_node _ _ _ Hwf Htex) as Hwftex.
  pose proof (wf_dir_inv _ Hwftex) as [Hnd Hall].
  rewrite Forall_forall in Hall.
  assert (Hentry : forall f, f ∈ map fst tes ->
            plain f = true /\
            node_at inside (os_path_join "tex" f) = entry f tes).
  { intros f Hf. apply list_elem_of_fmap in Hf as ([name c] & -> & Hin).
    destruct (Hall _ Hin) as [Hplain _]. split; [exact Hplain|].
    now apply (node_at_join inside "tex" (p ++ ["tex"])). }
  set (pred := fun f => is_file (node_at inside (os_path_join "tex" f))).
  set (files := List.filter pred (map fst tes)).
  assert (Hfiles : forall f, f ∈ files ->
            f ∈ map fst tes /\
            is_file (node_at inside (os_path_join "tex" f)) = true).
  { intros f Hf. apply list_elem_of_In, filter_In in Hf as [Hin Hpred].
    split; [now apply list_elem_of_In | exact Hpred]. }
  destruct (remove_each "tex" files inside Hwf Hroot)
    as (t1 & Hloop & _ & _ & (Hd & Hmono & Hother) & Hnone).
  { intros f Hf. now apply Hfiles. }
  { apply NoDup_fmap_2_strong.
    - intros x y Hx Hy Heq.
      destruct (Hentry x (proj1 (Hfiles x Hx))) as [Hpx _].
      destruct (Hentry y (proj1 (Hfiles y Hy))) as [Hpy _].
      change (curdir inside) with p in Heq.
      rewrite (components_tex p x Hpx), (components_tex p y Hpy) in Heq.
      injection Heq as Heq. apply app_inv_head in Heq. now injection Heq.
    - apply NoDup_ListNoDup, List.NoDup_filter, NoDup_ListNoDup. exact Hnd. }
  assert (Hremove : remove_tex_files inside = (Ok tt, with_fs inside t1)).
  { unfold remove_tex_files.
    erewrite bind_ok
      by (apply (os_listdir_run "tex" inside tes); unfold node_at;
          now rewrite Hptex).
    erewrite bind_ok
      by (apply (filter_m_pure _ _ pred); intros f _;
          apply os_path_isfile_run).
    exact Hloop. }
  set (w1 := with_fs inside t1) in *.
  exists t1. split; [|split; [exact Hd|split; [|split]]].
  - intros name.
    destruct (is_file (lookup_node t1 (p ++ ["tex"; name]))) eqn:Hfile;
      [|reflexivity].
    pose proof (Hmono _ Hfile) as Hsame. simpl in Hsame.
    assert (Hold : is_file (entry name tes) = true).
    { rewrite Hsame in Hfile.
      change (p ++ ["tex"; name]) with (p ++ ["tex"] ++ [name]) in Hfile.
      rewrite app_assoc, lookup_node_app, Htex in Hfile. simpl in Hfile.
      now destruct (entry name tes). }
    assert (Hin : name ∈ map fst tes).
    { destruct (entry name tes) as [n|] eqn:He; [|discriminate].
      apply list_elem_of_fmap. exists (name, n).
      split; [reflexivity | now apply entry_Some_In]. }
    destruct (Hentry name Hin) as [Hplain Hat].
    assert (Hlisted : name ∈ files).
    { apply list_elem_of_In, filter_In. split; [now apply list_elem_of_In|].
      unfold pred. now rewrite Hat. }
    specialize (Hnone name Hlisted). unfold node_at in Hnone.
    change (curdir w1) with p in Hnone.
    rewrite (components_tex p name Hplain) in Hnone.
    change (fs w1) with t1 in Hnone.
    rewrite Hnone in Hfile. discriminate.
  - intros q Hq Hnot. apply Hother; [exact Hq|].
    intros Hin. apply elem_of_listed in Hin as (f & Hf & Hpf).
    destruct (Hentry f (proj1 (Hfiles f Hf))) as [Hplain _].
    change (curdir inside) with p in Hpf.
    rewrite (components_tex p f Hplain) in Hpf. injection Hpf as <-.
    apply Hnot. exists [f]. now rewrite <- app_assoc.
  - intros e Hpopen.
    destruct (run_command_launch_fails w1 ["python"; "mf6ivar.py"] "./" None
                true true e Hpopen) as (w2 & Hrun & Hfs2 & Hcwd2).
    eexists. split.
    + rewrite Hinside. erewrite bind_ok by exact Hremove.
      erewrite bind_raise by exact Hrun. reflexivity.
    + split; [exact Hfs2 | reflexivity].
  - intros pr Hpopen.
    destruct (run_command_leaves w1 ["python"; "mf6ivar.py"] "./" None
                true true pr Hpopen) as [Hfs2 Hcwd2].
    rewrite Hinside. erewrite bind_ok by exact Hremove.
    unfold bind.
    destruct (run_command ["python"; "mf6ivar.py"] "./" None true true w1)
      as [[out|e] w2]; simpl in Hfs2 |- *.
    + rewrite check_tex_files_world. split; [exact Hfs2 | reflexivity].
    + split; [exact Hfs2 | reflexivity].
Qed.

Lemma rebuild_removes_stale_fragments_witness :
  exists t1,
    is_file (lookup_node t1 ["modflow6"; "doc"; "mf6io"; "mf6ivar"; "tex";
                             "gwf-chd-desc.tex"]) = false /\
    fs (snd (rebuild_tex_from_dfn "modflow6" doc_world))
    = in_doc mf6ivar_after.
Proof.
  destruct (rebuild_removes_stale_fragments "modflow6" doc_world
              ["modflow6"; "doc"; "mf6io"; "mf6ivar"]
              [("gwf-chd-desc.tex", File "stale" false)]
              eq_refl eq_refl eq_refl eq_refl)
    as (t1 & Hgone & _ & _ & _ & Hleft).
  exists t1. split.
  - exact (Hgone "gwf-chd-desc.tex").
  - destruct (Hleft (Process (fun _ => inr ("wrote 2 files" +:+ nl, 0%Z)) ""
                       (in_doc mf6ivar_after)) eq_refl) as [Hfs _].
    exact Hfs.
Defined.

(** ** The project files of Visual Studio *)

Lemma split_slash_join_plain a name :
  plain name = true ->
  exists pre, split_slash (os_path_join a name) = pre ++ [name].
Proof.
  intros Hplain.
  pose proof (plain_not_abs _ Hplain) as Hrel.
  pose proof (plain_inv _ Hplain) as (_ & _ & _ & Hslash).
  unfold os_path_join. rewrite Hrel.
  destruct (bool_decide (a = "")) eqn:Hempty; simpl.
  - apply bool_decide_eq_true in Hempty. subst a.
    change ("" +:+ name) with name.
    exists []. now apply split_slash_no_slash.
  - destruct (endswith_slash a) eqn:Hend.
    + destruct (endswith_slash_inv _ Hend) as [a' ->].
      replace ((a' +:+ "/") +:+ name) with (a' +:+ String "/" name)
        by now rewrite str_app_assoc.
      rewrite split_slash_app, (split_slash_no_slash _ Hslash). eauto.
    + change (a +:+ "/" +:+ name) with (a +:+ String "/" name).
      rewrite split_slash_app, (split_slash_no_slash _ Hslash). eauto.
Qed.

Lemma basename_join a name :
  plain name = true -> basename (os_path_join a name) = name.
Proof.
  intros Hplain. destruct (split_slash_join_plain a name Hplain) as [pre Hpre].
  unfold basename. now rewrite Hpre, last_snoc.
Qed.

(** [shutil.copy] of a file into a directory. *)
Lemma shutil_copy_into_dir src_dir name dst w ps pm data x :
  plain name = true ->
  components (curdir w) src_dir = Some ps ->
  components (curdir w) dst = Some pm ->
  ps <> pm ->
  lookup_node (fs w) (ps ++ [name]) = Some (File data x) ->
  is_dir (lookup_node (fs w) pm) = true ->
  is_dir (lookup_node (fs w) (pm ++ [name])) = false ->
  exists t',
    shutil_copy (os_path_join src_dir name) dst w
    = (Ok (os_path_join dst name), with_fs w t') /\
    put (fs w) (pm ++ [name]) (File data x) = Some t'.
Proof.
  intros Hplain Hps Hpm Hne Hsrc Hdir Hfree.
  destruct (put_in_dir (fs w) pm name (File data x) Hdir) as [t' Hput].
  exists t'. split; [|exact Hput].
  assert (Hat : is_dir (node_at w dst) = true)
    by (unfold node_at; now rewrite Hpm).
  unfold shutil_copy. erewrite bind_ok by apply os_path_isdir_run.
  rewrite Hat. rewrite (basename_join _ _ Hplain).
  unfold resolve_path, bind, gets. simpl.
  rewrite (components_join _ _ _ _ Hplain Hps).
  rewrite (components_join _ _ _ _ Hplain Hpm).
  rewrite Hsrc.
  rewrite bool_decide_eq_false_2
    by (intros Heq; apply app_inj_tail in Heq as [Heq _]; congruence).
  rewrite removelast_snoc, Hdir, Hput.
  destruct (lookup_node (fs w) (pm ++ [name])) as [[|]|]; try reflexivity.
  discriminate.
Qed.

Lemma prefix_snoc_not (p : list string) a : ~ (p ++ [a]) `prefix_of` p.
Proof.
  intros Hpre. apply prefix_length in Hpre. rewrite length_app in Hpre.
  simpl in Hpre. lia.
Qed.

(** A file among the sources and a path into the destination folder have
    nothing to do with each other. *)
Lemma source_apart t (ps pm : list string) n n' :
  ps <> pm ->
  is_file (lookup_node t (ps ++ [n'])) = true ->
  is_dir (lookup_node t pm) = true ->
  is_dir (lookup_node t (pm ++ [n])) = false ->
  ~ (pm ++ [n]) `prefix_of` (ps ++ [n']) /\
  ~ (ps ++ [n']) `prefix_of` (pm ++ [n]).
Proof.
  intros Hne Hfile Hdir Hfree. split.
  - intros Hpre. apply prefix_snoc_inv in Hpre as [[k ->]|Heq].
    + rewrite <- app_assoc, (lookup_node_below _ _ _ Hfree) in Hfile;
        [discriminate | now destruct k].
    + apply app_inj_tail in Heq as [Heq _]. congruence.
  - intros Hpre. apply prefix_snoc_inv in Hpre as [[k ->]|Heq].
    + destruct k as [|c k].
      * rewrite app_nil_r in Hdir.
        destruct (lookup_node t (ps ++ [n'])) as [[|]|]; discriminate.
      * rewrite (lookup_node_below t (ps ++ [n']) (c :: k)) in Hdir;
          [discriminate | | discriminate].
        destruct (lookup_node t (ps ++ [n'])) as [[|]|]; try discriminate.
        reflexivity.
    + apply app_inj_tail in Heq as [Heq _]. congruence.
Qed.

Lemma copy_msvs_loop m d w ps pm :
  components (curdir w) (os_path_join m "msvs") = Some ps ->
  components (curdir w) (os_path_join d "msvs") = Some pm ->
  ps <> pm ->
  forall names w1,
    NoDup names ->
    Forall (fun n => plain n = true) names ->
    curdir w1 = curdir w ->
    is_dir (lookup_node (fs w1) pm) = true ->
    (forall n, n ∈ names ->
       is_file (lookup_node (fs w1) (ps ++ [n])) = true /\
       is_dir (lookup_node (fs w1) (pm ++ [n])) = false) ->
    exists w',
      for_each (map (fun n => os_path_join (os_path_join m "msvs") n) names)
               (copy_msvs_file d) w1 = (Ok tt, w') /\
      curdir w' = curdir w /\
      (forall n, n ∈ names ->
         lookup_node (fs w') (pm ++ [n]) = lookup_node (fs w1) (ps ++ [n])) /\
      (forall q,
         (forall n, n ∈ names ->
            ~ q `prefix_of` (pm ++ [n]) /\ ~ (pm ++ [n]) `prefix_of` q) ->
         lookup_node (fs w') q = lookup_node (fs w1) q) /\
      (forall q, is_dir (lookup_node (fs w1) q) = true ->
                 is_dir (lookup_node (fs w') q) = true).
Proof.
  intros Hps Hpm Hne.
  induction names as [|n names IH]; intros w1 Hnd Hplain Hcwd Hdir Hfiles.
  - exists w1. split; [reflexivity|]. split; [exact Hcwd|].
    split; [intros n Hn; inversion Hn|]. split; auto.
  - apply NoDup_cons in Hnd as [Hfresh Hnd].
    apply Forall_cons in Hplain as [Hn Hplain].
    destruct (Hfiles n) as [Hsrc Hfree]; [constructor|].
    destruct (lookup_node (fs w1) (ps ++ [n])) as [[data x|]|] eqn:Hsrcn;
      try discriminate.
    set (w2 := snd (print ("  " +:+ os_path_join (os_path_join m "msvs") n
                           +:+ " ===> " +:+ os_path_join d "msvs") w1)).
    destruct (shutil_copy_into_dir (os_path_join m "msvs") n
                (os_path_join d "msvs") w2 ps pm data x)
      as (t' & Hcopy & Hput); try assumption;
      try (now rewrite <- Hcwd in Hps); try (now rewrite <- Hcwd in Hpm).
    assert (Hdir' : is_dir (lookup_node t' pm) = true)
      by (apply (put_keeps_dirs _ _ _ _ _ Hput);
          [apply prefix_snoc_not | exact Hdir]).
    assert (Hkeep : forall n', n' ∈ names ->
              lookup_node t' (ps ++ [n']) = lookup_node (fs w1) (ps ++ [n']) /\
              lookup_node t' (pm ++ [n']) = lookup_node (fs w1) (pm ++ [n'])).
    { intros n' Hn'.
      destruct (Hfiles n') as [Hsrc' Hfree']; [now constructor|].
      destruct (source_apart _ _ _ n n' Hne Hsrc' Hdir Hfree) as [H1 H2].
      split; [now apply (put_other _ _ _ _ _ Hput)|].
      apply (put_other _ _ _ _ _ Hput); apply prefix_sibling; congruence. }
    destruct (IH (with_fs w2 t')) as (w' & Hrest & Hcwd' & Hcopied & Hoth & Hdirs);
      try assumption.
    { intros n' Hn'. change (fs (with_fs w2 t')) with t'.
      destruct (Hkeep n' Hn') as [-> ->].
      apply Hfiles. now constructor. }
    exists w'. split; [|split; [exact Hcwd'|split; [|split]]].
    + cbn [map for_each]. erewrite bind_ok; [exact Hrest|].
      unfold copy_msvs_file. erewrite bind_ok by reflexivity. fold w2.
      erewrite bind_ok by exact Hcopy. reflexivity.
    + intros n' Hn'. apply elem_of_cons in Hn' as [->|Hn'].
      * rewrite Hoth.
        -- simpl. rewrite (put_same _ _ _ _ Hput). now rewrite Hsrcn.
        -- intros n' Hn'. split; apply prefix_sibling; congruence.
      * rewrite (Hcopied n' Hn'). simpl. now apply Hkeep.
    + intros q Hq. rewrite Hoth by (intros n' Hn'; apply Hq; now constructor).
      simpl. destruct (Hq n) as [H1 H2]; [constructor|].
      now apply (put_other _ _ _ _ _ Hput).
    + intros q Hq. apply Hdirs. simpl.
      apply (put_keeps_dirs _ _ _ _ _ Hput); [|exact Hq].
      intros [k ->]. destruct k as [|c k].
      * rewrite app_nil_r in Hq. congruence.
      * rewrite (lookup_node_below _ _ (c :: k) Hfree) in Hq; discriminate.
Qed.

(** X21. [copy_visual_studio_files] copies the five project files of the
    folder msvs of the checkout into the folder msvs of the distribution,
    under their names, with content and mode, overwriting files of these
    names; it needs the five files, the destination folder, and no directory
    in the place of a copy. Everything else stays as it is. *)
Theorem visual_studio_files_are_copied m d w ps pm :
  components (curdir w) (os_path_join m "msvs") = Some ps ->
  components (curdir w) (os_path_join d "msvs") = Some pm ->
  ps <> pm ->
  is_dir (lookup_node (fs w) pm) = true ->
  (forall n, n ∈ msvs_files ->
     is_file (lookup_node (fs w) (ps ++ [n])) = true /\
     is_dir (lookup_node (fs w) (pm ++ [n])) = false) ->
  exists w',
    copy_visual_studio_files m d w = (Ok tt, w') /\
    (forall n, n ∈ msvs_files ->
       lookup_node (fs w') (pm ++ [n]) = lookup_node (fs w) (ps ++ [n])) /\
    (forall q,
       (forall n, n ∈ msvs_files ->
          ~ q `prefix_of` (pm ++ [n]) /\ ~ (pm ++ [n]) `prefix_of` q) ->
       lookup_node (fs w') q = lookup_node (fs w) q) /\
    (forall q, is_dir (lookup_node (fs w) q) = true ->
               is_dir (lookup_node (fs w') q) = true).
Proof.
  intros Hps Hpm Hne Hdir Hfiles.
  set (w0 := snd (print "Copying msvs files" w)).
  destruct (copy_msvs_loop m d w ps pm Hps Hpm Hne msvs_files w0)
    as (w1 & Hloop & Hcwd & Hcopied & Hoth & Hdirs); try assumption.
  { apply (bool_decide_unpack _). reflexivity. }
  { unfold msvs_files. repeat constructor. }
  { reflexivity. }
  exists (snd (print nl w1)). split; [|split; [|split]].
  - change (copy_visual_studio_files m d w)
      with (bind (print "Copying msvs files")
                 (fun _ => bind (for_each
                                   (map (fun n => os_path_join
                                                    (os_path_join m "msvs") n)
                                        msvs_files)
                                   (copy_msvs_file d))
                                (fun _ => print nl)) w).
    erewrite bind_ok by reflexivity. fold w0.
    erewrite bind_ok by exact Hloop. reflexivity.
  - exact Hcopied.
  - exact Hoth.
  - exact Hdirs.
Qed.

Lemma visual_studio_files_are_copied_witness :
  exists w',
    copy_visual_studio_files "modflow6" "mf6dev" msvs_world = (Ok tt, w') /\
    lookup_node (fs w') ["mf6dev"; "msvs"; "mf6.sln"]
    = Some (File "solution" false) /\
    lookup_node (fs w') ["mf6dev"; "msvs"; "mf6bmi.vfproj"]
    = Some (File "bmi project" false) /\
    lookup_node (fs w') ["mf6dev"; "msvs"; "readme.txt"] = None.
Proof.
  destruct (visual_studio_files_are_copied "modflow6" "mf6dev" msvs_world
              ["modflow6"; "msvs"] ["mf6dev"; "msvs"] eq_refl eq_refl)
    as (w' & Hrun & Hcopied & Hoth & _).
  - discriminate.
  - reflexivity.
  - intros n Hn. unfold msvs_files in Hn.
    repeat (apply elem_of_cons in Hn as [->|Hn]; [split; reflexivity|]).
    inversion Hn.
  - exists w'. split; [exact Hrun|]. split; [|split].
    + change ["mf6dev"; "msvs"; "mf6.sln"]
        with (["mf6dev"; "msvs"] ++ ["mf6.sln"]).
      rewrite (Hcopied "mf6.sln"); [reflexivity | constructor].
    + change ["mf6dev"; "msvs"; "mf6bmi.vfproj"]
        with (["mf6dev"; "msvs"] ++ ["mf6bmi.vfproj"]).
      rewrite (Hcopied "mf6bmi.vfproj"); [reflexivity|].
      apply (bool_decide_unpack _). reflexivity.
    + change ["mf6dev"; "msvs"; "readme.txt"]
        with (["mf6dev"; "msvs"] ++ ["readme.txt"]).
      rewrite Hoth; [reflexivity|].
      intros n Hn. unfold msvs_files in Hn.
      repeat (apply elem_of_cons in Hn as [->|Hn];
              [split; apply (prefix_sibling ["mf6dev"; "msvs"]); discriminate|]).
      inversion Hn.
Defined.

(** ** The build files of meson: what is copied *)

Lemma holders_NoDup filename t : wf t = true -> NoDup (holders filename t).
Proof.
  induction t as [data x|es IH] using node_induction; intros Hwf.
  - constructor.
  - cbn [holders]. rewrite Forall_forall in IH.
    pose proof (wf_dir_inv _ Hwf) as [Hnd Hall].
    rewrite Forall_forall in Hall.
    apply NoDup_app. split; [|split].
    + apply NoDup_flat_map_heads; [exact Hnd|].
      intros e He. apply (IH e He). exact (proj2 (Hall _ He)).
    + intros rel Hsub Hown.
      apply list_elem_of_In, in_flat_map in Hsub as ([name c] & Hin & Hr).
      apply in_map_iff in Hr as (r & <- & Hr).
      destruct (bool_decide (filename ∈ file_names es)); [|inversion Hown].
      apply list_elem_of_singleton in Hown. discriminate.
    + destruct (bool_decide (filename ∈ file_names es));
        [apply NoDup_singleton | constructor].
Qed.

(** The files of two holders are not one above the other. *)
Lemma holders_apart filename t (pd : list string) rel rel' :
  wf t = true ->
  rel ∈ holders filename t -> rel' ∈ holders filename t -> rel <> rel' ->
  ~ (pd ++ rel ++ [filename]) `prefix_of` (pd ++ rel' ++ [filename]).
Proof.
  intros Hwf Hrel Hrel' Hne Hpre.
  apply prefix_app_inv in Hpre.
  apply (holders_spec _ _ Hwf) in Hrel as (_ & es & Hes & Hfile).
  apply (holders_spec _ _ Hwf) in Hrel' as (_ & es' & Hes' & _).
  apply prefix_snoc_inv in Hpre as [[k ->]|Heq].
  - rewrite lookup_node_app, lookup_node_app, Hes in Hes'. simpl in Hes'.
    destruct (entry filename es) as [[data x|]|]; try discriminate.
    destruct k; discriminate.
  - apply app_inj_tail in Heq as [Heq _]. congruence.
Qed.

Lemma copy_meson_loop m d w t pmf pd :
  wf t = true ->
  components (curdir w) m = Some pmf ->
  lookup_node (fs w) pmf = Some t ->
  components (curdir w) d = Some pd ->
  forall rels w1 w',
    NoDup rels ->
    (forall rel, rel ∈ rels -> rel ∈ holders "meson.build" t) ->
    keeps w w1 ->
    for_each (map (relative_path "meson.build") rels) (copy_meson_file m d) w1
    = (Ok tt, w') ->
    (forall rel, rel ∈ rels ->
       lookup_node (fs w1) (pd ++ rel ++ ["meson.build"]) = None ->
       lookup_node (fs w') (pd ++ rel ++ ["meson.build"])
       = lookup_node (fs w) (pmf ++ rel ++ ["meson.build"])) /\
    (forall q,
       (forall rel, rel ∈ rels ->
          ~ q `prefix_of` (pd ++ rel ++ ["meson.build"]) /\
          ~ (pd ++ rel ++ ["meson.build"]) `prefix_of` q) ->
       lookup_node (fs w') q = lookup_node (fs w1) q).
Proof.
  intros Hwft Hpmf Ht Hpd.
  induction rels as [|rel rels IH]; intros w1 w' Hnd Hin Hk Hrun.
  - injection Hrun as <-. split; [intros rel Hrel; inversion Hrel | auto].
  - apply NoDup_cons in Hnd as [Hfresh Hnd].
    cbn [map for_each] in Hrun.
    apply bind_inv_ok in Hrun as ([] & w2 & Hstep & Hrest).
    assert (Hholder : rel ∈ holders "meson.build" t) by (apply Hin; constructor).
    pose proof (proj1 (holders_spec _ _ Hwft rel) Hholder)
      as (Hplain & es & Hes & Hfile).
    assert (Hname : plain "meson.build" = true) by reflexivity.
    pose proof Hk as (Hcwd1 & Hfiles1 & _).
    assert (Hdst : components (curdir w1)
                     (os_path_join d (relative_path "meson.build" rel))
                   = Some (pd ++ rel ++ ["meson.build"]))
      by (rewrite Hcwd1; now apply components_relative_path).
    assert (Hsrc : components (curdir w1)
                     (os_path_join m (relative_path "meson.build" rel))
                   = Some (pmf ++ rel ++ ["meson.build"]))
      by (rewrite Hcwd1; now apply components_relative_path).
    assert (Hsrcfile : is_file (lookup_node (fs w)
                                  (pmf ++ rel ++ ["meson.build"])) = true).
    { rewrite lookup_node_app, Ht, lookup_node_app, Hes. simpl.
      now destruct (entry "meson.build" es). }
    assert (Hstepped :
      keeps w1 w2 /\
      (lookup_node (fs w1) (pd ++ rel ++ ["meson.build"]) = None ->
       lookup_node (fs w2) (pd ++ rel ++ ["meson.build"])
       = lookup_node (fs w) (pmf ++ rel ++ ["meson.build"])) /\
      (forall q, ~ q `prefix_of` (pd ++ rel ++ ["meson.build"]) ->
                 ~ (pd ++ rel ++ ["meson.build"]) `prefix_of` q ->
                 lookup_node (fs w2) q = lookup_node (fs w1) q)).
    { assert (Hnode : node_at w1 (os_path_join d
                          (relative_path "meson.build" rel))
                      = lookup_node (fs w1) (pd ++ rel ++ ["meson.build"]))
        by (unfold node_at; now rewrite Hdst).
      revert Hstep. unfold copy_meson_file.
      erewrite bind_ok by apply os_path_exists_run.
      destruct (bool_decide (is_Some (node_at w1 (os_path_join d
                  (relative_path "meson.build" rel))))) eqn:Hex; cbn [negb].
      - apply bool_decide_eq_true in Hex. rewrite Hnode in Hex.
        intros H. injection H as <-.
        split; [apply keeps_refl|]. split; [|auto].
        intros Hnone. rewrite Hnone in Hex. destruct Hex; discriminate.
      - apply bool_decide_eq_false in Hex. rewrite Hnode in Hex.
        assert (Hnone : lookup_node (fs w1) (pd ++ rel ++ ["meson.build"])
                        = None).
        { destruct (lookup_node (fs w1) (pd ++ rel ++ ["meson.build"]));
            [|reflexivity]. exfalso. apply Hex. eauto. }
        intros Hstep.
        apply bind_inv_ok in Hstep as (a & w0 & Hpr & Hstep).
        apply print_inv in Hpr as [Hfs0 Hcwd0].
        apply bind_inv_ok in Hstep as (v & w3 & Hcp & Hend).
        injection Hend as <-.
        assert (Hnone0 : node_at w0 (os_path_join d
                           (relative_path "meson.build" rel)) = None).
        { unfold node_at. now rewrite Hcwd0, Hdst, Hfs0. }
        destruct (shutil_copy_fresh _ _ _ _ _ Hnone0 Hcp) as [Hk0 Hok].
        destruct (Hok v eq_refl)
          as (data & x & Hsrcat & Hdstat & pd' & Hpd' & Hothers).
        rewrite Hcwd0, Hdst in Hpd'. injection Hpd' as <-.
        assert (Hcwd3 : curdir w3 = curdir w1)
          by (destruct Hk0 as [-> _]; exact Hcwd0).
        split; [|split].
        + apply (keeps_trans _ w0); [|exact Hk0].
          repeat split; [easy | now rewrite Hfs0..].
        + intros _. unfold node_at in Hsrcat, Hdstat.
          rewrite Hcwd0, Hsrc, Hfs0 in Hsrcat.
          rewrite Hcwd3, Hdst in Hdstat.
          rewrite Hdstat, <- Hsrcat. now apply Hfiles1.
        + intros q H1 H2. rewrite <- Hfs0. apply Hothers; assumption. }
    destruct Hstepped as (Hk12 & Hcopied & Hothers).
    destruct (IH w2 w' Hnd) as [IHcopied IHothers];
      [intros r Hr; apply Hin; now constructor
      | now apply (keeps_trans _ w1) | exact Hrest |].
    assert (Hapart : forall rel', rel' ∈ rels ->
              ~ (pd ++ rel ++ ["meson.build"]) `prefix_of`
                  (pd ++ rel' ++ ["meson.build"]) /\
              ~ (pd ++ rel' ++ ["meson.build"]) `prefix_of`
                  (pd ++ rel ++ ["meson.build"])).
    { intros rel' Hrel'.
      assert (Hne : rel <> rel') by (intros ->; contradiction).
      split; apply (holders_apart _ t); try assumption;
        try (apply Hin; now constructor); congruence. }
    split.
    + intros r Hr Hnone. apply elem_of_cons in Hr as [->|Hr].
      * rewrite IHothers; [now apply Hcopied|].
        intros rel' Hrel'. now apply Hapart.
      * apply (IHcopied r Hr). rewrite Hothers; [exact Hnone | |];
          now apply Hapart.
    + intros q Hq. rewrite IHothers
        by (intros r Hr; apply Hq; now constructor).
      destruct (Hq rel) as [H1 H2]; [constructor|]. now apply Hothers.
Qed.

(** X22. When [copy_meson_files] returns, on a well-formed tree, every
    meson.build of the checkout that had nothing at its relative path under
    the distribution has a copy there, with the same content and mode; what
    is not at or above such a path is untouched. *)
Theorem meson_build_files_are_copied m d w t pmf pd w' :
  wf (fs w) = true ->
  components (curdir w) m = Some pmf ->
  lookup_node (fs w) pmf = Some t ->
  components (curdir w) d = Some pd ->
  copy_meson_files m d w = (Ok tt, w') ->
  (forall rel, rel ∈ holders "meson.build" t ->
     lookup_node (fs w) (pd ++ rel ++ ["meson.build"]) = None ->
     lookup_node (fs w') (pd ++ rel ++ ["meson.build"])
     = lookup_node (fs w) (pmf ++ rel ++ ["meson.build"]) /\
     is_file (lookup_node (fs w') (pd ++ rel ++ ["meson.build"])) = true) /\
  (forall q,
     (forall rel, rel ∈ holders "meson.build" t ->
        ~ q `prefix_of` (pd ++ rel ++ ["meson.build"]) /\
        ~ (pd ++ rel ++ ["meson.build"]) `prefix_of` q) ->
     lookup_node (fs w') q = lookup_node (fs w) q).
Proof.
  intros Hwf Hpmf Ht Hpd Hrun.
  pose proof (wf_lookup_node _ _ _ Hwf Ht) as Hwft.
  assert (Hat : node_at w m = Some t) by (unfold node_at; now rewrite Hpmf).
  change (copy_meson_files m d w)
    with (bind (paths_for_filename "meson.build" m)
               (fun meson_files => for_each meson_files (copy_meson_file m d))
               w) in Hrun.
  erewrite bind_ok in Hrun by (apply paths_for_filename_run; eassumption).
  destruct (copy_meson_loop m d w t pmf pd Hwft Hpmf Ht Hpd
              (holders "meson.build" t) w w')
    as [Hcopied Hothers]; auto using holders_NoDup, keeps_refl.
  split; [|exact Hothers].
  intros rel Hrel Hnone. split; [now apply Hcopied|].
  rewrite (Hcopied rel Hrel Hnone).
  apply (holders_spec _ _ Hwft) in Hrel as (_ & es & Hes & Hfile).
  rewrite lookup_node_app, Ht, lookup_node_app, Hes. simpl.
  now destruct (entry "meson.build" es).
Qed.

Lemma meson_build_files_are_copied_witness :
  lookup_node (fs (snd (copy_meson_files "modflow6" "mf6dev" meson_world)))
              ["mf6dev"; "utils"; "zonebudget"; "meson.build"]
  = Some (File "zbud6" false).
Proof.
  destruct (meson_build_files_are_copied "modflow6" "mf6dev" meson_world
              (Dir [("meson.build", File "project('modflow6')" false);
                    ("src", Dir [("meson.build", File "sources" false);
                                 ("mf6.f90", File "program mf6" false)]);
                    ("utils", Dir [("zonebudget",
                                    Dir [("meson.build", File "zbud6" false)])]);
                    ("doc", Dir [("readme.md", File "docs" false)])])
              ["modflow6"] ["mf6dev"]
              (snd (copy_meson_files "modflow6" "mf6dev" meson_world))
              eq_refl eq_refl eq_refl eq_refl eq_refl) as [Hcopied _].
  destruct (Hcopied ["utils"; "zonebudget"]) as [Hsame _].
  - apply (bool_decide_unpack _). reflexivity.
  - reflexivity.
  - exact Hsame.
Defined.

(** ** Example packager: what a run script says *)

Lemma touches_ret {A} c p (a : A) : touches c p (ret a).
Proof. intros w r w' Hc H. injection H as _ <-. auto. Qed.

Lemma touches_bind {A B} c p (m : M A) (f : A -> M B) :
  touches c p m -> (forall a, touches c p (f a)) -> touches c p (bind m f).
Proof.
  intros Hm Hf w r w' Hc Hrun.
  apply bind_inv in Hrun as [(a & w1 & H1 & H2)|(e & H1 & _)].
  - destruct (Hm _ _ _ Hc H1) as [Hc1 Hq1].
    destruct (Hf a _ _ _ Hc1 H2) as [Hc2 Hq2].
    split; [exact Hc2|]. intros q Ha Hb. now rewrite Hq2, Hq1.
  - now apply (Hm _ _ _ Hc H1).
Qed.

Lemma touches_print c p line : touches c p (print line).
Proof. intros w r w' Hc H. injection H as _ <-. auto. Qed.

Lemma touches_for_each {A} c p (xs : list A) (body : A -> M unit) :
  (forall x, touches c p (body x)) -> touches c p (for_each xs body).
Proof.
  intros Hbody. induction xs as [|x xs IH].
  - apply touches_ret.
  - cbn [for_each]. apply touches_bind; [apply Hbody | intros _; exact IH].
Qed.

Lemma touches_relpath c p path start : touches c p (os_path_relpath path start).
Proof.
  intros w r w' Hc. unfold os_path_relpath, bind, gets, raise, ret.
  destruct (bool_decide (path = "")); intros H; injection H as _ <-; auto.
Qed.

Lemma touches_open_w c p s : components c s = Some p -> touches c p (open_w s).
Proof.
  intros Hp w r w' Hc. subst c.
  unfold open_w, resolve_path, bind, gets, raise, set_fs, set_opened, modify.
  rewrite Hp.
  destruct (lookup_node (fs w) p) as [[data x|es]|];
    try (intros H; injection H as _ <-; now auto);
    (destruct (is_dir (lookup_node (fs w) (removelast p)));
     [ destruct (put (fs w) p _) as [t'|] eqn:Hput;
       intros H; injection H as _ <-; [|now auto];
       split; [reflexivity|]; intros q Ha Hb; simpl;
       now apply (put_other _ _ _ _ _ Hput)
     | destruct (bool_decide _); intros H; injection H as _ <-; now auto ]).
Qed.

Lemma touches_f_write c p s text :
  components c s = Some p -> touches c p (f_write s text).
Proof.
  intros Hp w r w' Hc. subst c.
  unfold f_write, resolve_path, bind, gets, raise, set_fs, modify.
  rewrite Hp.
  destruct (lookup_node (fs w) p) as [[data x|es]|];
    try (intros H; injection H as _ <-; now auto).
  destruct (put (fs w) p _) as [t'|] eqn:Hput;
    intros H; injection H as _ <-; [|now auto].
  split; [reflexivity|]. intros q Ha Hb. simpl.
  now apply (put_other _ _ _ _ _ Hput).
Qed.

Lemma touches_chmod_exec c p s :
  components c s = Some p -> touches c p (chmod_exec s).
Proof.
  intros Hp w r w' Hc. subst c.
  unfold chmod_exec, resolve_path, bind, gets, raise, set_fs, modify, ret.
  rewrite Hp.
  destruct (lookup_node (fs w) p) as [[data x|es]|];
    try (intros H; injection H as _ <-; now auto).
  destruct (put (fs w) p _) as [t'|] eqn:Hput;
    intros H; injection H as _ <-; [|now auto].
  split; [reflexivity|]. intros q Ha Hb. simpl.
  now apply (put_other _ _ _ _ _ Hput).
Qed.

Lemma touches_write_run_script c mf6path f pf :
  components c f = Some pf ->
  touches c (pf ++ ["run.sh"]) (write_run_script mf6path f).
Proof.
  intros Hpf.
  pose proof (components_join c f "run.sh" pf eq_refl Hpf) as Hname.
  unfold write_run_script.
  repeat (first [ apply touches_print
                | apply touches_relpath
                | now apply touches_open_w
                | now apply touches_f_write
                | now apply touches_chmod_exec
                | apply touches_bind; [|intros ?] ]).
Qed.

Lemma touches_write_visit c fname examples mf6path f prun :
  components c fname = Some prun ->
  touches c prun (write_visit fname examples mf6path f).
Proof.
  intros Hname. unfold write_visit.
  repeat (first [ apply touches_relpath
                | now apply touches_f_write
                | apply touches_bind; [|intros ?] ]).
Qed.

Lemma common_prefix_diverge (p x y : list string) a b :
  a <> b -> common_prefix (p ++ a :: x) (p ++ b :: y) = p.
Proof.
  intros Hne. induction p as [|c p IH]; simpl.
  - now rewrite decide_False.
  - rewrite decide_True by reflexivity. now rewrite IH.
Qed.

(** From a simulation folder to the program: up to the distribution, then
    down into bin. *)
Lemma relpath_to_mf6 c mf6path f (pd rel : list string) :
  f <> "" -> mf6path <> "" ->
  components c mf6path = Some (pd ++ ["bin"; "mf6"]) ->
  components c f = Some (pd ++ "examples" :: rel) ->
  relpath c mf6path f
  = str_join "/" (replicate (S (length rel)) ".." ++ ["bin"; "mf6"]).
Proof.
  intros Hf Hmf6 Hpm Hpf. unfold components in Hpm, Hpf.
  rewrite bool_decide_eq_false_2 in Hpm by exact Hmf6.
  rewrite bool_decide_eq_false_2 in Hpf by exact Hf.
  injection Hpm as Hpm. injection Hpf as Hpf.
  unfold relpath. rewrite Hpm, Hpf.
  rewrite common_prefix_diverge by discriminate.
  rewrite length_app. cbn [length].
  replace (length pd + S (length rel) - length pd) with (S (length rel)) by lia.
  rewrite drop_app_length. reflexivity.
Qed.

(** Two scripts in different folders are not one inside the other. *)
Lemma scripts_apart t (pf pg : list string) a b :
  pf <> pg ->
  is_dir (lookup_node t pg) = true ->
  is_dir (lookup_node t (pf ++ [a])) = false ->
  ~ (pf ++ [a]) `prefix_of` (pg ++ [b]).
Proof.
  intros Hne Hdir Hfree Hpre.
  apply prefix_snoc_inv in Hpre as [[k ->]|Heq].
  - destruct k as [|c k].
    + rewrite app_nil_r in Hdir. congruence.
    + rewrite (lookup_node_below _ _ (c :: k) Hfree) in Hdir; discriminate.
  - apply app_inj_tail in Heq as [Heq _]. congruence.
Qed.

(** All the per-folder scripts, with what they say. *)
Lemma write_run_scripts_content mf6path w0 :
  mf6path <> "" ->
  forall folders w,
    NoDup (map (fun f => components (curdir w0) f) folders) ->
    (forall f, f ∈ folders ->
       exists pf, components (curdir w0) f = Some pf /\
                  is_dir (lookup_node (fs w0) pf) = true /\
                  is_dir (lookup_node (fs w0) (pf ++ ["run.sh"])) = false) ->
    same_shape w0 w ->
    exists w',
      for_each folders (write_run_script mf6path) w = (Ok tt, w') /\
      same_shape w0 w' /\
      (forall f pf, f ∈ folders -> components (curdir w0) f = Some pf ->
         lookup_node (fs w') (pf ++ ["run.sh"])
         = Some (File ((("" +:+ ("#!/bin/bash" +:+ nl))
                        +:+ (relpath (curdir w0) mf6path f +:+ nl))
                       +:+ ("echo ." +:+ nl)) true)) /\
      (forall q,
         (forall f pf, f ∈ folders -> components (curdir w0) f = Some pf ->
            ~ (pf ++ ["run.sh"]) `prefix_of` q /\
            ~ q `prefix_of` (pf ++ ["run.sh"])) ->
         lookup_node (fs w') q = lookup_node (fs w) q).
Proof.
  intros Hmf6. induction folders as [|f folders IH]; intros w Hnd Hall Hshape.
  - exists w. split; [reflexivity|]. split; [exact Hshape|].
    split; [intros f pf Hf; inversion Hf | auto].
  - cbn [map] in Hnd. apply NoDup_cons in Hnd as [Hfresh Hnd].
    destruct (Hall f) as (pf & Hpf & Hdir & Hfree); [constructor|].
    pose proof Hshape as [Hcwd Hdirs].
    destruct (write_run_script_run mf6path f w pf Hmf6)
      as (w1 & Hrun & Hshape1 & _ & Hcontent);
      [now rewrite Hcwd | now rewrite Hdirs | now rewrite Hdirs |].
    pose proof (touches_write_run_script (curdir w) mf6path f pf
                  ltac:(now rewrite Hcwd) w _ _ eq_refl Hrun) as [_ Hframe1].
    destruct (IH w1 Hnd) as (w' & Hrest & Hshape' & Hcontents & Hframe);
      [intros g Hg; apply Hall; now constructor
      | now apply (same_shape_trans w0 w w1) |].
    assert (Hapart : forall g pg, g ∈ folders ->
              components (curdir w0) g = Some pg ->
              ~ (pg ++ ["run.sh"]) `prefix_of` (pf ++ ["run.sh"]) /\
              ~ (pf ++ ["run.sh"]) `prefix_of` (pg ++ ["run.sh"])).
    { intros g pg Hg Hpg.
      assert (Hne : pf <> pg).
      { intros ->. apply Hfresh. apply list_elem_of_fmap. exists g.
        split; [congruence | exact Hg]. }
      destruct (Hall g) as (pg' & Hpg' & Hdirg & Hfreeg); [now constructor|].
      rewrite Hpg in Hpg'. injection Hpg' as <-.
      split; apply (scripts_apart (fs w0)); auto. }
    exists w'. split; [|split; [exact Hshape'|split]].
    + cbn [for_each]. erewrite bind_ok by exact Hrun. exact Hrest.
    + intros g pg Hg Hpg. apply elem_of_cons in Hg as [->|Hg].
      * rewrite Hpf in Hpg. injection Hpg as <-.
        rewrite Hframe.
        -- now rewrite Hcontent, Hcwd.
        -- intros g pg Hg Hpg. exact (Hapart g pg Hg Hpg).
      * now apply Hcontents.
    + intros q Hq. rewrite Hframe
        by (intros g pg Hg Hpg; apply (Hq g); [now constructor | exact Hpg]).
      destruct (Hq f pf) as [H1 H2]; [constructor | exact Hpf |].
      now apply Hframe1.
Qed.

Lemma script_apart_runall t (rel : list string) :
  is_dir (lookup_node t rel) = true ->
  is_dir (lookup_node t ["runall.sh"]) = false ->
  ~ ["runall.sh"] `prefix_of` (rel ++ ["run.sh"]) /\
  ~ (rel ++ ["run.sh"]) `prefix_of` ["runall.sh"].
Proof.
  intros Hdir Hfree. split.
  - intros Hpre. apply prefix_snoc_inv in Hpre as [[k ->]|Heq].
    + destruct k as [|c k]; [rewrite app_nil_r in Hdir; congruence|].
      rewrite (lookup_node_below t ["runall.sh"] (c :: k)) in Hdir;
        [discriminate | exact Hfree | discriminate].
    + destruct rel as [|a [|b rel]]; discriminate.
  - intros Hpre. destruct rel as [|a rel].
    + destruct Hpre as [k Hk]. discriminate.
    + apply prefix_length in Hpre. rewrite length_app in Hpre.
      simpl in Hpre. lia.
Qed.

Lemma common_prefix_app_l (p r : list string) : common_prefix (p ++ r) p = p.
Proof.
  induction p as [|x p IH]; simpl.
  - now destruct r.
  - rewrite decide_True by reflexivity. now rewrite IH.
Qed.

(** Between the examples folder and a folder below it. *)
Lemma relpath_from_examples c examples f (pe rel : list string) :
  f <> "" -> examples <> "" -> rel <> [] ->
  components c examples = Some pe ->
  components c f = Some (pe ++ rel) ->
  relpath c f examples = str_join "/" rel /\
  relpath c examples f = str_join "/" (replicate (length rel) "..").
Proof.
  intros Hf Hex Hrel Hpe Hpf. unfold components in Hpe, Hpf.
  rewrite bool_decide_eq_false_2 in Hpe by exact Hex.
  rewrite bool_decide_eq_false_2 in Hpf by exact Hf.
  injection Hpe as Hpe. injection Hpf as Hpf.
  unfold relpath. rewrite Hpe, Hpf. split.
  - rewrite common_prefix_app, Nat.sub_diag, drop_app_length. simpl.
    destruct rel; [congruence | reflexivity].
  - rewrite common_prefix_app_l, length_app.
    replace (length pe + length rel - length pe) with (length rel) by lia.
    rewrite drop_all, app_nil_r.
    destruct rel; [congruence | reflexivity].
Qed.

Lemma visit_closed c d (pd rel : list string) :
  let examples := os_path_join d "examples" in
  let mf6path := os_path_join (os_path_join d "bin") "mf6" in
  components c d = Some pd ->
  rel <> [] -> Forall (fun n => plain n = true) rel ->
  visit c examples mf6path (path_below examples rel) = visit_lines rel.
Proof.
  intros examples mf6path Hpd Hne Hplain.
  assert (Hpe : components c examples = Some (pd ++ ["examples"]))
    by now apply (components_join c d "examples").
  assert (Hpm : components c mf6path = Some (pd ++ ["bin"; "mf6"])).
  { unfold mf6path.
    rewrite (components_join c _ "mf6" (pd ++ ["bin"]) eq_refl);
      [now rewrite <- app_assoc | now apply (components_join c d "bin")]. }
  pose proof (components_path_below c rel Hplain _ _ Hpe) as Hpf.
  pose proof (components_nonempty _ _ _ Hpf) as Hf.
  pose proof (components_nonempty _ _ _ Hpe) as Hex.
  pose proof (components_nonempty _ _ _ Hpm) as Hmf6.
  destruct (relpath_from_examples c examples _ _ rel Hf Hex Hne Hpe Hpf)
    as [Hdown Hup].
  unfold visit, visit_lines. rewrite Hdown, Hup.
  rewrite (relpath_to_mf6 c mf6path _ pd rel Hf Hmf6 Hpm);
    [reflexivity | now rewrite <- app_assoc in Hpf].
Qed.

(** The aggregate script and the frame of the whole function. *)
Lemma run_scripts_written w d pd t :
  let examples := os_path_join d "examples" in
  let mf6path := os_path_join (os_path_join d "bin") "mf6" in
  is_windows (sys_platform w) = false ->
  wf (fs w) = true ->
  components (curdir w) d = Some pd ->
  lookup_node (fs w) (pd ++ ["examples"]) = Some t ->
  is_dir (Some t) = true ->
  (forall rel, rel ∈ marker_below t ->
     is_dir (lookup_node t (rel ++ ["run.sh"])) = false) ->
  is_dir (lookup_node t ["runall.sh"]) = false ->
  exists w' rels,
    build_example_run_scripts_linux d w = (Ok tt, w') /\
    rels ≡ₚ marker_below t /\
    map (path_below examples) rels = sorted (marker_folders examples t) /\
    (forall rel, rel ∈ marker_below t ->
       lookup_node (fs w') (pd ++ "examples" :: rel ++ ["run.sh"])
       = Some (File (run_script (S (length rel))) true)) /\
    lookup_node (fs w') (pd ++ ["examples"; "runall.sh"])
    = Some (File (("#!/bin/bash" +:+ nl)
                  +:+ concat_strings (map visit_lines rels)) true) /\
    (forall q,
       ~ (pd ++ ["examples"; "runall.sh"]) `prefix_of` q ->
       ~ q `prefix_of` (pd ++ ["examples"; "runall.sh"]) ->
       (forall rel, rel ∈ marker_below t ->
          ~ (pd ++ "examples" :: rel ++ ["run.sh"]) `prefix_of` q /\
          ~ q `prefix_of` (pd ++ "examples" :: rel ++ ["run.sh"])) ->
       lookup_node (fs w') q = lookup_node (fs w) q).
Proof.
  intros examples mf6path Hplat Hwf Hpd Ht Htdir Hfree Hfreeall.
  set (folders := sorted (marker_folders examples t)).
  set (pe := pd ++ ["examples"]) in *.
  assert (Hpe : components (curdir w) examples = Some pe)
    by now apply (components_join _ d "examples").
  assert (Hpm : components (curdir w) mf6path = Some (pd ++ ["bin"; "mf6"])).
  { unfold mf6path.
    rewrite (components_join _ _ "mf6" (pd ++ ["bin"]) eq_refl);
      [now rewrite <- app_assoc | now apply (components_join _ d "bin")]. }
  destruct (get_platform_run w Hplat) as (platform & Hplatform & Hnotwin).
  set (w1 := snd (print "Building example run scripts" w)).
  assert (Hmf6 : mf6path <> "") by now apply (components_nonempty _ _ _ Hpm).
  assert (Hex : examples <> "") by now apply (components_nonempty _ _ _ Hpe).
  assert (Hfound : get_list_simulation_folders examples w1 = (Ok folders, w1)).
  { apply get_list_simulation_folders_run; [exact Hwf|].
    unfold node_at. change (curdir w1) with (curdir w). now rewrite Hpe. }
  assert (Hwft : wf t = true) by now apply (wf_lookup_node _ _ _ Hwf Ht).
  (* the folders, by the names that lead to them *)
  assert (Hbelow : forall rel, rel ∈ marker_below t ->
            components (curdir w) (path_below examples rel) = Some (pe ++ rel) /\
            rel <> [] /\ Forall (fun n => plain n = true) rel /\
            is_dir (lookup_node t rel) = true).
  { intros rel Hrel.
    destruct (marker_below_inv t Hwft rel Hrel) as (Hne & Hall & es & Hl & _).
    split; [now apply components_path_below|].
    split; [exact Hne|]. split; [exact Hall|]. now rewrite Hl. }
  assert (Hrels : exists rels, folders = map (path_below examples) rels /\
                               marker_below t ≡ₚ rels).
  { apply Permutation_map_inv. apply sorted_Permutation. }
  destruct Hrels as (rels & Hfolders_eq & Hperm).
  assert (Hin : forall f, f ∈ folders ->
            exists rel, rel ∈ marker_below t /\ f = path_below examples rel).
  { intros f Hf. apply (proj1 (sorted_elem_of _ _)) in Hf.
    apply list_elem_of_fmap in Hf as (rel & -> & Hrel). eauto. }
  assert (Hfolders : forall f, f ∈ folders ->
            exists pf, components (curdir w1) f = Some pf /\
                       is_dir (lookup_node (fs w1) pf) = true /\
                       is_dir (lookup_node (fs w1) (pf ++ ["run.sh"])) = false).
  { intros f Hf. destruct (Hin f Hf) as (rel & Hrel & ->).
    destruct (Hbelow rel Hrel) as (Hcf & _ & _ & Hdir).
    exists (pe ++ rel). split; [exact Hcf|].
    change (fs w1) with (fs w). split.
    - now rewrite lookup_node_app, Ht.
    - rewrite <- app_assoc, lookup_node_app, Ht. now apply Hfree. }
  assert (Hnd : NoDup (map (fun f => components (curdir w1) f) folders)).
  { rewrite Hfolders_eq, map_map.
    apply NoDup_fmap_2_strong.
    - intros x y Hx Hy Heq.
      rewrite <- Hperm in Hx, Hy.
      destruct (Hbelow x Hx) as (Hcx & _). destruct (Hbelow y Hy) as (Hcy & _).
      change (curdir w1) with (curdir w) in Heq.
      rewrite Hcx, Hcy in Heq. injection Heq as Heq.
      now apply app_inv_head in Heq.
    - rewrite <- Hperm. now apply marker_below_NoDup. }
  destruct (write_run_scripts_content mf6path w1 Hmf6 folders w1 Hnd Hfolders
              (same_shape_refl w1))
    as (w2 & Hloop1 & [Hc2 Hs2] & Hcontents & Hframe2).
  (* the aggregate script *)
  set (fname := os_path_join examples "runall.sh").
  set (prun := pd ++ ["examples"; "runall.sh"]).
  assert (Hname : components (curdir w) fname = Some (pe ++ ["runall.sh"]))
    by now apply (components_join _ examples "runall.sh").
  assert (Hprun : pe ++ ["runall.sh"] = prun)
    by (unfold pe, prun; now rewrite <- app_assoc).
  destruct (open_w_run fname w2 pe "runall.sh")
    as (w3 & x & Hopen & [Hc3 Hs3] & Ho3 & Hl3).
  { rewrite Hc2. exact Hname. }
  { rewrite Hs2. change (fs w1) with (fs w). now rewrite Ht. }
  { rewrite Hs2. change (fs w1) with (fs w).
    now rewrite lookup_node_app, Ht. }
  destruct (f_write_run fname ("#!/bin/bash" +:+ nl) w3 _ _ _
              ltac:(rewrite Hc3, Hc2; exact Hname) Hl3)
    as (w4 & Hw4 & [Hc4 Hs4] & Ho4 & Hl4).
  destruct (write_visits_run fname examples mf6path (pe ++ ["runall.sh"]) x
              Hex Hmf6 folders w4 ("" +:+ ("#!/bin/bash" +:+ nl)))
    as (w5 & Hloop2 & [Hc5 Hs5] & Ho5 & Hl5).
  { intros f Hf. destruct (Hfolders f Hf) as (pf & Hcf & _).
    now apply (components_nonempty _ _ _ Hcf). }
  { rewrite Hc4, Hc3, Hc2. exact Hname. }
  { exact Hl4. }
  destruct (chmod_exec_run fname w5 _ _ _
              ltac:(rewrite Hc5, Hc4, Hc3, Hc2; exact Hname) Hl5)
    as (w6 & Hw6 & [Hc6 Hs6] & Ho6 & Hl6).
  (* nothing but the aggregate script changes after the first loop *)
  assert (Htail : forall q, ~ prun `prefix_of` q -> ~ q `prefix_of` prun ->
            lookup_node (fs w6) q = lookup_node (fs w2) q).
  { intros q Ha Hb. rewrite <- Hprun in Ha, Hb.
    assert (Hn2 : components (curdir w) fname = Some (pe ++ ["runall.sh"]))
      by exact Hname.
    destruct (touches_chmod_exec (curdir w) _ fname Hn2 w5 _ _
                ltac:(rewrite Hc5, Hc4, Hc3, Hc2; reflexivity) Hw6) as [_ H6].
    destruct (touches_for_each (curdir w) (pe ++ ["runall.sh"]) folders
                (write_visit fname examples mf6path)
                (fun f => touches_write_visit _ fname examples mf6path f _ Hn2)
                w4 _ _ ltac:(rewrite Hc4, Hc3, Hc2; reflexivity) Hloop2)
      as [_ H5].
    destruct (touches_f_write (curdir w) _ fname _ Hn2 w3 _ _
                ltac:(rewrite Hc3, Hc2; reflexivity) Hw4) as [_ H4].
    destruct (touches_open_w (curdir w) _ fname Hn2 w2 _ _
                ltac:(rewrite Hc2; reflexivity) Hopen) as [_ H3].
    now rewrite H6, H5, H4, H3. }
  assert (Hscript : forall rel, pe ++ rel ++ ["run.sh"]
                                = pd ++ "examples" :: rel ++ ["run.sh"])
    by (intros rel; unfold pe; now rewrite <- app_assoc).
  exists w6, rels. split; [|split; [|split; [|split; [|split]]]].
  - unfold build_example_run_scripts_linux.
    erewrite bind_ok by exact Hplatform. rewrite Hnotwin.
    erewrite bind_ok by reflexivity. fold w1.
    erewrite bind_ok by exact Hfound.
    erewrite bind_ok by exact Hloop1.
    erewrite bind_ok by exact Hopen.
    erewrite bind_ok by exact Hw4.
    erewrite bind_ok by exact Hloop2.
    exact Hw6.
  - now symmetry.
  - now symmetry.
  - intros rel Hrel.
    destruct (Hbelow rel Hrel) as (Hcf & Hne & Hplain & Hdir).
    rewrite <- Hscript, Htail.
    + assert (Hf : path_below examples rel ∈ folders).
      { apply sorted_elem_of. apply list_elem_of_fmap. eauto. }
      rewrite app_assoc. rewrite (Hcontents _ _ Hf Hcf).
      rewrite (relpath_to_mf6 (curdir w1) mf6path _ pd rel);
        [reflexivity | now apply (components_nonempty _ _ _ Hcf)
        | exact Hmf6 | exact Hpm
        | unfold pe in Hcf; now rewrite <- app_assoc in Hcf].
    + rewrite <- Hprun. intros Hpre. apply prefix_app_inv in Hpre.
      now destruct (script_apart_runall t rel Hdir Hfreeall) as [H1 _].
    + rewrite <- Hprun. intros Hpre. apply prefix_app_inv in Hpre.
      now destruct (script_apart_runall t rel Hdir Hfreeall) as [_ H2].
  - fold prun. rewrite <- Hprun, Hl6. do 2 f_equal.
    change ("" +:+ ("#!/bin/bash" +:+ nl)) with ("#!/bin/bash" +:+ nl).
    f_equal. f_equal. rewrite Hfolders_eq, map_map.
    apply map_ext_in. intros rel Hrel.
    apply list_elem_of_In in Hrel. rewrite <- Hperm in Hrel.
    destruct (Hbelow rel Hrel) as (_ & Hne & Hplain & _).
    replace (curdir w4) with (curdir w)
      by (rewrite Hc4, Hc3, Hc2; reflexivity).
    exact (visit_closed (curdir w) d pd rel Hpd Hne Hplain).
  - intros q Ha Hb Hothers. fold prun in Ha, Hb.
    rewrite (Htail q Ha Hb). rewrite Hframe2; [reflexivity|].
    intros f pf Hf Hpf. destruct (Hin f Hf) as (rel & Hrel & ->).
    destruct (Hbelow rel Hrel) as (Hcf & _).
    change (curdir w1) with (curdir w) in Hpf. rewrite Hcf in Hpf.
    injection Hpf as <-. rewrite <- app_assoc, Hscript.
    now apply Hothers.
Qed.

(** X23. Where the Unix variant runs, with the distribution at the names
    [pd] and no directory standing where a script is to be written,
    [build_example_run_scripts_linux] returns and the run.sh of every
    simulation folder is an executable file of three lines:
    the bash header, the path of bin/mf6 relative to the folder (one ".."
    for each level of the folder below the examples folder and one more,
    then bin/mf6), and "echo .". *)
Theorem run_scripts_call_the_program w d pd t :
  is_windows (sys_platform w) = false ->
  wf (fs w) = true ->
  components (curdir w) d = Some pd ->
  lookup_node (fs w) (pd ++ ["examples"]) = Some t ->
  is_dir (Some t) = true ->
  (forall rel, rel ∈ marker_below t ->
     is_dir (lookup_node t (rel ++ ["run.sh"])) = false) ->
  is_dir (lookup_node t ["runall.sh"]) = false ->
  exists w',
    build_example_run_scripts_linux d w = (Ok tt, w') /\
    forall rel, rel ∈ marker_below t ->
      lookup_node (fs w') (pd ++ "examples" :: rel ++ ["run.sh"])
      = Some (File (run_script (S (length rel))) true).
Proof.
  intros Hplat Hwf Hpd Ht Htdir Hfree Hfreeall.
  destruct (run_scripts_written w d pd t Hplat Hwf Hpd Ht Htdir Hfree Hfreeall)
    as (w' & rels & Hrun & _ & _ & Hscripts & _).
  exists w'. split; [exact Hrun | exact Hscripts].
Qed.

Lemma run_scripts_call_the_program_witness :
  exists w',
    build_example_run_scripts_linux "mf6dev" examples_world = (Ok tt, w') /\
    lookup_node (fs w') ["mf6dev"; "examples"; "ex-gwf-a"; "mf6gwf"; "run.sh"]
    = Some (File ((("#!/bin/bash" +:+ nl) +:+ ("../../../bin/mf6" +:+ nl))
                  +:+ ("echo ." +:+ nl)) true).
Proof.
  destruct (run_scripts_call_the_program examples_world "mf6dev" ["mf6dev"]
              examples_folder eq_refl eq_refl eq_refl eq_refl eq_refl)
    as (w' & Hrun & Hscripts).
  - intros rel Hrel. apply list_elem_of_In in Hrel. vm_compute in Hrel.
    destruct Hrel as [<-|[<-|[<-|[]]]]; reflexivity.
  - reflexivity.
  - exists w'. split; [exact Hrun|].
    apply (Hscripts ["ex-gwf-a"; "mf6gwf"]).
    apply list_elem_of_In. vm_compute. auto.
Defined.

(** X24. Where the Unix variant runs, with the distribution at the names
    [pd] and no directory standing where a script is to be written,
    [build_example_run_scripts_linux] returns and has changed nothing in the
    file system but its scripts: whatever is neither runall.sh of the
    examples folder nor the run.sh of a simulation folder (nor above or
    below one of them) is after the run what it was before. *)
Theorem run_scripts_change_nothing_else w d pd t :
  is_windows (sys_platform w) = false ->
  wf (fs w) = true ->
  components (curdir w) d = Some pd ->
  lookup_node (fs w) (pd ++ ["examples"]) = Some t ->
  is_dir (Some t) = true ->
  (forall rel, rel ∈ marker_below t ->
     is_dir (lookup_node t (rel ++ ["run.sh"])) = false) ->
  is_dir (lookup_node t ["runall.sh"]) = false ->
  exists w',
    build_example_run_scripts_linux d w = (Ok tt, w') /\
    forall q,
      ~ (pd ++ ["examples"; "runall.sh"]) `prefix_of` q ->
      ~ q `prefix_of` (pd ++ ["examples"; "runall.sh"]) ->
      (forall rel, rel ∈ marker_below t ->
         ~ (pd ++ "examples" :: rel ++ ["run.sh"]) `prefix_of` q /\
         ~ q `prefix_of` (pd ++ "examples" :: rel ++ ["run.sh"])) ->
      lookup_node (fs w') q = lookup_node (fs w) q.
Proof.
  intros Hplat Hwf Hpd Ht Htdir Hfree Hfreeall.
  destruct (run_scripts_written w d pd t Hplat Hwf Hpd Ht Htdir Hfree Hfreeall)
    as (w' & rels & Hrun & _ & _ & _ & _ & Hframe).
  exists w'. split; [exact Hrun | exact Hframe].
Qed.

Lemma run_scripts_change_nothing_else_witness :
  exists w',
    build_example_run_scripts_linux "mf6dev" examples_world = (Ok tt, w') /\
    lookup_node (fs w') ["mf6dev"; "examples"; "ex-gwf-a"; "mfsim.nam"]
    = Some (File "sim" false).
Proof.
  destruct (run_scripts_change_nothing_else examples_world "mf6dev" ["mf6dev"]
              examples_folder eq_refl eq_refl eq_refl eq_refl eq_refl)
    as (w' & Hrun & Hframe).
  - intros rel Hrel. apply list_elem_of_In in Hrel. vm_compute in Hrel.
    destruct Hrel as [<-|[<-|[<-|[]]]]; reflexivity.
  - reflexivity.
  - exists w'. split; [exact Hrun|].
    rewrite Hframe; [reflexivity | | |].
    + apply (bool_decide_eq_false_1 _). vm_compute. reflexivity.
    + apply (bool_decide_eq_false_1 _). vm_compute. reflexivity.
    + intros rel Hrel. apply list_elem_of_In in Hrel. vm_compute in Hrel.
      destruct Hrel as [<-|[<-|[<-|[]]]];
        (split; apply (bool_decide_eq_false_1 _); vm_compute; reflexivity).
Defined.

(** X25. Where the Unix variant runs, with the distribution at the names
    [pd] and no directory standing where a script is to be written,
    [build_example_run_scripts_linux] returns and runall.sh of the examples
    folder is an executable file: the bash header, then for each simulation
    folder, each once and in the sorted order of the folders' paths, four
    lines: cd into the folder by its path relative to the examples folder,
    the path of bin/mf6 relative to the folder, cd back by one ".." for each
    level, and an empty line. *)
Theorem aggregate_script_visits_each_folder w d pd t :
  is_windows (sys_platform w) = false ->
  wf (fs w) = true ->
  components (curdir w) d = Some pd ->
  lookup_node (fs w) (pd ++ ["examples"]) = Some t ->
  is_dir (Some t) = true ->
  (forall rel, rel ∈ marker_below t ->
     is_dir (lookup_node t (rel ++ ["run.sh"])) = false) ->
  is_dir (lookup_node t ["runall.sh"]) = false ->
  exists w' rels,
    build_example_run_scripts_linux d w = (Ok tt, w') /\
    rels ≡ₚ marker_below t /\
    Sorted String.le (map (path_below (os_path_join d "examples")) rels) /\
    lookup_node (fs w') (pd ++ ["examples"; "runall.sh"])
    = Some (File (("#!/bin/bash" +:+ nl)
                  +:+ concat_strings (map visit_lines rels)) true).
Proof.
  intros Hplat Hwf Hpd Ht Htdir Hfree Hfreeall.
  destruct (run_scripts_written w d pd t Hplat Hwf Hpd Ht Htdir Hfree Hfreeall)
    as (w' & rels & Hrun & Hperm & Hsorted & _ & Hall & _).
  exists w', rels. split; [exact Hrun|]. split; [exact Hperm|].
  split; [|exact Hall]. rewrite Hsorted. apply sorted_Sorted.
Qed.

Lemma aggregate_script_visits_each_folder_witness :
  exists w' rels,
    build_example_run_scripts_linux "mf6dev" examples_world = (Ok tt, w') /\
    rels ≡ₚ [["ex-gwt-b"]; ["ex-gwf-a"]; ["ex-gwf-a"; "mf6gwf"]] /\
    lookup_node (fs w') ["mf6dev"; "examples"; "runall.sh"]
    = Some (File (("#!/bin/bash" +:+ nl)
                  +:+ concat_strings (map visit_lines rels)) true).
Proof.
  destruct (aggregate_script_visits_each_folder examples_world "mf6dev"
              ["mf6dev"] examples_folder eq_refl eq_refl eq_refl eq_refl eq_refl)
    as (w' & rels & Hrun & Hperm & _ & Hall).
  - intros rel Hrel. apply list_elem_of_In in Hrel. vm_compute in Hrel.
    destruct Hrel as [<-|[<-|[<-|[]]]]; reflexivity.
  - reflexivity.
  - exists w', rels. split; [exact Hrun|]. split; [exact Hperm | exact Hall].
Defined.
